(** * UniFi MCP server: client, capability detector and tool registry

    A shallow embedding of the TypeScript classes [VersionDetector] and
    [UniFiClient] (under [src/unifi]), [ErrorRecovery] and the error
    classes ([src/utils/errors.ts]), [ToolRegistry]
    ([src/server/toolRegistry.ts]) and the tables of
    [src/config/constants.ts], with the properties the specification
    states about them.

    Conventions of the embedding:
    - a JavaScript string is a [string] of code units below 256;
    - [Date.now()] and [new Date()] are integer milliseconds in [Z];
    - an [async] function that may reject is a function into [Outcome]:
      [Returned v] for a fulfilled promise, [Threw e] for a rejected one;
    - what a call observes of its collaborators (the clock, the remote
      controller, [Math.random], a tool's handler) is an argument of the
      function that embeds it; logging is left out;
    - an average latency, a JavaScript double in the source, is
      computed over the rationals;
    - a [Map] iterated in insertion order is an association list;
      a plain object used as a dictionary is a [gmap]. *)

From Stdlib Require Import ZArith NArith QArith Ascii String List Bool.
From Stdlib Require Import Lia Lqa.
From stdpp Require Import base option list gmap strings.

#[local] Set Warnings "-register-all".
Local Open Scope string_scope.
Local Open Scope Z_scope.

(** ** JavaScript values the sources rely on *)

Module JS.

(** The numbers [Number(s)] can produce from a version component:
    a finite integer, [Infinity] or [NaN]. *)
Inductive num : Type :=
| NaN
| Fin (z : Z)
| Infinity.

(** [x > y] and [x < y] on numbers: every comparison with [NaN] is
    false. *)
Definition gt (x y : num) : bool :=
  match x, y with
  | Fin a, Fin b => b <? a
  | Infinity, Fin _ => true
  | _, _ => false
  end.

Definition lt (x y : num) : bool := gt y x.

(** [x || 0] where [x] is an array read: [undefined] (index out of
    range), [NaN] and [0] are falsy. *)
Definition or_zero (x : option num) : num :=
  match x with
  | None => Fin 0
  | Some NaN => Fin 0
  | Some (Fin z) => Fin z
  | Some Infinity => Infinity
  end.

Definition is_digit (c : ascii) : bool :=
  let n := nat_of_ascii c in ((48 <=? n) && (n <=? 57))%nat.

Fixpoint all_digits (s : string) : bool :=
  match s with
  | EmptyString => true
  | String c t => is_digit c && all_digits t
  end.

Fixpoint digits_value (acc : N) (s : string) : N :=
  match s with
  | EmptyString => acc
  | String c t => digits_value (10 * acc + (N_of_ascii c - 48))%N t
  end.

(** Conversion of a natural number to the nearest IEEE double
    (ties to even); [None] is [Infinity]. Integers up to [2^53] are
    exact. *)
Definition to_double (n : N) : option N :=
  if (n <=? 2 ^ 53)%N then Some n
  else
    let e := (N.log2 n - 52)%N in
    let q := N.shiftr n e in
    let r := (n mod 2 ^ e)%N in
    let half := (2 ^ (e - 1))%N in
    let q' := if ((half <? r) || ((r =? half) && N.odd q))%N
              then (q + 1)%N else q in
    let v := (q' * 2 ^ e)%N in
    if (2 ^ 1024 <=? v)%N then None else Some v.

(** [Number(s)] on the strings a dotted version yields: the empty
    string is [0], a string of decimal digits is the double nearest to
    its value, anything else is taken to be [NaN]. (Signs, white
    space, exponents and radix prefixes, which [Number] also accepts,
    are outside the embedding.) *)
Definition Number_ (s : string) : num :=
  match s with
  | EmptyString => Fin 0
  | _ =>
      if all_digits s then
        match to_double (digits_value 0 s) with
        | Some v => Fin (Z.of_N v)
        | None => Infinity
        end
      else NaN
  end.

(** [s.split(sep)] for a one-character separator. *)
Fixpoint split (sep : ascii) (s : string) : list string :=
  match s with
  | EmptyString => [EmptyString]
  | String c t =>
      if Ascii.eqb c sep then EmptyString :: split sep t
      else match split sep t with
           | h :: r => String c h :: r
           | [] => [String c EmptyString]
           end
  end.

(** [hay.includes(needle)] *)
Fixpoint includes (hay needle : string) : bool :=
  String.prefix needle hay ||
  match hay with
  | EmptyString => false
  | String _ t => includes t needle
  end.

(** [toLowerCase] and [toUpperCase] on code units below 256. (The
    upper-case forms of U+00B5, U+00DF and U+00FF lie outside that
    range; those three are left as they are.) *)
Definition lower_char (c : ascii) : ascii :=
  let n := nat_of_ascii c in
  if (((65 <=? n) && (n <=? 90)) ||
      ((192 <=? n) && (n <=? 222) && negb (n =? 215)))%nat
  then ascii_of_nat (n + 32) else c.

Definition upper_char (c : ascii) : ascii :=
  let n := nat_of_ascii c in
  if (((97 <=? n) && (n <=? 122)) ||
      ((224 <=? n) && (n <=? 254) && negb (n =? 247)))%nat
  then ascii_of_nat (n - 32) else c.

Fixpoint map_string (f : ascii -> ascii) (s : string) : string :=
  match s with
  | EmptyString => EmptyString
  | String c t => String (f c) (map_string f t)
  end.

Definition toLowerCase : string -> string := map_string lower_char.
Definition toUpperCase : string -> string := map_string upper_char.

Fixpoint filter_string (keep : ascii -> bool) (s : string) : string :=
  match s with
  | EmptyString => EmptyString
  | String c t =>
      if keep c then String c (filter_string keep t) else filter_string keep t
  end.

(** The class [[-_\s]] on code units below 256: hyphen, underscore,
    TAB, LF, VT, FF, CR, space and NBSP. *)
Definition is_sep_char (c : ascii) : bool :=
  let n := nat_of_ascii c in
  ((n =? 45) || (n =? 95) || ((9 <=? n) && (n <=? 13)) || (n =? 32) ||
   (n =? 160))%nat.

(** Values of type [any]: response bodies, tool arguments and
    configuration fields. Numbers that occur there are integers. *)
Inductive value : Type :=
| VUndefined
| VNull
| VBool (b : bool)
| VNumber (z : Z)
| VString (s : string)
| VArray (items : list value)
| VObject (props : list (string * value)).

(** Truthiness, as [&&] and [if] test it. *)
Definition truthy (v : value) : bool :=
  match v with
  | VUndefined | VNull => false
  | VBool b => b
  | VNumber z => negb (z =? 0)
  | VString s => negb (String.eqb s "")
  | VArray _ | VObject _ => true
  end.

Fixpoint assoc {A : Type} (k : string) (l : list (string * A)) : option A :=
  match l with
  | [] => None
  | (k', v) :: t => if String.eqb k k' then Some v else assoc k t
  end.

(** [v.key] on a value that is neither [null] nor [undefined], for a
    key that is not an array index or a built-in member. *)
Definition prop (v : value) (key : string) : value :=
  match v with
  | VObject props => default VUndefined (assoc key props)
  | _ => VUndefined
  end.

Definition isArray (v : value) : bool :=
  match v with
  | VArray _ => true
  | _ => false
  end.

End JS.

(** ** Errors ([src/utils/errors.ts], [ErrorCode] of [src/server/types.ts]) *)

Module Errors.

Inductive ErrorCode : Type :=
| CONNECTION_FAILED | AUTHENTICATION_FAILED | NETWORK_TIMEOUT | SSL_ERROR
| API_KEY_INVALID | API_RATE_LIMITED | API_ENDPOINT_NOT_FOUND
| API_PERMISSION_DENIED
| FEATURE_NOT_SUPPORTED | HARDWARE_INCOMPATIBLE | VERSION_INCOMPATIBLE
| VALIDATION_ERROR | PARAMETER_MISSING | PARAMETER_INVALID
| RESOURCE_NOT_FOUND | RESOURCE_CONFLICT | RESOURCE_LIMIT_EXCEEDED
| INTERNAL_ERROR | CONFIG_ERROR | CACHE_ERROR | INITIALIZATION_ERROR
| TOOL_REGISTRATION_ERROR | TOOL_NOT_FOUND | TOOL_DISABLED
| CONNECTION_REQUIRED | FEATURE_NOT_AVAILABLE | EXECUTION_ERROR
| UNKNOWN_FEATURE | CAPABILITY_DETECTION_FAILED | INVALID_DATA
| SYSTEM_INFO_ERROR | RULE_CREATION_FAILED | RULE_UPDATE_FAILED
| RULE_DELETION_FAILED | RULE_TOGGLE_FAILED | BLOCK_FAILED
| UNBLOCK_FAILED | KICK_FAILED | RESTART_FAILED | ADOPTION_FAILED
| UPGRADE_FAILED.

(** The [details] payloads the modelled code attaches to an error. *)
Inductive Details : Type :=
| NoDetails
| OriginalError (message : string)
| FeatureDetails (feature requiredVersion currentVersion : string)
| HardwareDetails (feature hardwareModel : string)
                  (supportedModels : list string)
| RetryAfter (seconds : option Z)
| OtherDetails (text : string).

Record UniFiMCPError : Type := mkError {
  message : string;
  code : ErrorCode;
  statusCode : option Z;
  details : Details;
  retryable : bool
}.

(** [new UniFiMCPError(message, code, statusCode?, details?)]:
    [retryable] defaults to [false]. *)
Definition newError (m : string) (c : ErrorCode) (s : option Z)
           (d : Details) : UniFiMCPError :=
  mkError m c s d false.

Definition ConnectionError (m : string) (d : Details) (r : bool) :=
  mkError m CONNECTION_FAILED (Some 503) d r.

Definition AuthenticationError (m : string) (d : Details) :=
  mkError m AUTHENTICATION_FAILED (Some 401) d false.

Definition RateLimitError (m : string) (retryAfter : option Z) :=
  mkError m API_RATE_LIMITED (Some 429) (RetryAfter retryAfter) true.

Definition ValidationError (m : string) :=
  mkError m VALIDATION_ERROR (Some 400) NoDetails false.

Definition FeatureNotSupportedError (feature required current : string) :=
  mkError
    ("Feature '" ++ feature ++ "' is not supported" ++
     (if String.eqb required "" then ""
      else " (requires version " ++ required ++
           (if String.eqb current "" then ""
            else ", current: " ++ current) ++ ")"))
    FEATURE_NOT_SUPPORTED (Some 501)
    (FeatureDetails feature required current) false.

Definition join_comma (l : list string) : string :=
  String.concat ", " l.

Definition HardwareIncompatibleError (feature hardwareModel : string)
           (supported : list string) :=
  mkError
    ("Feature '" ++ feature ++
     "' is not compatible with hardware model '" ++ hardwareModel ++
     "' (supported: " ++ join_comma supported ++ ")")
    HARDWARE_INCOMPATIBLE (Some 501)
    (HardwareDetails feature hardwareModel supported) false.

(** What a [catch] clause may receive: an instance of [UniFiMCPError]
    (or of a subclass), another [Error], or [null]/[undefined].
    Other thrown values are not modelled. *)
Inductive thrown : Type :=
| ThrownMCP (e : UniFiMCPError)
| ThrownError (msg : string)
| ThrownNullish.

(** The settled state of a promise, or the result of a call that may
    throw. *)
Inductive Outcome (A : Type) : Type :=
| Returned (a : A)
| Threw (e : thrown).

Arguments Returned {A} a.
Arguments Threw {A} e.

(** [(error as Error).message]: reading a property of [null] or
    [undefined] raises a [TypeError]. *)
Definition message_of (e : thrown) : Outcome string :=
  match e with
  | ThrownMCP err => Returned (message err)
  | ThrownError m => Returned m
  | ThrownNullish =>
      Threw (ThrownError
               "Cannot read properties of undefined (reading 'message')")
  end.

End Errors.

(** ** Constants ([src/config/constants.ts]) *)

Module Constants.

Record FeatureConfig : Type := {
  minimumVersion : string;
  requiredHardware : list string;
  deprecatedIn : option string
}.

(** [VERSION_REQUIREMENTS], [FEATURE_COMPATIBILITY] and the
    [DEVICE_MODELS] the detector reads. The detector is written
    against the table, so the table is a value the functions take. *)
Record Table : Type := {
  ZBF_MINIMUM : string;
  LEGACY_FIREWALL_DEPRECATED : string;
  ADVANCED_STATS_MINIMUM : string;
  ZONE_BASED_FIREWALL : FeatureConfig;
  LEGACY_FIREWALL : FeatureConfig;
  ADVANCED_THREAT_DETECTION : FeatureConfig;
  WIFI_6E : FeatureConfig;
  UCG_ULTRA : string;
  UCG_MAX : string;
  UDM_PRO : string;
  USG_PRO_4 : string
}.

(** [FEATURE_COMPATIBILITY[key]] for a key computed at run time. *)
Definition FEATURE_COMPATIBILITY (t : Table) (key : string)
  : option FeatureConfig :=
  if String.eqb key "ZONE_BASED_FIREWALL" then Some (ZONE_BASED_FIREWALL t)
  else if String.eqb key "LEGACY_FIREWALL" then Some (LEGACY_FIREWALL t)
  else if String.eqb key "ADVANCED_THREAT_DETECTION"
       then Some (ADVANCED_THREAT_DETECTION t)
  else if String.eqb key "WIFI_6E" then Some (WIFI_6E t)
  else None.

(** The table as the repository ships it. *)
Definition shipped : Table := {|
  ZBF_MINIMUM := "9.0.0";
  LEGACY_FIREWALL_DEPRECATED := "9.0.0";
  ADVANCED_STATS_MINIMUM := "8.5.0";
  ZONE_BASED_FIREWALL :=
    {| minimumVersion := "9.0.0";
       requiredHardware := ["UCG-Ultra"; "UCG-Max"; "UDM-Pro"; "UDM-Base"];
       deprecatedIn := None |};
  LEGACY_FIREWALL :=
    {| minimumVersion := "6.0.0";
       requiredHardware := ["all"];
       deprecatedIn := Some "9.0.0" |};
  ADVANCED_THREAT_DETECTION :=
    {| minimumVersion := "8.5.0";
       requiredHardware := ["UCG-Ultra"; "UCG-Max"; "UDM-Pro"];
       deprecatedIn := None |};
  WIFI_6E :=
    {| minimumVersion := "7.5.0";
       requiredHardware := ["U6-Enterprise"; "U7-Pro"];
       deprecatedIn := None |};
  UCG_ULTRA := "UCG-Ultra";
  UCG_MAX := "UCG-Max";
  UDM_PRO := "UDM-Pro";
  USG_PRO_4 := "USG-Pro-4"
|}.

End Constants.

(** ** Version comparison and feature gates
  ([VersionDetector], [src/unifi/versionDetector.ts]) *)

Module Version.
Import JS Constants.

(** The [for] loop of [isVersionAtLeast]: [n] iterations remain,
    [i] is the loop index. *)
Fixpoint isVersionAtLeast_loop (n i : nat)
         (currentParts minimumParts : list num) : bool :=
  match n with
  | O => true
  | S n' =>
      let currentPart := or_zero (currentParts !! i) in
      let minimumPart := or_zero (minimumParts !! i) in
      if gt currentPart minimumPart then true
      else if lt currentPart minimumPart then false
      else isVersionAtLeast_loop n' (S i) currentParts minimumParts
  end.

Definition isVersionAtLeast (current minimum : string) : bool :=
  let currentParts := map Number_ (split "." current) in
  let minimumParts := map Number_ (split "." minimum) in
  isVersionAtLeast_loop
    (Nat.max (length currentParts) (length minimumParts)) 0
    currentParts minimumParts.

(** [normalizeModel] inside [isHardwareModelCompatible] *)
Definition normalizeModel (model : string) : string :=
  filter_string (fun c => negb (is_sep_char c)) (toLowerCase model).

Definition isHardwareModelCompatible (actual required : string) : bool :=
  includes (normalizeModel actual) (normalizeModel required).

(** The callback both hardware checks pass to [some]. *)
Definition model_matches (hardwareModel model : string) : bool :=
  includes hardwareModel model ||
  isHardwareModelCompatible hardwareModel model.

Definition checkZBFSupport (t : Table) (version hardwareModel : string)
  : bool :=
  if negb (isVersionAtLeast version (ZBF_MINIMUM t)) then false
  else
    let zbfCompatibility := ZONE_BASED_FIREWALL t in
    if existsb (String.eqb "all") (requiredHardware zbfCompatibility)
    then true
    else existsb (model_matches hardwareModel)
                 (requiredHardware zbfCompatibility).

Definition checkLegacyFirewallSupport (t : Table) (version : string)
  : bool :=
  let legacyCompatibility := LEGACY_FIREWALL t in
  match deprecatedIn legacyCompatibility with
  | Some d =>
      if negb (String.eqb d "") && isVersionAtLeast version d then true
      else isVersionAtLeast version (minimumVersion legacyCompatibility)
  | None => isVersionAtLeast version (minimumVersion legacyCompatibility)
  end.

(** The hardware gate of [validateHardwareCompatibility], given the
    feature's configuration: [None] when the call resolves, the
    [HardwareIncompatibleError] otherwise. *)
Definition hardware_gate (feature : string) (featureConfig : FeatureConfig)
           (hardwareModel : string) : option Errors.UniFiMCPError :=
  if existsb (fun hw => String.eqb hw "all") (requiredHardware featureConfig)
  then None
  else
    let isCompatible :=
      existsb (model_matches hardwareModel)
              (requiredHardware featureConfig) in
    if negb isCompatible
    then Some (Errors.HardwareIncompatibleError
                 feature hardwareModel (requiredHardware featureConfig))
    else None.

(** [validateHardwareCompatibility] after [detectCapabilities] has
    delivered the hardware model. *)
Definition validateHardwareCompatibility (t : Table)
           (hardwareModel feature : string) : option Errors.UniFiMCPError :=
  match FEATURE_COMPATIBILITY t (toUpperCase feature) with
  | None =>
      Some (Errors.newError
              ("Unknown feature for hardware validation: " ++ feature)
              Errors.UNKNOWN_FEATURE None Errors.NoDetails)
  | Some featureConfig => hardware_gate feature featureConfig hardwareModel
  end.

End Version.

(** ** Retry with backoff ([ErrorRecovery.withRetry]) *)

Module Retry.
Import Errors.

Record RetryConfig : Type := {
  maxAttempts : Z;
  baseDelay : Z;
  maxDelay : Z;
  exponentialBackoff : bool;
  retryCondition : option (thrown -> bool)
}.

(** [Partial<RetryConfig>]: a field is present or absent. *)
Record PartialRetryConfig : Type := {
  p_maxAttempts : option Z;
  p_baseDelay : option Z;
  p_maxDelay : option Z;
  p_exponentialBackoff : option bool;
  p_retryCondition : option (thrown -> bool)
}.

Definition no_overrides : PartialRetryConfig :=
  {| p_maxAttempts := None; p_baseDelay := None; p_maxDelay := None;
     p_exponentialBackoff := None; p_retryCondition := None |}.

Definition defaultRetryConfig : RetryConfig := {|
  maxAttempts := 3;
  baseDelay := 1000;
  maxDelay := 10000;
  exponentialBackoff := true;
  retryCondition :=
    Some (fun error =>
            match error with
            | ThrownMCP e => retryable e
            | _ => false
            end)
|}.

(** [{ ...this.defaultRetryConfig, ...config }] *)
Definition merge (d : RetryConfig) (c : PartialRetryConfig) : RetryConfig := {|
  maxAttempts := default (maxAttempts d) (p_maxAttempts c);
  baseDelay := default (baseDelay d) (p_baseDelay c);
  maxDelay := default (maxDelay d) (p_maxDelay c);
  exponentialBackoff := default (exponentialBackoff d) (p_exponentialBackoff c);
  retryCondition :=
    match p_retryCondition c with
    | Some f => Some f
    | None => retryCondition d
    end
|}.

(** What one run of [withRetry] does: how the returned promise
    settles, how many times [operation] was called, and the delays
    slept between the calls, in milliseconds. *)
Record Run (T : Type) : Type := {
  outcome : Outcome T;
  attempts : nat;
  delays : list Q
}.

Arguments outcome {T} r.
Arguments attempts {T} r.
Arguments delays {T} r.

Section WithRetry.
Context {T : Type}.

(** [operation k] is how the call number [k] (from 0) of [operation]
    settles; [random k] is the value of the [k]-th [Math.random()]. *)
Variable operation : nat -> Outcome T.
Variable random : nat -> Q.

(** [throw lastError!] *)
Definition throw_last (lastError : option thrown) : Outcome T :=
  match lastError with
  | Some e => Threw e
  | None => Threw ThrownNullish
  end.

(** The delay computed after failed attempt number [attempt] (counted
    from 1), before the jitter is added. *)
Definition backoff (c : RetryConfig) (attempt : nat) : Z :=
  if exponentialBackoff c
  then Z.min (baseDelay c * 2 ^ (Z.of_nat attempt - 1)) (maxDelay c)
  else baseDelay c.

(** The delay slept after failed attempt [S k]: backoff plus jitter. *)
Definition delay_after (c : RetryConfig) (k : nat) : Q :=
  (inject_Z (backoff c (S k)) + random k * inject_Z 1000)%Q.

(** The [while] loop: [attempt] failed calls so far, [slept] the
    delays so far, [fuel] bounds the remaining iterations. *)
Fixpoint withRetry_loop (c : RetryConfig) (fuel attempt : nat)
         (lastError : option thrown) (slept : list Q) : Run T :=
  match fuel with
  | O => {| outcome := throw_last lastError; attempts := attempt;
            delays := slept |}
  | S fuel' =>
      if Z.of_nat attempt <? maxAttempts c then
        match operation attempt with
        | Returned v =>
            {| outcome := Returned v; attempts := S attempt;
               delays := slept |}
        | Threw error =>
            let attempt' := S attempt in
            if (maxAttempts c <=? Z.of_nat attempt') ||
               negb (match retryCondition c with
                     | Some f => f error
                     | None => false
                     end)
            then {| outcome := throw_last (Some error); attempts := attempt';
                    delays := slept |}
            else
              let delay := delay_after c attempt in
              withRetry_loop c fuel' attempt' (Some error)
                             (slept ++ [delay])%list
        end
      else {| outcome := throw_last lastError; attempts := attempt;
              delays := slept |}
  end.

Definition withRetry (config : PartialRetryConfig) : Run T :=
  let finalConfig := merge defaultRetryConfig config in
  withRetry_loop finalConfig (Z.to_nat (maxAttempts finalConfig)) 0 None [].

End WithRetry.

End Retry.

(** ** Capability detection and its cache ([VersionDetector]) *)

Module Detector.
Import JS Errors Constants Version.

(** The fields of [SystemInfo] the detector reads. *)
Record SystemInfo : Type := {
  si_version : string;
  si_hardwareModel : string
}.

Record HardwareCapabilities : Type := {
  model : string;
  supportsAdvancedFirewall : bool;
  maxFirewallRules : Z;
  maxZones : Z
}.

Record FeatureCapabilities : Type := {
  version : string;
  supportsZBF : bool;
  supportsLegacyFirewall : bool;
  supportedEndpoints : list string;
  deprecatedEndpoints : list string;
  hardwareCapabilities : HardwareCapabilities
}.

(** The longest prefix of digits, and what follows it. *)
Fixpoint span_digits (s : string) : string * string :=
  match s with
  | EmptyString => (EmptyString, EmptyString)
  | String c t =>
      if is_digit c
      then let '(d, r) := span_digits t in (String c d, r)
      else (EmptyString, s)
  end.

(** A match of [\d+\.\d+\.\d+] at the start of [s]. *)
Definition match_here (s : string) : option string :=
  let '(a, r1) := span_digits s in
  match a, r1 with
  | String _ _, String "." r1' =>
      let '(b, r2) := span_digits r1' in
      match b, r2 with
      | String _ _, String "." r2' =>
          let '(c, _) := span_digits r2' in
          match c with
          | String _ _ => Some (a ++ "." ++ b ++ "." ++ c)
          | EmptyString => None
          end
      | _, _ => None
      end
  | _, _ => None
  end.

(** [version.match(/(\d+\.\d+\.\d+)/)]: the leftmost match. *)
Fixpoint first_match (s : string) : option string :=
  match match_here s with
  | Some m => Some m
  | None =>
      match s with
      | EmptyString => None
      | String _ t => first_match t
      end
  end.

Definition normalizeVersion (version : string) : string :=
  match first_match version with
  | Some m => m
  | None => version
  end.

Definition getEndpointAvailability (t : Table) (version : string)
           (supportsZBF : bool) : list string * list string :=
  let supported :=
    ["/api/system"; "/api/s/{site}/stat/device"; "/api/s/{site}/stat/sta";
     "/api/s/{site}/rest/networkconf"; "/api/s/{site}/stat/sites";
     "/api/s/{site}/stat/event"] in
  let deprecated : list string := [] in
  let supported :=
    if supportsZBF
    then (supported ++ ["/api/s/{site}/rest/firewallzone";
                        "/api/s/{site}/rest/firewallzonepolicy";
                        "/api/s/{site}/rest/simpleappblock"])%list
    else supported in
  let legacyEndpoints :=
    ["/api/s/{site}/rest/firewallrule"; "/api/s/{site}/rest/firewallgroup"] in
  let '(supported, deprecated) :=
    if checkLegacyFirewallSupport t version
    then if isVersionAtLeast version (LEGACY_FIREWALL_DEPRECATED t)
         then (supported, (deprecated ++ legacyEndpoints)%list)
         else ((supported ++ legacyEndpoints)%list, deprecated)
    else (supported, deprecated) in
  let supported :=
    if isVersionAtLeast version (ADVANCED_STATS_MINIMUM t)
    then (supported ++ ["/api/s/{site}/stat/device-stats";
                        "/api/s/{site}/stat/user-stats";
                        "/api/s/{site}/stat/health"])%list
    else supported in
  (supported, deprecated).

Definition isAdvancedGateway (t : Table) (m : string) : bool :=
  existsb (fun advModel => includes m advModel) [UCG_ULTRA t; UCG_MAX t].

Definition isProGateway (t : Table) (m : string) : bool :=
  existsb (fun proModel => includes m proModel) [UDM_PRO t; USG_PRO_4 t].

Definition analyzeHardwareCapabilities (t : Table)
           (hardwareModel version : string) : HardwareCapabilities :=
  let '(advanced, rules, zones) :=
    if isAdvancedGateway t hardwareModel then (true, 500, 50)
    else if isProGateway t hardwareModel then (true, 300, 30)
    else (false, 100, 10) in
  let rules := if isVersionAtLeast version "9.0.0" then rules * 2 else rules in
  {| model := hardwareModel; supportsAdvancedFirewall := advanced;
     maxFirewallRules := rules; maxZones := zones |}.

Definition analyzeCapabilities (t : Table) (systemInfo : SystemInfo)
  : FeatureCapabilities :=
  let version := normalizeVersion (si_version systemInfo) in
  let hardwareModel := si_hardwareModel systemInfo in
  let supportsZBF := checkZBFSupport t version hardwareModel in
  let supportsLegacyFirewall := checkLegacyFirewallSupport t version in
  let endpoints := getEndpointAvailability t version supportsZBF in
  let hardwareCapabilities :=
    analyzeHardwareCapabilities t hardwareModel version in
  {| version := version; supportsZBF := supportsZBF;
     supportsLegacyFirewall := supportsLegacyFirewall;
     supportedEndpoints := fst endpoints;
     deprecatedEndpoints := snd endpoints;
     hardwareCapabilities := hardwareCapabilities |}.

(** The detector's two private fields. *)
Record State : Type := {
  cachedCapabilities : option FeatureCapabilities;
  cacheTimestamp : option Z
}.

Definition initial : State :=
  {| cachedCapabilities := None; cacheTimestamp := None |}.

Definition cacheValidityMinutes : Z := 60.

(** [isCacheValid], [now] being the value of [new Date()]. *)
Definition isCacheValid (st : State) (now : Z) : bool :=
  match cachedCapabilities st, cacheTimestamp st with
  | Some _, Some stamp =>
      let cacheAge := now - stamp in
      let maxAge := cacheValidityMinutes * 60 * 1000 in
      cacheAge <? maxAge
  | _, _ => false
  end.

(** One call of [client.getSystemInfo()] as the detector sees it: how
    the promise settles, and the clock when the detector stores the
    result. *)
Record Probe : Type := {
  systemInfo : Outcome SystemInfo;
  storedAt : Z
}.

(** The effect of a detector call: how it settles, the detector's
    state afterwards, and the number of [getSystemInfo] calls made. *)
Record Step (A : Type) : Type := {
  result : Outcome A;
  state : State;
  probes : nat
}.

Arguments result {A} s.
Arguments state {A} s.
Arguments probes {A} s.

(** [detectCapabilities] called when the clock reads [now]; [probe]
    is what a call of [getSystemInfo] would deliver. *)
Definition detectCapabilities (t : Table) (st : State) (now : Z)
           (probe : Probe) : Step FeatureCapabilities :=
  if isCacheValid st now then
    match cachedCapabilities st with
    | Some capabilities =>
        {| result := Returned capabilities; state := st; probes := 0 |}
    | None =>
        (* not reached: a valid cache holds a snapshot *)
        {| result := Threw ThrownNullish; state := st; probes := 0 |}
    end
  else
    match systemInfo probe with
    | Returned info =>
        let capabilities := analyzeCapabilities t info in
        {| result := Returned capabilities;
           state := {| cachedCapabilities := Some capabilities;
                       cacheTimestamp := Some (storedAt probe) |};
           probes := 1 |}
    | Threw error =>
        {| result :=
             match message_of error with
             | Returned m =>
                 Threw (ThrownMCP
                          (newError "Unable to detect UniFi capabilities"
                                    CAPABILITY_DETECTION_FAILED (Some 500)
                                    (OriginalError m)))
             | Threw e => Threw e
             end;
           state := st; probes := 1 |}
    end.

Definition clearCache (st : State) : State :=
  {| cachedCapabilities := None; cacheTimestamp := None |}.

Definition forceDetection (t : Table) (st : State) (now : Z) (probe : Probe)
  : Step FeatureCapabilities :=
  detectCapabilities t (clearCache st) now probe.

(** [validateFeature]: the [switch] on the feature name, after
    [detectCapabilities]. *)
Definition feature_check (t : Table) (capabilities : FeatureCapabilities)
           (feature : string) : Outcome unit :=
  if String.eqb feature "zbf" then
    if negb (supportsZBF capabilities)
    then Threw (ThrownMCP (FeatureNotSupportedError
                             "Zone-Based Firewall" (ZBF_MINIMUM t)
                             (version capabilities)))
    else Returned tt
  else if String.eqb feature "legacy-firewall" then
    if negb (supportsLegacyFirewall capabilities)
    then Threw (ThrownMCP (FeatureNotSupportedError
                             "Legacy Firewall"
                             (minimumVersion (LEGACY_FIREWALL t))
                             (version capabilities)))
    else Returned tt
  else if String.eqb feature "advanced-stats" then
    if negb (isVersionAtLeast (version capabilities)
                              (ADVANCED_STATS_MINIMUM t))
    then Threw (ThrownMCP (FeatureNotSupportedError
                             "Advanced Statistics" (ADVANCED_STATS_MINIMUM t)
                             (version capabilities)))
    else Returned tt
  else Threw (ThrownMCP (newError ("Unknown feature: " ++ feature)
                                  UNKNOWN_FEATURE (Some 400) NoDetails)).

Definition validateFeature (t : Table) (st : State) (now : Z) (probe : Probe)
           (feature : string) : Step unit :=
  let d := detectCapabilities t st now probe in
  {| result :=
       match result d with
       | Returned capabilities => feature_check t capabilities feature
       | Threw e => Threw e
       end;
     state := state d; probes := probes d |}.

End Detector.

(** ** The client's response normalisation and configuration accessor
    ([UniFiClient]) *)

Module Client.
Import JS Errors.

(** The [if]/[else] on [response.data] that [get], [post], [put] and
    [delete] each end with. *)
Definition normalizeResponse (data : value) : value :=
  if truthy data && truthy (prop data "meta") && truthy (prop data "data")
  then data
  else VObject
         [("meta", VObject [("msg", VString "success"); ("rc", VString "ok")]);
          ("data", if isArray data then data else VArray [data])].

(** A request method: [ensureAuthenticated()] settles, then
    [makeRequest(...)] settles with a response whose [data] is the
    raw body, then the body is normalised. *)
Definition request (ensureAuthenticated : Outcome unit)
           (makeRequest : Outcome value) : Outcome value :=
  match ensureAuthenticated with
  | Threw e => Threw e
  | Returned _ =>
      match makeRequest with
      | Threw e => Threw e
      | Returned data => Returned (normalizeResponse data)
      end
  end.

Definition get := request.
Definition post := request.
Definition put := request.
Definition delete := request.

(** [UniFiClientOptions]: the configuration object with its own
    properties. *)
Abbreviation Config := (gmap string value).

(** [const { apiKey, ...config } = this.config; return config;] *)
Definition getConfig (config : Config) : Config :=
  base.delete "apiKey" config.

(** [ConnectionInfo], the two flags [isConnected] reads. *)
Record ConnectionInfo : Type := {
  ci_isConnected : bool;
  ci_isAuthenticated : bool
}.

Definition isConnected (c : ConnectionInfo) : bool :=
  ci_isConnected c && ci_isAuthenticated c.

End Client.

(** ** The tool registry and dispatcher ([ToolRegistry]) *)

Module Registry.
Import JS Errors.

Inductive ToolCategory : Type :=
| CONNECTION | DEVICES | CLIENTS | FIREWALL_LEGACY | FIREWALL_ZBF
| NETWORKS | GROUPS | MONITORING | AUTOMATION.

Definition ToolCategory_eqb (a b : ToolCategory) : bool :=
  match a, b with
  | CONNECTION, CONNECTION | DEVICES, DEVICES | CLIENTS, CLIENTS
  | FIREWALL_LEGACY, FIREWALL_LEGACY | FIREWALL_ZBF, FIREWALL_ZBF
  | NETWORKS, NETWORKS | GROUPS, GROUPS | MONITORING, MONITORING
  | AUTOMATION, AUTOMATION => true
  | _, _ => false
  end.

(** [Object.values(ToolCategory)] *)
Definition all_categories : list ToolCategory :=
  [CONNECTION; DEVICES; CLIENTS; FIREWALL_LEGACY; FIREWALL_ZBF;
   NETWORKS; GROUPS; MONITORING; AUTOMATION].

Record ResultError : Type := {
  re_code : string;
  re_message : string;
  re_details : Details
}.

Record Metadata : Type := {
  executionTime : Z;
  timestamp : Z
}.

Record ToolResult : Type := {
  success : bool;
  data : option value;
  error : option ResultError;
  warnings : list string;
  metadata : option Metadata
}.

(** The [Tool] of the protocol SDK: what a listing shows. *)
Record Tool : Type := {
  t_name : string;
  t_description : string;
  t_inputSchema : value
}.

Record MCPTool : Type := {
  name : string;
  description : string;
  inputSchema : value;
  category : ToolCategory;
  requiresConnection : bool;
  requiresVersion : option string;
  handler : gmap string value -> Outcome ToolResult
}.

Record ToolRegistryEntry : Type := {
  tool : MCPTool;
  registered : Z;
  enabled : bool;
  usageCount : Z;
  lastUsed : option Z;
  averageExecutionTime : Q;
  errorCount : Z;
  dependencies : list string
}.

(** A [Map<string, V>]: keys in insertion order. *)
Section StringMap.
Context {V : Type}.

Definition map_get (k : string) (m : list (string * V)) : option V :=
  assoc k m.

(** [m.set(k, v)]: an existing key keeps its place. *)
Fixpoint map_set (k : string) (v : V) (m : list (string * V))
  : list (string * V) :=
  match m with
  | [] => [(k, v)]
  | (k', v') :: rest =>
      if String.eqb k k' then (k, v) :: rest
      else (k', v') :: map_set k v rest
  end.

Fixpoint map_delete (k : string) (m : list (string * V))
  : list (string * V) :=
  match m with
  | [] => []
  | (k', v') :: rest =>
      if String.eqb k k' then rest else (k', v') :: map_delete k rest
  end.

(** A write through the object stored under [k]. *)
Fixpoint map_update (k : string) (f : V -> V) (m : list (string * V))
  : list (string * V) :=
  match m with
  | [] => []
  | (k', v') :: rest =>
      if String.eqb k k' then (k', f v') :: rest
      else (k', v') :: map_update k f rest
  end.

End StringMap.

Record State : Type := {
  tools : list (string * ToolRegistryEntry);
  categories : list (ToolCategory * list string);
  deps : list (string * list string)
}.

(** The registry after its constructor: [initializeCategories]. *)
Definition empty : State :=
  {| tools := []; categories := map (fun c => (c, [])) all_categories;
     deps := [] |}.

Fixpoint category_get (c : ToolCategory)
         (m : list (ToolCategory * list string)) : option (list string) :=
  match m with
  | [] => None
  | (c', l) :: rest =>
      if ToolCategory_eqb c c' then Some l else category_get c rest
  end.

Fixpoint category_set (c : ToolCategory) (l : list string)
         (m : list (ToolCategory * list string))
  : list (ToolCategory * list string) :=
  match m with
  | [] => [(c, l)]
  | (c', l') :: rest =>
      if ToolCategory_eqb c c' then (c, l) :: rest
      else (c', l') :: category_set c l rest
  end.

Definition addToCategory (c : ToolCategory) (toolName : string)
           (m : list (ToolCategory * list string)) :=
  let names := default [] (category_get c m) in
  if existsb (String.eqb toolName) names then m
  else category_set c (names ++ [toolName])%list m.

(** [requiresVersion] as a condition: absent and empty are falsy. *)
Definition has_version (t : MCPTool) : bool :=
  match requiresVersion t with
  | Some v => negb (String.eqb v "")
  | None => false
  end.

Definition extractDependencies (t : MCPTool) : list string :=
  ((if requiresConnection t then ["unifi_connect"] else []) ++
   (if has_version t then ["version_check"] else []) ++
   match category t with
   | FIREWALL_ZBF => ["zbf_support"]
   | FIREWALL_LEGACY => ["legacy_firewall_support"]
   | _ => []
   end)%list.

(** [register(tool)] when the clock reads [now]. *)
Definition register (now : Z) (t : MCPTool) (r : State) : State :=
  let entry := {| tool := t; registered := now; enabled := true;
                  usageCount := 0; lastUsed := None;
                  averageExecutionTime := 0%Q; errorCount := 0;
                  dependencies := extractDependencies t |} in
  {| tools := map_set (name t) entry (tools r);
     categories := addToCategory (category t) (name t) (categories r);
     deps := map_set (name t) (dependencies entry) (deps r) |}.

Definition set_enabled (b : bool) (e : ToolRegistryEntry) : ToolRegistryEntry :=
  {| tool := tool e; registered := registered e; enabled := b;
     usageCount := usageCount e; lastUsed := lastUsed e;
     averageExecutionTime := averageExecutionTime e;
     errorCount := errorCount e; dependencies := dependencies e |}.

(** [setToolEnabled]: the state afterwards and the returned flag. *)
Definition setToolEnabled (toolName : string) (b : bool) (r : State)
  : State * bool :=
  match map_get toolName (tools r) with
  | None => (r, false)
  | Some _ =>
      ({| tools := map_update toolName (set_enabled b) (tools r);
          categories := categories r; deps := deps r |}, true)
  end.

Definition getAllTools (r : State) : list MCPTool :=
  map tool (List.filter (fun e => enabled e) (map snd (tools r))).

Definition getAllToolsForDocumentation (r : State) : list MCPTool :=
  map tool (map snd (tools r)).

(** An entry of the detector's [ToolAvailability] record. *)
Record Availability : Type := {
  available : bool;
  reason : option string;
  alternativeTool : option string;
  minimumVersion : option string
}.

(** [availability?.available] *)
Definition is_available (a : option Availability) : bool :=
  match a with
  | Some x => available x
  | None => false
  end.

(** [getAvailableTools]; [toolAvailability] is how
    [versionDetector.getToolAvailability()] settles. *)
Definition getAvailableTools
           (toolAvailability : Outcome (gmap string Availability))
           (r : State) : list MCPTool :=
  match toolAvailability with
  | Returned availability =>
      map (fun p => tool (snd p))
          (List.filter (fun p => enabled (snd p) &&
                                 is_available (availability !! fst p))
                       (tools r))
  | Threw _ => getAllTools r
  end.

Definition toTool (t : MCPTool) : Tool :=
  {| t_name := name t; t_description := description t;
     t_inputSchema := inputSchema t |}.

(** [getToolsForMCP]; [connected] is [unifiClient.isConnected()]. *)
Definition getToolsForMCP (connected : bool)
           (toolAvailability : Outcome (gmap string Availability))
           (r : State) : list Tool :=
  let toolsToReturn :=
    if negb connected then getAllToolsForDocumentation r
    else getAvailableTools toolAvailability r in
  map toTool toolsToReturn.

(** What one invocation observes of the registry's collaborators and
    of the clock. [connected_check] and [feature_check] are
    [unifiClient.isConnected()] and [versionDetector.validateFeature]
    at the precondition checks; [connected_deps] and [feature_deps] are
    the same calls made later by [validateDependencies]. [startTime] is
    [Date.now()] before the handler runs; [endTime] is the clock once
    the handler has settled. *)
Record Env : Type := {
  connected_check : bool;
  feature_check : string -> Outcome unit;
  connected_deps : bool;
  feature_deps : string -> Outcome unit;
  startTime : Z;
  endTime : Z
}.

Definition getCategoryFeature (c : ToolCategory) : string :=
  match c with
  | FIREWALL_ZBF => "zbf"
  | FIREWALL_LEGACY => "legacy-firewall"
  | MONITORING => "monitoring"
  | AUTOMATION => "automation"
  | _ => "basic"
  end.

(** The [for] loop of [validateDependencies]. *)
Fixpoint validateDependencies_loop (w : Env) (dependencies : list string)
  : Outcome unit :=
  match dependencies with
  | [] => Returned tt
  | dependency :: rest =>
      if String.eqb dependency "unifi_connect" then
        if negb (connected_deps w)
        then Threw (ThrownMCP (newError "UniFi connection required"
                                        CONNECTION_REQUIRED None NoDetails))
        else validateDependencies_loop w rest
      else if String.eqb dependency "zbf_support" then
        match feature_deps w "zbf" with
        | Threw e => Threw e
        | Returned _ => validateDependencies_loop w rest
        end
      else if String.eqb dependency "legacy_firewall_support" then
        match feature_deps w "legacy-firewall" with
        | Threw e => Threw e
        | Returned _ => validateDependencies_loop w rest
        end
      else validateDependencies_loop w rest
  end.

Definition validateDependencies (w : Env) (r : State) (toolName : string)
  : Outcome unit :=
  validateDependencies_loop w (default [] (map_get toolName (deps r))).

(** The writes of [updateUsageStats] to the entry. *)
Definition record_usage (now executionTime : Z) (ok : bool)
           (e : ToolRegistryEntry) : ToolRegistryEntry :=
  let usageCount' := usageCount e + 1 in
  let totalTime :=
    (averageExecutionTime e * inject_Z (usageCount' - 1) +
     inject_Z executionTime)%Q in
  {| tool := tool e; registered := registered e; enabled := enabled e;
     usageCount := usageCount';
     lastUsed := Some now;
     averageExecutionTime := (totalTime / inject_Z usageCount')%Q;
     errorCount := if negb ok then errorCount e + 1 else errorCount e;
     dependencies := dependencies e |}.

Definition updateUsageStats (now : Z) (toolName : string)
           (executionTime : Z) (ok : bool) (r : State) : State :=
  match map_get toolName (tools r) with
  | None => r
  | Some _ =>
      {| tools := map_update toolName (record_usage now executionTime ok)
                             (tools r);
         categories := categories r; deps := deps r |}
  end.

(** [entry.errorCount++] in the [catch] clause of [executeTool]. *)
Definition bump_errorCount (e : ToolRegistryEntry) : ToolRegistryEntry :=
  {| tool := tool e; registered := registered e; enabled := enabled e;
     usageCount := usageCount e; lastUsed := lastUsed e;
     averageExecutionTime := averageExecutionTime e;
     errorCount := errorCount e + 1; dependencies := dependencies e |}.

(** [ErrorCode] values are the strings of their names. *)
Definition code_name (c : ErrorCode) : string :=
  match c with
  | CONNECTION_FAILED => "CONNECTION_FAILED"
  | AUTHENTICATION_FAILED => "AUTHENTICATION_FAILED"
  | NETWORK_TIMEOUT => "NETWORK_TIMEOUT"
  | SSL_ERROR => "SSL_ERROR"
  | API_KEY_INVALID => "API_KEY_INVALID"
  | API_RATE_LIMITED => "API_RATE_LIMITED"
  | API_ENDPOINT_NOT_FOUND => "API_ENDPOINT_NOT_FOUND"
  | API_PERMISSION_DENIED => "API_PERMISSION_DENIED"
  | FEATURE_NOT_SUPPORTED => "FEATURE_NOT_SUPPORTED"
  | HARDWARE_INCOMPATIBLE => "HARDWARE_INCOMPATIBLE"
  | VERSION_INCOMPATIBLE => "VERSION_INCOMPATIBLE"
  | VALIDATION_ERROR => "VALIDATION_ERROR"
  | PARAMETER_MISSING => "PARAMETER_MISSING"
  | PARAMETER_INVALID => "PARAMETER_INVALID"
  | RESOURCE_NOT_FOUND => "RESOURCE_NOT_FOUND"
  | RESOURCE_CONFLICT => "RESOURCE_CONFLICT"
  | RESOURCE_LIMIT_EXCEEDED => "RESOURCE_LIMIT_EXCEEDED"
  | INTERNAL_ERROR => "INTERNAL_ERROR"
  | CONFIG_ERROR => "CONFIG_ERROR"
  | CACHE_ERROR => "CACHE_ERROR"
  | INITIALIZATION_ERROR => "INITIALIZATION_ERROR"
  | TOOL_REGISTRATION_ERROR => "TOOL_REGISTRATION_ERROR"
  | TOOL_NOT_FOUND => "TOOL_NOT_FOUND"
  | TOOL_DISABLED => "TOOL_DISABLED"
  | CONNECTION_REQUIRED => "CONNECTION_REQUIRED"
  | FEATURE_NOT_AVAILABLE => "FEATURE_NOT_AVAILABLE"
  | EXECUTION_ERROR => "EXECUTION_ERROR"
  | UNKNOWN_FEATURE => "UNKNOWN_FEATURE"
  | CAPABILITY_DETECTION_FAILED => "CAPABILITY_DETECTION_FAILED"
  | INVALID_DATA => "INVALID_DATA"
  | SYSTEM_INFO_ERROR => "SYSTEM_INFO_ERROR"
  | RULE_CREATION_FAILED => "RULE_CREATION_FAILED"
  | RULE_UPDATE_FAILED => "RULE_UPDATE_FAILED"
  | RULE_DELETION_FAILED => "RULE_DELETION_FAILED"
  | RULE_TOGGLE_FAILED => "RULE_TOGGLE_FAILED"
  | BLOCK_FAILED => "BLOCK_FAILED"
  | UNBLOCK_FAILED => "UNBLOCK_FAILED"
  | KICK_FAILED => "KICK_FAILED"
  | RESTART_FAILED => "RESTART_FAILED"
  | ADOPTION_FAILED => "ADOPTION_FAILED"
  | UPGRADE_FAILED => "UPGRADE_FAILED"
  end.

(** The [catch] clause of [executeTool]. *)
Definition executeTool_catch (w : Env) (toolName : string) (error : thrown)
           (r : State) : Outcome ToolResult * State :=
  let r1 := {| tools := map_update toolName bump_errorCount (tools r);
               categories := categories r; deps := deps r |} in
  let r2 := updateUsageStats (endTime w) toolName
                             (endTime w - startTime w) false r1 in
  match message_of error with
  | Threw e => (Threw e, r2)
  | Returned m =>
      (Returned
         {| success := false;
            data := None;
            error :=
              Some {| re_code :=
                        match error with
                        | ThrownMCP e => code_name (code e)
                        | _ => code_name EXECUTION_ERROR
                        end;
                      re_message := m;
                      re_details :=
                        match error with
                        | ThrownMCP e => details e
                        | _ => NoDetails
                        end |};
            warnings := [];
            metadata := Some {| executionTime := endTime w - startTime w;
                                timestamp := endTime w |} |},
       r2)
  end.

(** The [try] block of [executeTool]: the execution phase. *)
Definition executeTool_try (w : Env) (toolName : string)
           (entry : ToolRegistryEntry) (params : gmap string value)
           (r : State) : Outcome ToolResult * State :=
  match validateDependencies w r toolName with
  | Threw e => executeTool_catch w toolName e r
  | Returned _ =>
      match handler (tool entry) params with
      | Threw e => executeTool_catch w toolName e r
      | Returned result =>
          (Returned result,
           updateUsageStats (endTime w) toolName (endTime w - startTime w)
                            (success result) r)
      end
  end.

(** [executeTool(toolName, params)]: how the promise settles, and the
    registry afterwards. *)
Definition executeTool (w : Env) (toolName : string)
           (params : gmap string value) (r : State)
  : Outcome ToolResult * State :=
  match map_get toolName (tools r) with
  | None =>
      (Threw (ThrownMCP (newError ("Tool '" ++ toolName ++ "' not found")
                                  TOOL_NOT_FOUND (Some 404) NoDetails)), r)
  | Some entry =>
      if negb (enabled entry) then
        (Threw (ThrownMCP (newError ("Tool '" ++ toolName ++ "' is disabled")
                                    TOOL_DISABLED (Some 403) NoDetails)), r)
      else if requiresConnection (tool entry) && negb (connected_check w) then
        (Threw (ThrownMCP
                  (newError ("Tool '" ++ toolName ++
                             "' requires an active UniFi connection")
                            CONNECTION_REQUIRED (Some 412) NoDetails)), r)
      else
        match
          (if has_version (tool entry)
           then feature_check w (getCategoryFeature (category (tool entry)))
           else Returned tt)
        with
        | Threw error =>
            (match message_of error with
             | Threw e => Threw e
             | Returned m =>
                 Threw (ThrownMCP
                          (newError
                             ("Tool '" ++ toolName ++
                              "' requires features not available in " ++
                              "current UniFi version")
                             FEATURE_NOT_AVAILABLE (Some 501)
                             (OriginalError m)))
             end, r)
        | Returned _ => executeTool_try w toolName entry params r
        end
  end.

End Registry.

(** ** Notions the specification uses *)

Module VersionSpec.
Import JS.

(** A component that is a decimal integer: a non-empty string of
    digits. *)
Definition decimal_component (c : string) : Prop :=
  c <> "" /\ all_digits c = true.

Definition decimal_version (s : string) : Prop :=
  Forall decimal_component (split "." s).

(** A component a JavaScript number holds exactly: at most [2^53]. *)
Definition exact_component (c : string) : Prop :=
  (digits_value 0 c <= 2 ^ 53)%N.

Definition exact_version (s : string) : Prop :=
  Forall exact_component (split "." s).

(** The integers a dotted version denotes. *)
Definition components (s : string) : list Z :=
  map (fun c => Z.of_N (digits_value 0 c)) (split "." s).

(** Component [i], a missing trailing component being zero. *)
Definition component (l : list Z) (i : nat) : Z := nth i l 0.

(** The specification's order: [a] is at least [b] when all
    components agree, or the first component that differs is greater
    in [a]. *)
Definition lex_ge (a b : list Z) : Prop :=
  (forall i, component a i = component b i) \/
  (exists i, component b i < component a i /\
             forall j, (j < i)%nat -> component a j = component b j).

End VersionSpec.

Module EnvelopeSpec.
Import JS.

(** The canonical envelope [{meta: {...}, data: [...]}]: an object
    whose [meta] is an object and whose [data] is an array. *)
Definition is_envelope (body : value) : bool :=
  match body with
  | VObject _ =>
      match prop body "meta", prop body "data" with
      | VObject _, VArray _ => true
      | _, _ => false
      end
  | _ => false
  end.

(** The payload wrapped as the specification words it: a
    single-element data list under a synthetic success marker. *)
Definition wrap_single (body : value) : value :=
  VObject [("meta", VObject [("msg", VString "success"); ("rc", VString "ok")]);
           ("data", VArray [body])].

(** The same envelope around a payload that already is a list. *)
Definition wrap_list (body : value) : value :=
  VObject [("meta", VObject [("msg", VString "success"); ("rc", VString "ok")]);
           ("data", body)].

End EnvelopeSpec.

Module RegistrySpec.
Import Errors Registry.

(** The error kind a rejected invocation carries. *)
Definition thrown_code {A : Type} (o : Outcome A) : option ErrorCode :=
  match o with
  | Threw (ThrownMCP e) => Some (code e)
  | _ => None
  end.

(** An invocation that hands a result object back to its caller. *)
Definition returns_result (o : Outcome ToolResult) : Prop :=
  exists result, o = Returned result.

(** An invocation that passes the precondition checks of
    [executeTool], in the order the code makes them, and so reaches the
    execution phase. *)
Definition reaches_execution (w : Env) (r : State) (toolName : string)
           (entry : ToolRegistryEntry) : Prop :=
  map_get toolName (tools r) = Some entry /\
  enabled entry = true /\
  (requiresConnection (tool entry) = true -> connected_check w = true) /\
  (has_version (tool entry) = true ->
   exists u, feature_check w (getCategoryFeature (category (tool entry)))
             = Returned u).

End RegistrySpec.

(** ** Fixtures: the registry of the unit tests and the scenario of
    the specification *)

Module Fixtures.
Import JS Errors Registry.

(** [mockTool] of the registry's unit tests. *)
Definition mockTool : MCPTool := {|
  name := "test_tool";
  description := "Test tool for unit testing";
  inputSchema :=
    VObject [("type", VString "object"); ("properties", VObject []);
             ("additionalProperties", VBool false)];
  category := CONNECTION;
  requiresConnection := false;
  requiresVersion := None;
  handler := fun _ =>
    Returned {| success := true;
                data := Some (VObject [("message", VString "Test successful")]);
                error := None; warnings := [];
                metadata := Some {| executionTime := 0; timestamp := 0 |} |}
|}.

(** The same tool, requiring a connection. *)
Definition connectedTool : MCPTool := {|
  name := "test_tool";
  description := "Test tool for unit testing";
  inputSchema := inputSchema mockTool;
  category := CONNECTION;
  requiresConnection := true;
  requiresVersion := None;
  handler := handler mockTool
|}.

(** The same tool with a handler that throws [new Error("boom")]. *)
Definition failingTool : MCPTool := {|
  name := "test_tool";
  description := "Test tool for unit testing";
  inputSchema := inputSchema mockTool;
  category := CONNECTION;
  requiresConnection := false;
  requiresVersion := None;
  handler := fun _ => Threw (ThrownError "boom")
|}.

(** A zone-firewall tool gated on a version. *)
Definition zoneTool : MCPTool := {|
  name := "unifi_get_zones";
  description := "List firewall zones";
  inputSchema := inputSchema mockTool;
  category := FIREWALL_ZBF;
  requiresConnection := true;
  requiresVersion := Some "9.0.0";
  handler := handler mockTool
|}.

(** The entry [register] creates for a tool at time 0. *)
Definition fresh_entry (t : MCPTool) : ToolRegistryEntry :=
  {| tool := t; registered := 0; enabled := true; usageCount := 0;
     lastUsed := None; averageExecutionTime := 0%Q; errorCount := 0;
     dependencies := extractDependencies t |}.

(** [registry.register(tool)] on a fresh registry, at time 0. *)
Definition registered (t : MCPTool) : State := register 0 t empty.

(** ... followed by [registry.setToolEnabled('test_tool', false)]. *)
Definition disabled (t : MCPTool) : State :=
  fst (setToolEnabled "test_tool" false (registered t)).

(** No connection; the detector accepts every feature; the handler
    takes 5 ms. *)
Definition offline : Env := {|
  connected_check := false;
  feature_check := fun _ => Returned tt;
  connected_deps := false;
  feature_deps := fun _ => Returned tt;
  startTime := 1000;
  endTime := 1005
|}.

(** Connected to a controller on which the detector rejects every
    feature as unsupported. *)
Definition old_controller : Env := {|
  connected_check := true;
  feature_check := fun feature =>
    Threw (ThrownMCP (FeatureNotSupportedError feature "9.0.0" "8.6.9"));
  connected_deps := true;
  feature_deps := fun feature =>
    Threw (ThrownMCP (FeatureNotSupportedError feature "9.0.0" "8.6.9"));
  startTime := 1000;
  endTime := 1005
|}.

(** A response body that is a bare list of two devices. *)
Definition device_list : value :=
  VArray [VObject [("mac", VString "aa:bb")];
          VObject [("mac", VString "cc:dd")]].

(** The specification's scenario: a feature gated at version 9.0.0 on
    the hardware set {ModelA, ModelB}. *)
Definition scenario : Constants.Table := {|
  Constants.ZBF_MINIMUM := "9.0.0";
  Constants.LEGACY_FIREWALL_DEPRECATED := "9.0.0";
  Constants.ADVANCED_STATS_MINIMUM := "8.5.0";
  Constants.ZONE_BASED_FIREWALL :=
    {| Constants.minimumVersion := "9.0.0";
       Constants.requiredHardware := ["ModelA"; "ModelB"];
       Constants.deprecatedIn := None |};
  Constants.LEGACY_FIREWALL := Constants.LEGACY_FIREWALL Constants.shipped;
  Constants.ADVANCED_THREAT_DETECTION :=
    Constants.ADVANCED_THREAT_DETECTION Constants.shipped;
  Constants.WIFI_6E := Constants.WIFI_6E Constants.shipped;
  Constants.UCG_ULTRA := "UCG-Ultra";
  Constants.UCG_MAX := "UCG-Max";
  Constants.UDM_PRO := "UDM-Pro";
  Constants.USG_PRO_4 := "USG-Pro-4"
|}.

End Fixtures.

(** ** The client: connection state, rate limiting and configuration
    ([UniFiClient]) *)

From Stdlib Require DecimalString.

Module ClientOps.
Import JS Errors Detector.

(** [config.key] on the configuration object. *)
Definition field (config : Client.Config) (key : string) : value :=
  default VUndefined (config !! key).

(** [config.rateLimit?.requestsPerMinute || 60]; the setting, when
    present, is a number. *)
Definition requestsPerMinute (config : Client.Config) : Z :=
  match prop (field config "rateLimit") "requestsPerMinute" with
  | VNumber z => if z =? 0 then 60 else z
  | _ => 60
  end.

(** *** Rate limiting *)

(** The two private fields [enforceRateLimit] works on. *)
Record Limiter : Type := {
  rateLimitTokens : Z;
  lastRateLimitReset : Z
}.

(** The constructor's initialisation, the clock reading [now]. *)
Definition newLimiter (config : Client.Config) (now : Z) : Limiter :=
  {| rateLimitTokens := requestsPerMinute config;
     lastRateLimitReset := now |}.

(** The clock as one pass through [enforceRateLimit] reads it: at
    entry, and once the timer has fired (read only after a wait). *)
Record Tick : Type := {
  at_entry : Z;
  at_wake : Z
}.

(** [enforceRateLimit]: the limiter afterwards, and the time waited,
    if the pass waited. *)
Definition enforceRateLimit (config : Client.Config) (tk : Tick) (l : Limiter)
  : Limiter * option Z :=
  let now := at_entry tk in
  let timeSinceReset := now - lastRateLimitReset l in
  let l1 :=
    if 60000 <=? timeSinceReset
    then {| rateLimitTokens := requestsPerMinute config;
            lastRateLimitReset := now |}
    else l in
  let '(l2, waited) :=
    if rateLimitTokens l1 <=? 0
    then
      let waitTime := 60000 - timeSinceReset in
      ({| rateLimitTokens := requestsPerMinute config;
          lastRateLimitReset := at_wake tk |}, Some waitTime)
    else (l1, None) in
  ({| rateLimitTokens := rateLimitTokens l2 - 1;
      lastRateLimitReset := lastRateLimitReset l2 |}, waited).

(** Successive requests through the request interceptor: the limiter
    afterwards and, per request, the time waited. *)
Fixpoint requests (config : Client.Config) (ticks : list Tick) (l : Limiter)
  : Limiter * list (option Z) :=
  match ticks with
  | [] => (l, [])
  | tk :: rest =>
      let '(l1, waited) := enforceRateLimit config tk l in
      let '(l2, waits) := requests config rest l1 in
      (l2, waited :: waits)
  end.

(** *** Connection state *)

Record GatewayInfo : Type := {
  ip : value;
  gw_version : string;
  gw_model : string;
  siteId : value
}.

Record ConnectionInfo : Type := {
  isConnected : bool;
  isAuthenticated : bool;
  lastConnected : option Z;
  lastError : option string;
  gatewayInfo : option GatewayInfo;
  connectionAttempts : Z;
  retryCount : Z
}.

(** The constructor's [connectionInfo]. *)
Definition newConnectionInfo : ConnectionInfo :=
  {| isConnected := false; isAuthenticated := false; lastConnected := None;
     lastError := None; gatewayInfo := None; connectionAttempts := 0;
     retryCount := 0 |}.

(** [isConnected()] *)
Definition connected (info : ConnectionInfo) : bool :=
  Client.isConnected {| Client.ci_isConnected := isConnected info;
                        Client.ci_isAuthenticated := isAuthenticated info |}.

(** How the three calls of [connect] settle, and the clock when
    [lastConnected] is taken. *)
Record Handshake : Type := {
  testConnection : Outcome bool;
  authenticate : Outcome unit;
  getSystemInfo : Outcome SystemInfo;
  connectedAt : Z
}.

(** The three awaited calls in the [try] block of [connect]. *)
Definition handshake (h : Handshake) : Outcome SystemInfo :=
  match testConnection h with
  | Threw e => Threw e
  | Returned _ =>
      match authenticate h with
      | Threw e => Threw e
      | Returned _ => getSystemInfo h
      end
  end.

(** [isConnected = false; isAuthenticated = false] *)
Definition drop_flags (info : ConnectionInfo) : ConnectionInfo :=
  {| isConnected := false; isAuthenticated := false;
     lastConnected := lastConnected info; lastError := lastError info;
     gatewayInfo := gatewayInfo info;
     connectionAttempts := connectionAttempts info;
     retryCount := retryCount info |}.

Definition set_lastError (m : string) (info : ConnectionInfo)
  : ConnectionInfo :=
  {| isConnected := isConnected info; isAuthenticated := isAuthenticated info;
     lastConnected := lastConnected info; lastError := Some m;
     gatewayInfo := gatewayInfo info;
     connectionAttempts := connectionAttempts info;
     retryCount := retryCount info |}.

(** [connectionAttempts++] *)
Definition count_attempt (info : ConnectionInfo) : ConnectionInfo :=
  {| isConnected := isConnected info; isAuthenticated := isAuthenticated info;
     lastConnected := lastConnected info; lastError := lastError info;
     gatewayInfo := gatewayInfo info;
     connectionAttempts := connectionAttempts info + 1;
     retryCount := retryCount info |}.

(** [connect()]: how the promise settles, and [connectionInfo]
    afterwards. *)
Definition connect (config : Client.Config) (h : Handshake)
           (info : ConnectionInfo) : Outcome unit * ConnectionInfo :=
  let info1 := count_attempt info in
  match handshake h with
  | Returned systemInfo =>
      (Returned tt,
       {| isConnected := true; isAuthenticated := true;
          lastConnected := Some (connectedAt h);
          lastError := None;
          gatewayInfo :=
            Some {| ip := field config "gatewayIp";
                    gw_version := si_version systemInfo;
                    gw_model := si_hardwareModel systemInfo;
                    siteId := field config "siteId" |};
          connectionAttempts := connectionAttempts info1;
          retryCount := retryCount info1 |})
  | Threw error =>
      let info2 := drop_flags info1 in
      match message_of error with
      | Threw e => (Threw e, info2)
      | Returned m => (Threw error, set_lastError m info2)
      end
  end.

(** [disconnect()] *)
Definition disconnect (info : ConnectionInfo) : Outcome unit * ConnectionInfo :=
  (Returned tt, drop_flags info).

(** [ensureAuthenticated()] *)
Definition ensureAuthenticated (config : Client.Config) (h : Handshake)
           (info : ConnectionInfo) : Outcome unit * ConnectionInfo :=
  if negb (isConnected info) || negb (isAuthenticated info)
  then connect config h info
  else (Returned tt, info).

(** A request method with the connection state it works on:
    [makeRequest] is how the HTTP request settles, should it be
    made. *)
Definition get (config : Client.Config) (h : Handshake)
           (makeRequest : Outcome value) (info : ConnectionInfo)
  : Outcome value * ConnectionInfo :=
  let '(authenticated, info') := ensureAuthenticated config h info in
  (Client.get authenticated makeRequest, info').

(** *** Configuration *)

(** A template literal's rendering of a value; numbers are integers
    below [10^21]. *)
Fixpoint template (v : value) : string :=
  match v with
  | VUndefined => "undefined"
  | VNull => "null"
  | VBool true => "true"
  | VBool false => "false"
  | VNumber z => DecimalString.NilZero.string_of_int (Z.to_int z)
  | VString s => s
  | VArray items =>
      String.concat ","
        (map (fun item => match item with
                          | VUndefined | VNull => ""
                          | _ => template item
                          end) items)
  | VObject _ => "[object Object]"
  end.

(** [getBaseURL] *)
Definition getBaseURL (config : Client.Config) : string :=
  let protocol :=
    match field config "useHTTPS" with
    | VBool false => "http"
    | _ => "https"
    end in
  let port :=
    if truthy (field config "port")
    then ":" ++ template (field config "port")
    else "" in
  protocol ++ "://" ++ template (field config "gatewayIp") ++ port.

(** What [createHttpClient] fixes in the client it builds. *)
Record HttpClient : Type := {
  baseURL : string;
  timeout : value;
  rejectUnauthorized : value
}.

Definition createHttpClient (config : Client.Config) : HttpClient :=
  {| baseURL := getBaseURL config;
     timeout := field config "timeout";
     rejectUnauthorized := field config "verifySSL" |}.

Record Settings : Type := {
  config : Client.Config;
  httpClient : HttpClient
}.

(** The constructor's [config] and [httpClient]. *)
Definition newSettings (config : Client.Config) : Settings :=
  {| config := config; httpClient := createHttpClient config |}.

(** [updateConfig(newConfig)]: [{ ...this.config, ...newConfig }],
    and the rebuild when a connection setting is given. *)
Definition updateConfig (newConfig : Client.Config) (s : Settings)
           (info : ConnectionInfo) : Settings * ConnectionInfo :=
  let config' := newConfig ∪ config s in
  if truthy (field newConfig "gatewayIp") || truthy (field newConfig "port")
     || truthy (field newConfig "timeout")
     || truthy (field newConfig "verifySSL")
  then ({| config := config'; httpClient := createHttpClient config' |},
        drop_flags info)
  else ({| config := config'; httpClient := httpClient s |}, info).

(** The connection states a client can be in: from the constructor,
    by [connect] (also as [ensureAuthenticated] and [healthCheck]
    call it), [disconnect] and [updateConfig]. *)
Inductive reachable : ConnectionInfo -> Prop :=
| reach_new : reachable newConnectionInfo
| reach_connect (config : Client.Config) (h : Handshake)
                (info : ConnectionInfo) :
    reachable info -> reachable (snd (connect config h info))
| reach_disconnect (info : ConnectionInfo) :
    reachable info -> reachable (snd (disconnect info))
| reach_updateConfig (newConfig : Client.Config) (s : Settings)
                     (info : ConnectionInfo) :
    reachable info -> reachable (snd (updateConfig newConfig s info)).

(** The state of a client whose connection holds. *)
Definition sound (info : ConnectionInfo) : Prop :=
  isConnected info = isAuthenticated info /\
  (isConnected info = true ->
   lastError info = None /\ is_Some (gatewayInfo info) /\
   is_Some (lastConnected info)) /\
  (is_Some (lastConnected info) \/ is_Some (lastError info) ->
   1 <= connectionAttempts info) /\
  0 <= connectionAttempts info /\
  retryCount info = 0.

End ClientOps.

(** ** Error factories ([ErrorFactory]) *)

Module ErrorFactory.
Import JS Errors.

(** [error.response] as [fromHttpError] reads it. A status, where
    present, is a number. *)
Record Response : Type := {
  r_status : option Z;
  r_data : value;
  r_retry_after : value
}.

(** The error handed to [fromHttpError]. *)
Record HttpFailure : Type := {
  response : option Response;
  own_status : option Z;
  own_message : value;
  own_details : value
}.

(** The [details] of the error built: a value passed on as it is, or
    an object literal that spreads one. *)
Inductive BuiltDetails : Type :=
| Given (d : value)
| TimeoutAnd (timeout : Z) (d : value)
| RetryAfterAnd (retryAfter : value) (d : value)
| ConflictAnd (d : value)
| ValidationFields.

(** The error built: its class name and the fields of
    [UniFiMCPError]. *)
Record Built : Type := {
  b_name : string;
  b_message : string;
  b_code : ErrorCode;
  b_statusCode : Z;
  b_details : BuiltDetails;
  b_retryable : bool
}.

(** [x || y] on optional numbers: absent and [0] are falsy. *)
Definition number_or (x : option Z) (y : Z) : Z :=
  match x with
  | Some n => if n =? 0 then y else n
  | None => y
  end.

(** [error.response?.status || error.status || 500] *)
Definition status_of (f : HttpFailure) : Z :=
  number_or (match response f with
             | Some r => r_status r
             | None => None
             end)
            (number_or (own_status f) 500).

(** [error.response?.data?.message || error.message
    || 'Unknown error'] *)
Definition message_of_failure (f : HttpFailure) : value :=
  let fromBody :=
    match response f with
    | Some r => prop (r_data r) "message"
    | None => VUndefined
    end in
  if truthy fromBody then fromBody
  else if truthy (own_message f) then own_message f
  else VString "Unknown error".

(** [error.response?.data || error.details] *)
Definition details_of (f : HttpFailure) : value :=
  match response f with
  | Some r => if truthy (r_data r) then r_data r else own_details f
  | None => own_details f
  end.

(** [error.response?.headers?.['retry-after']] *)
Definition retry_after_of (f : HttpFailure) : value :=
  match response f with
  | Some r => r_retry_after r
  | None => VUndefined
  end.

(** [fromHttpError(error)], without a context. The message an error
    is constructed with is converted to a string; calling
    [toLowerCase] on a message that is not a string raises a
    [TypeError]. *)
Definition fromHttpError (f : HttpFailure) : Outcome Built :=
  let status := status_of f in
  let message := message_of_failure f in
  let text := ClientOps.template message in
  let details := details_of f in
  if status =? 400 then
    Returned {| b_name := "ValidationError"; b_message := text;
                b_code := VALIDATION_ERROR; b_statusCode := 400;
                b_details := ValidationFields; b_retryable := false |}
  else if status =? 401 then
    match message with
    | VString s =>
        if includes (toLowerCase s) "api key"
        then Returned {| b_name := "APIKeyError"; b_message := s;
                         b_code := API_KEY_INVALID; b_statusCode := 401;
                         b_details := Given details; b_retryable := false |}
        else Returned {| b_name := "AuthenticationError"; b_message := s;
                         b_code := AUTHENTICATION_FAILED; b_statusCode := 401;
                         b_details := Given details; b_retryable := false |}
    | _ => Threw (ThrownError "message.toLowerCase is not a function")
    end
  else if status =? 404 then
    Returned {| b_name := "ResourceNotFoundError";
                b_message := "Resource with identifier 'unknown' not found";
                b_code := RESOURCE_NOT_FOUND; b_statusCode := 404;
                b_details := Given details; b_retryable := false |}
  else if status =? 408 then
    Returned {| b_name := "NetworkTimeoutError"; b_message := text;
                b_code := NETWORK_TIMEOUT; b_statusCode := 408;
                b_details := TimeoutAnd 30000 details; b_retryable := true |}
  else if status =? 409 then
    Returned {| b_name := "ResourceConflictError"; b_message := text;
                b_code := RESOURCE_CONFLICT; b_statusCode := 409;
                b_details := ConflictAnd details; b_retryable := false |}
  else if status =? 429 then
    Returned {| b_name := "RateLimitError"; b_message := text;
                b_code := API_RATE_LIMITED; b_statusCode := 429;
                b_details := RetryAfterAnd (retry_after_of f) details;
                b_retryable := true |}
  else if (status =? 500) || (status =? 502) || (status =? 503)
          || (status =? 504) then
    Returned {| b_name := "ConnectionError"; b_message := text;
                b_code := CONNECTION_FAILED; b_statusCode := 503;
                b_details := Given details; b_retryable := true |}
  else
    Returned {| b_name := "UniFiMCPError"; b_message := text;
                b_code := INTERNAL_ERROR; b_statusCode := status;
                b_details := Given details; b_retryable := 500 <=? status |}.

(** The error handed to [fromNetworkError]: its [code], a string
    where present, its [timeout] and its [message]. *)
Record NetworkFailure : Type := {
  n_code : option string;
  n_timeout : option Z;
  n_message : value
}.

(** [{ originalError: error.code }] *)
Definition originalError (f : NetworkFailure) : value :=
  VObject [("originalError",
            match n_code f with
            | Some c => VString c
            | None => VUndefined
            end)].

Definition code_is (f : NetworkFailure) (c : string) : bool :=
  match n_code f with
  | Some c' => String.eqb c' c
  | None => false
  end.

(** [fromNetworkError(error)] *)
Definition fromNetworkError (f : NetworkFailure) : Built :=
  if code_is f "ECONNREFUSED" then
    {| b_name := "ConnectionError";
       b_message :=
         "Connection refused - check if UniFi controller is running";
       b_code := CONNECTION_FAILED; b_statusCode := 503;
       b_details := Given (originalError f); b_retryable := true |}
  else if code_is f "ENOTFOUND" then
    {| b_name := "ConnectionError";
       b_message := "Host not found - check gateway IP address";
       b_code := CONNECTION_FAILED; b_statusCode := 503;
       b_details := Given (originalError f); b_retryable := false |}
  else if code_is f "ETIMEDOUT" || code_is f "ECONNABORTED" then
    {| b_name := "NetworkTimeoutError";
       b_message := "Network request timed out";
       b_code := NETWORK_TIMEOUT; b_statusCode := 408;
       b_details := TimeoutAnd (number_or (n_timeout f) 30000)
                               (originalError f);
       b_retryable := true |}
  else if match n_code f with
          | Some c => String.prefix "CERT_" c
          | None => false
          end || code_is f "UNABLE_TO_VERIFY_LEAF_SIGNATURE" then
    {| b_name := "ConnectionError";
       b_message := "SSL certificate verification failed";
       b_code := CONNECTION_FAILED; b_statusCode := 503;
       b_details :=
         Given (VObject
                  [("originalError",
                    match n_code f with
                    | Some c => VString c
                    | None => VUndefined
                    end);
                   ("suggestion",
                    VString ("Set verifySSL to false for " ++
                             "self-signed certificates"))]);
       b_retryable := false |}
  else
    {| b_name := "ConnectionError";
       b_message :=
         ClientOps.template (if truthy (n_message f) then n_message f
                             else VString "Network error occurred");
       b_code := CONNECTION_FAILED; b_statusCode := 503;
       b_details := Given (originalError f); b_retryable := true |}.

End ErrorFactory.

(** ** The detector: tool availability and the cache accessor
    ([VersionDetector]) *)

Module DetectorOps.
Import JS Errors Constants Version Registry Detector.

(** [names.forEach(tool => { availability[tool] = a; })] *)
Definition assign (names : list string) (a : Availability)
           (availability : gmap string Availability)
  : gmap string Availability :=
  fold_left (fun m toolName => <[toolName := a]> m) names availability.

(** An optional string under [&&]: absent and empty are falsy. *)
Definition truthy_text (s : option string) : option string :=
  match s with
  | Some text => if String.eqb text "" then None else Some text
  | None => None
  end.

Definition markToolsUnavailable (availability : gmap string Availability)
           (toolNames : list string) (why : string)
           (alternative minimum : option string)
  : gmap string Availability :=
  assign toolNames
         {| available := false; reason := Some why;
            alternativeTool := truthy_text alternative;
            minimumVersion := truthy_text minimum |}
         availability.

Definition plainly_available : Availability :=
  {| available := true; reason := None; alternativeTool := None;
     minimumVersion := None |}.

Definition connection_tools : list string :=
  ["unifi_connect"; "unifi_test_connection"; "unifi_get_system_info";
   "unifi_disconnect"].

Definition device_tools : list string :=
  ["unifi_get_devices"; "unifi_get_device_details"; "unifi_restart_device"].

Definition client_tools : list string :=
  ["unifi_get_clients"; "unifi_get_client_details"; "unifi_block_client";
   "unifi_unblock_client"].

Definition legacy_tools : list string :=
  ["unifi_get_firewall_rules"; "unifi_create_firewall_rule";
   "unifi_update_firewall_rule"; "unifi_delete_firewall_rule"].

Definition zone_tools : list string :=
  ["unifi_get_zones"; "unifi_create_zone"; "unifi_update_zone";
   "unifi_delete_zone"; "unifi_get_zone_policies"; "unifi_create_zone_policy";
   "unifi_update_zone_policy"; "unifi_delete_zone_policy";
   "unifi_get_zone_matrix"; "unifi_block_app_in_zone"].

Definition network_tools : list string :=
  ["unifi_get_networks"; "unifi_create_network"; "unifi_update_network";
   "unifi_delete_network"].

Definition monitoring_tools : list string :=
  ["unifi_get_site_stats"; "unifi_get_bandwidth_usage"; "unifi_get_events";
   "unifi_get_alerts"].

(** The body of [getToolAvailability] after the capabilities have
    been obtained: the record is filled group by group, in the order
    of the source. *)
Definition toolAvailability (t : Table) (capabilities : FeatureCapabilities)
  : gmap string Availability :=
  let availability : gmap string Availability := ∅ in
  let availability := assign connection_tools plainly_available availability in
  let availability := assign device_tools plainly_available availability in
  let availability := assign client_tools plainly_available availability in
  let availability :=
    if supportsLegacyFirewall capabilities
    then assign legacy_tools
           {| available := true;
              reason :=
                if (0 <? length (deprecatedEndpoints capabilities))%nat
                then Some ("Available but deprecated. " ++
                           "Consider using Zone-Based Firewall tools.")
                else None;
              alternativeTool := None; minimumVersion := None |}
           availability
    else markToolsUnavailable
           availability legacy_tools
           "Legacy firewall not supported in this version"
           (Some "Use Zone-Based Firewall tools instead") None in
  let availability :=
    if supportsZBF capabilities
    then assign zone_tools plainly_available availability
    else markToolsUnavailable
           availability zone_tools "Zone-Based Firewall not supported"
           (Some "Requires UniFi Network 9.0+ and compatible hardware")
           None in
  let availability := assign network_tools plainly_available availability in
  let availability :=
    if isVersionAtLeast (version capabilities) (ADVANCED_STATS_MINIMUM t)
    then assign monitoring_tools plainly_available availability
    else markToolsUnavailable
           availability monitoring_tools "Advanced monitoring not supported"
           None (Some (ADVANCED_STATS_MINIMUM t)) in
  availability.

(** [getToolAvailability()] called when the clock reads [now]. *)
Definition getToolAvailability (t : Table) (st : Detector.State) (now : Z)
           (probe : Probe) : Step (gmap string Availability) :=
  let d := detectCapabilities t st now probe in
  {| result :=
       match result d with
       | Returned capabilities => Returned (toolAvailability t capabilities)
       | Threw e => Threw e
       end;
     state := state d; probes := probes d |}.

(** [getCachedCapabilities()]: the snapshot while it is valid. *)
Definition getCachedCapabilities (st : Detector.State) (now : Z)
  : option FeatureCapabilities :=
  if isCacheValid st now then cachedCapabilities st else None.

(** The entries the three conditional groups receive. *)
Definition legacy_entry (capabilities : FeatureCapabilities) : Availability :=
  if supportsLegacyFirewall capabilities
  then {| available := true;
          reason :=
            if (0 <? length (deprecatedEndpoints capabilities))%nat
            then Some ("Available but deprecated. " ++
                       "Consider using Zone-Based Firewall tools.")
            else None;
          alternativeTool := None; minimumVersion := None |}
  else {| available := false;
          reason := Some "Legacy firewall not supported in this version";
          alternativeTool := Some "Use Zone-Based Firewall tools instead";
          minimumVersion := None |}.

Definition zone_entry (capabilities : FeatureCapabilities) : Availability :=
  if supportsZBF capabilities then plainly_available
  else {| available := false;
          reason := Some "Zone-Based Firewall not supported";
          alternativeTool :=
            Some "Requires UniFi Network 9.0+ and compatible hardware";
          minimumVersion := None |}.

Definition monitoring_entry (t : Table) (capabilities : FeatureCapabilities)
  : Availability :=
  if isVersionAtLeast (version capabilities) (ADVANCED_STATS_MINIMUM t)
  then plainly_available
  else {| available := false;
          reason := Some "Advanced monitoring not supported";
          alternativeTool := None;
          minimumVersion := truthy_text (Some (ADVANCED_STATS_MINIMUM t)) |}.

(** Every name [getToolAvailability] knows. *)
Definition known_tools : list string :=
  (connection_tools ++ device_tools ++ client_tools ++ legacy_tools ++
   zone_tools ++ network_tools ++ monitoring_tools)%list.

(** What can follow a maximal run of digits: nothing, or a
    character that is not a digit. *)
Definition stops (r : string) : Prop :=
  match r with
  | String c _ => is_digit c = false
  | EmptyString => True
  end.

End DetectorOps.

(** ** The registry: the remaining operations ([ToolRegistry]) *)

Module RegistryOps.
Import JS Errors Registry.

(** [names.splice(names.indexOf(x), 1)]: the first occurrence goes. *)
Fixpoint remove_first (x : string) (names : list string) : list string :=
  match names with
  | [] => []
  | y :: rest => if String.eqb x y then rest else y :: remove_first x rest
  end.

Definition removeFromCategory (c : ToolCategory) (toolName : string)
           (m : list (ToolCategory * list string))
  : list (ToolCategory * list string) :=
  let names := default [] (category_get c m) in
  if existsb (String.eqb toolName) names
  then category_set c (remove_first toolName names) m
  else m.

(** [unregister(toolName)]: the state afterwards and the returned
    flag. *)
Definition unregister (toolName : string) (r : State) : State * bool :=
  match map_get toolName (tools r) with
  | None => (r, false)
  | Some entry =>
      ({| tools := map_delete toolName (tools r);
          categories :=
            removeFromCategory (category (tool entry)) toolName (categories r);
          deps := map_delete toolName (deps r) |}, true)
  end.

(** [getTool(name)]: [entry?.enabled ? entry.tool : undefined] *)
Definition getTool (toolName : string) (r : State) : option MCPTool :=
  match map_get toolName (tools r) with
  | Some entry => if enabled entry then Some (tool entry) else None
  | None => None
  end.

Definition getToolStats (toolName : string) (r : State)
  : option ToolRegistryEntry :=
  map_get toolName (tools r).

(** [getToolsByCategory(category)]: the names filed under the
    category, looked up, the missing and the disabled ones dropped. *)
Definition getToolsByCategory (c : ToolCategory) (r : State) : list MCPTool :=
  let toolNames := default [] (category_get c (categories r)) in
  map tool
      (List.filter (fun entry => enabled entry)
                   (omap (fun toolName => map_get toolName (tools r))
                         toolNames)).

Record RegistryStats : Type := {
  totalTools : Z;
  enabledTools : Z;
  disabledTools : Z;
  categoryCounts : ToolCategory -> Z;
  totalUsage : Z;
  averageExecutionTime_all : Q
}.

(** [getRegistryStats()]; the two [reduce] calls are left folds from
    0. *)
Definition getRegistryStats (r : State) : RegistryStats :=
  let entries := map snd (tools r) in
  let enabledEntries := List.filter (fun entry => enabled entry) entries in
  let totalUsage :=
    fold_left (fun sum entry => sum + usageCount entry) entries 0 in
  let totalExecutionTime :=
    fold_left (fun sum entry =>
                 (sum + averageExecutionTime entry
                        * inject_Z (usageCount entry))%Q)
              entries 0%Q in
  {| totalTools := Z.of_nat (length entries);
     enabledTools := Z.of_nat (length enabledEntries);
     disabledTools :=
       Z.of_nat (length entries) - Z.of_nat (length enabledEntries);
     categoryCounts := fun c =>
       match category_get c (categories r) with
       | Some names => Z.of_nat (length names)
       | None => 0
       end;
     totalUsage := totalUsage;
     averageExecutionTime_all :=
       if 0 <? totalUsage
       then (totalExecutionTime / inject_Z totalUsage)%Q
       else 0%Q |}.

(** The three lists [filterToolsByFeatures] fills. *)
Record FeatureFilter : Type := {
  ff_available : list string;
  ff_unavailable : list string;
  ff_deprecated : list string
}.

(** [availability.reason?.includes('deprecated')] *)
Definition reason_deprecated (a : Availability) : bool :=
  match reason a with
  | Some text => includes text "deprecated"
  | None => false
  end.

(** The [for] loop of [filterToolsByFeatures] over the entries that
    remain, the lists filled so far being [acc]. *)
Fixpoint filterToolsByFeatures_loop (availability : gmap string Availability)
         (entries : list (string * ToolRegistryEntry)) (acc : FeatureFilter)
  : FeatureFilter :=
  match entries with
  | [] => acc
  | (toolName, entry) :: rest =>
      if negb (enabled entry)
      then filterToolsByFeatures_loop availability rest acc
      else
        match availability !! toolName with
        | Some a =>
            if available a then
              if reason_deprecated a
              then filterToolsByFeatures_loop availability rest
                     {| ff_available := ff_available acc;
                        ff_unavailable := ff_unavailable acc;
                        ff_deprecated :=
                          (ff_deprecated acc ++ [toolName])%list |}
              else filterToolsByFeatures_loop availability rest
                     {| ff_available :=
                          (ff_available acc ++ [toolName])%list;
                        ff_unavailable := ff_unavailable acc;
                        ff_deprecated := ff_deprecated acc |}
            else filterToolsByFeatures_loop availability rest
                   {| ff_available := ff_available acc;
                      ff_unavailable :=
                        (ff_unavailable acc ++ [toolName])%list;
                      ff_deprecated := ff_deprecated acc |}
        | None =>
            filterToolsByFeatures_loop availability rest
              {| ff_available := ff_available acc;
                 ff_unavailable := (ff_unavailable acc ++ [toolName])%list;
                 ff_deprecated := ff_deprecated acc |}
        end
  end.

(** [filterToolsByFeatures()]; it rejects when the detector does. *)
Definition filterToolsByFeatures
           (toolAvailability : Outcome (gmap string Availability))
           (r : State) : Outcome FeatureFilter :=
  match toolAvailability with
  | Threw e => Threw e
  | Returned availability =>
      Returned (filterToolsByFeatures_loop
                  availability (tools r)
                  {| ff_available := []; ff_unavailable := [];
                     ff_deprecated := [] |})
  end.

(** [registerBatch(tools)]; [clock k] is the clock at registration
    number [k]. [register] does not throw, so every tool is
    registered. *)
Fixpoint registerBatch_loop (clock : nat -> Z) (k : nat) (ts : list MCPTool)
         (r : State) : State :=
  match ts with
  | [] => r
  | t :: rest => registerBatch_loop clock (S k) rest (register (clock k) t r)
  end.

Definition registerBatch (clock : nat -> Z) (ts : list MCPTool) (r : State)
  : State :=
  registerBatch_loop clock 0 ts r.

(** [cleanup()]: the three maps are cleared. *)
Definition cleanup (r : State) : State :=
  {| tools := []; categories := []; deps := [] |}.

(** What [executeTool] may do to an entry: add to its two counters,
    stamp it, and recompute its average. *)
Definition counters_only (f : ToolRegistryEntry -> ToolRegistryEntry) : Prop :=
  forall e,
    tool (f e) = tool e /\ registered (f e) = registered e /\
    enabled (f e) = enabled e /\ dependencies (f e) = dependencies e /\
    usageCount e <= usageCount (f e) <= usageCount e + 1 /\
    errorCount e <= errorCount (f e) <= errorCount e + 2.

(** The names filed under a category. *)
Definition filed (c : ToolCategory) (r : State) : list string :=
  default [] (category_get c (categories r)).

(** A flag as a count. *)
Definition b2z (b : bool) : Z := if b then 1 else 0.

(** No name is registered twice: what a [Map] guarantees of its
    keys. *)
Definition unique_names (r : State) : Prop :=
  NoDup (map fst (tools r)) /\ NoDup (map fst (deps r)).

(** The registry's indices agree: every entry is filed under its
    tool's name, holds the dependency list computed from its tool, and
    the dependency index has that same list under that same name. *)
Definition consistent (r : State) : Prop :=
  unique_names r /\
  (forall toolName entry,
      map_get toolName (tools r) = Some entry ->
      name (tool entry) = toolName /\
      dependencies entry = extractDependencies (tool entry)) /\
  (forall toolName,
      map_get toolName (deps r)
      = dependencies <$> map_get toolName (tools r)).

(** The states the public operations of the registry lead to. *)
Inductive reachable : State -> Prop :=
| reach_empty : reachable empty
| reach_register now t r :
    reachable r -> reachable (register now t r)
| reach_unregister toolName r :
    reachable r -> reachable (fst (unregister toolName r))
| reach_setToolEnabled toolName b r :
    reachable r -> reachable (fst (setToolEnabled toolName b r))
| reach_executeTool w toolName params r :
    reachable r -> reachable (snd (executeTool w toolName params r))
| reach_cleanup r :
    reachable r -> reachable (cleanup r).

End RegistryOps.

(** ** Retry: the test made after a failed attempt *)

Module RetryOps.
Import Errors Retry.

(** [finalConfig.retryCondition?.(lastError)], as the [if] after a
    failed attempt reads it: an absent condition is falsy. *)
Definition retries (c : RetryConfig) (error : thrown) : bool :=
  match retryCondition c with
  | Some f => f error
  | None => false
  end.

End RetryOps.

(** ** The server's tool-call handler ([UniFiMCPServer],
    [ErrorManager.createErrorResponse]) *)

Module ServerOps.
Import JS Errors Registry.

(** The [error] object of [createErrorResponse]: its [code] and
    [message]. (Its [details] are not read by the server.) *)
Record ErrorBody : Type := {
  eb_code : string;
  eb_message : string
}.

(** [errorManager.createErrorResponse(error)]: [null] and
    [undefined] fail the [instanceof] test, and reading their
    [message] raises a [TypeError]. *)
Definition createErrorResponse (error : thrown) : Outcome ErrorBody :=
  match error with
  | ThrownMCP e =>
      Returned {| eb_code := code_name (code e); eb_message := message e |}
  | ThrownError m =>
      Returned {| eb_code := code_name INTERNAL_ERROR;
                  eb_message := if String.eqb m ""
                                then "Unknown error occurred" else m |}
  | ThrownNullish =>
      Threw (ThrownError
               "Cannot read properties of undefined (reading 'message')")
  end.

(** The text of a response: the JSON rendering of a tool's data,
    kept as the data it renders, or a literal string. *)
Inductive Text : Type :=
| JSON_stringify (data : option value)
| Literal (s : string).

(** The value the tool-call handler returns; [isError] is absent on
    success. *)
Record CallToolResponse : Type := {
  text : Text;
  isError : option bool
}.

(** [result.error?.message || 'Unknown error occurred'] *)
Definition error_message (result : ToolResult) : string :=
  match Registry.error result with
  | Some e =>
      if String.eqb (re_message e) "" then "Unknown error occurred"
      else re_message e
  | None => "Unknown error occurred"
  end.

(** The handler of [CallToolRequestSchema]: [params] is
    [request.params.arguments]. *)
Definition callTool (w : Env) (name : string)
           (params : option (gmap string value)) (r : State)
  : Outcome CallToolResponse * State :=
  let '(outcome, r') := executeTool w name (default ∅ params) r in
  match outcome with
  | Returned result =>
      if success result
      then (Returned {| text := JSON_stringify (data result);
                        isError := None |}, r')
      else (Returned {| text := Literal ("Error: " ++ error_message result);
                        isError := Some true |}, r')
  | Threw error =>
      match createErrorResponse error with
      | Threw e => (Threw e, r')
      | Returned errorResponse =>
          (Returned {| text := Literal ("Error: " ++ eb_message errorResponse);
                       isError := Some true |}, r')
      end
  end.

End ServerOps.

(** ** Further fixtures *)

Module MoreFixtures.
Import JS Errors Registry Detector Fixtures.

(** A statistics tool gated on a version, in the monitoring
    category. *)
Definition statsTool : MCPTool := {|
  name := "unifi_get_device_stats";
  description := "Device statistics";
  inputSchema := inputSchema mockTool;
  category := MONITORING;
  requiresConnection := true;
  requiresVersion := Some "8.5.0";
  handler := handler mockTool
|}.

(** A controller that answers the probe with version 9.0.108 on a
    UDM-Pro; the clock reads 10 when the detector stores it. *)
Definition modern_probe : Probe := {|
  systemInfo := Returned {| si_version := "9.0.108";
                            si_hardwareModel := "UDM-Pro" |};
  storedAt := 10
|}.

(** Connected, with the feature checks answered by a detector that
    starts without a snapshot and probes [modern_probe]. *)
Definition modern_controller : Env := {|
  connected_check := true;
  Registry.feature_check := fun feature =>
    result (validateFeature Constants.shipped initial 0 modern_probe feature);
  connected_deps := true;
  feature_deps := fun feature =>
    result (validateFeature Constants.shipped initial 0 modern_probe feature);
  startTime := 1000;
  endTime := 1005
|}.

End MoreFixtures.

(** * Properties *)

(** ** Version comparison *)

Section VersionComparison.
Import JS Version VersionSpec.

Example isVersionAtLeast_equal : isVersionAtLeast "9.0.0" "9.0.0" = true.
Proof. vm_compute. reflexivity. Qed.

Example isVersionAtLeast_short : isVersionAtLeast "9" "9.0.0" = true.
Proof. vm_compute. reflexivity. Qed.

Example isVersionAtLeast_numeric : isVersionAtLeast "10.0" "9.5.1" = true.
Proof. vm_compute. reflexivity. Qed.

Example isVersionAtLeast_not_a_number :
  isVersionAtLeast "9.0.0-rc1" "9.0.0" = true.
Proof. vm_compute. reflexivity. Qed.

Lemma to_double_exact (n : N) : (n <= 2 ^ 53)%N -> to_double n = Some n.
Proof.
  intros H. unfold to_double.
  destruct (N.leb_spec n (2 ^ 53)) as [_ | Hgt]; [reflexivity | lia].
Qed.

Lemma Number_decimal (c : string) :
  decimal_component c -> exact_component c ->
  Number_ c = Fin (Z.of_N (digits_value 0 c)).
Proof.
  intros (Hne & Hd) Hb. unfold Number_.
  destruct c as [| x t]; [congruence |].
  rewrite Hd, (to_double_exact _ Hb). reflexivity.
Qed.

Lemma parts_decimal (s : string) :
  decimal_version s -> exact_version s ->
  map Number_ (split "." s) = map Fin (components s).
Proof.
  unfold decimal_version, exact_version, components.
  induction 1 as [| c l Hc _ IH]; [reflexivity |].
  intros Hex. apply Forall_cons_1 in Hex. destruct Hex as [Hx Hl].
  cbn [map]. rewrite (Number_decimal c Hc Hx), (IH Hl). reflexivity.
Qed.

Lemma or_zero_Fin (l : list Z) (i : nat) :
  or_zero (map Fin l !! i) = Fin (component l i).
Proof.
  unfold component. revert i.
  induction l as [| z l IH]; intros [| i]; cbn; auto.
Qed.

(** The loop started at index [i] for [n] rounds decides the order on
    the components [i .. i+n-1]. *)
Lemma loop_spec (n : nat) : forall (i : nat) (a b : list Z),
  isVersionAtLeast_loop n i (map Fin a) (map Fin b) = true <->
  ((forall k, (i <= k < i + n)%nat -> component a k = component b k) \/
   (exists k, (i <= k < i + n)%nat /\ component b k < component a k /\
              forall j, (i <= j < k)%nat -> component a j = component b j)).
Proof.
  induction n as [| n IH]; intros i a b; cbn [isVersionAtLeast_loop].
  - split; [intros _; left; intros k Hk; lia | reflexivity].
  - rewrite !or_zero_Fin. unfold lt, gt.
    destruct (Z.ltb_spec (component b i) (component a i)) as [Hgt | Hle].
    + split; [intros _ | reflexivity].
      right. exists i. repeat split; [lia | lia | assumption |].
      intros j Hj. lia.
    + destruct (Z.ltb_spec (component a i) (component b i)) as [Hlt | Hge].
      * split; [discriminate |].
        intros [Hall | (k & Hk & Hkgt & Hpre)].
        -- specialize (Hall i). lia.
        -- destruct (decide (k = i)) as [-> | Hne]; [lia |].
           specialize (Hpre i). lia.
      * assert (Heq : component a i = component b i) by lia.
        rewrite IH. split.
        -- intros [Hall | (k & Hk & Hkgt & Hpre)].
           ++ left. intros k Hk.
              destruct (decide (k = i)) as [-> | Hne]; [assumption |].
              apply Hall. lia.
           ++ right. exists k. repeat split; [lia | lia | assumption |].
              intros j Hj.
              destruct (decide (j = i)) as [-> | Hne]; [assumption |].
              apply Hpre. lia.
        -- intros [Hall | (k & Hk & Hkgt & Hpre)].
           ++ left. intros k Hk. apply Hall. lia.
           ++ right. exists k.
              assert (k <> i) by (intros ->; lia).
              repeat split; [lia | lia | assumption |].
              intros j Hj. apply Hpre. lia.
Qed.

Lemma component_beyond (l : list Z) (i : nat) :
  (length l <= i)%nat -> component l i = 0.
Proof. intros H. unfold component. apply nth_overflow. exact H. Qed.

Lemma loop_full (a b : list Z) :
  isVersionAtLeast_loop (Nat.max (length a) (length b)) 0
                        (map Fin a) (map Fin b) = true <->
  lex_ge a b.
Proof.
  rewrite loop_spec. unfold lex_ge.
  set (m := Nat.max (length a) (length b)).
  assert (Hout : forall k, (m <= k)%nat -> component a k = component b k).
  { intros k Hk. rewrite !component_beyond; [reflexivity | lia | lia]. }
  split.
  - intros [Hall | (k & Hk & Hgt & Hpre)].
    + left. intros i. destruct (le_lt_dec m i) as [Hge | Hlt].
      * apply Hout, Hge.
      * apply Hall. lia.
    + right. exists k. split; [assumption |].
      intros j Hj. apply Hpre. lia.
  - intros [Hall | (k & Hgt & Hpre)].
    + left. intros k _. apply Hall.
    + right. exists k. repeat split; [lia | | assumption |].
      * destruct (le_lt_dec m k) as [Hge | Hlt]; [| lia].
        specialize (Hout k Hge). lia.
      * intros j Hj. apply Hpre. lia.
Qed.

Lemma isVersionAtLeast_lex (a b : string) :
  decimal_version a -> exact_version a ->
  decimal_version b -> exact_version b ->
  (isVersionAtLeast a b = true <-> lex_ge (components a) (components b)).
Proof.
  intros Ha Hxa Hb Hxb. unfold isVersionAtLeast.
  rewrite (parts_decimal a Ha Hxa), (parts_decimal b Hb Hxb), !length_map.
  apply loop_full.
Qed.

Example Number_rounds_above_2_53 :
  Number_ "9007199254740993" = Fin 9007199254740992.
Proof. vm_compute. reflexivity. Qed.

(** C5 as stated fails: "9007199254740992" and "9007199254740993" are
    decimal integers, the first is smaller, yet [Number] maps both to
    2^53 and [isVersionAtLeast] answers true. *)
Lemma isVersionAtLeast_rounds_large_components :
  decimal_version "9007199254740992" /\
  decimal_version "9007199254740993" /\
  isVersionAtLeast "9007199254740992" "9007199254740993" = true /\
  ~ lex_ge (components "9007199254740992") (components "9007199254740993").
Proof.
  split; [| split; [| split]].
  - repeat constructor; discriminate.
  - repeat constructor; discriminate.
  - vm_compute. reflexivity.
  - change (components "9007199254740992") with [9007199254740992].
    change (components "9007199254740993") with [9007199254740993].
    intros [Hall | (i & Hgt & _)].
    + specialize (Hall 0%nat). cbn in Hall. discriminate Hall.
    + destruct i as [| [| i]]; cbn in Hgt; lia.
Qed.

(** C5, amended. For version strings whose dot-separated components
    are decimal integers of at most 2^53 (the integers a JavaScript
    number holds exactly), [isVersionAtLeast a b] is true exactly when
    the components of [a] are lexicographically at least those of [b],
    missing trailing components counting as zero; equal versions
    compare true, "8.9.9" is not at least "9.0.0", and "9.0.1" is at
    least "9.0.0". *)
Theorem isVersionAtLeast_lexicographic :
  (forall a b : string,
      decimal_version a -> exact_version a ->
      decimal_version b -> exact_version b ->
      (isVersionAtLeast a b = true <->
       lex_ge (components a) (components b))) /\
  (forall a : string,
      decimal_version a -> exact_version a -> isVersionAtLeast a a = true) /\
  isVersionAtLeast "8.9.9" "9.0.0" = false /\
  isVersionAtLeast "9.0.1" "9.0.0" = true.
Proof.
  split; [exact isVersionAtLeast_lex |].
  split.
  - intros a Ha Hxa. apply (isVersionAtLeast_lex a a Ha Hxa Ha Hxa).
    left. reflexivity.
  - split; vm_compute; reflexivity.
Qed.

Lemma isVersionAtLeast_lexicographic_witness :
  (isVersionAtLeast "9.0.1" "9.0.0" = true <->
   lex_ge (components "9.0.1") (components "9.0.0")) /\
  isVersionAtLeast "9.0.0" "9.0.0" = true.
Proof.
  split.
  - apply (proj1 isVersionAtLeast_lexicographic "9.0.1" "9.0.0").
    + repeat constructor; discriminate.
    + repeat constructor; vm_compute; discriminate.
    + repeat constructor; discriminate.
    + repeat constructor; vm_compute; discriminate.
  - apply (proj1 (proj2 isVersionAtLeast_lexicographic) "9.0.0").
    + repeat constructor; discriminate.
    + repeat constructor; vm_compute; discriminate.
Defined.

End VersionComparison.

(** ** Feature gates *)

Section FeatureGates.
Import JS Errors Constants Version Detector Fixtures.

Example shipped_zbf_on_udm_pro :
  checkZBFSupport shipped "9.0.108" "UDM-Pro-Max" = true.
Proof. vm_compute. reflexivity. Qed.

Example shipped_zbf_model_spelling :
  checkZBFSupport shipped "9.0.108" "udm pro" = true.
Proof. vm_compute. reflexivity. Qed.

Example shipped_zbf_on_usg :
  checkZBFSupport shipped "9.0.108" "USG-3P" = false.
Proof. vm_compute. reflexivity. Qed.

Lemma existsb_all_swap (l : list string) :
  existsb (fun hw => String.eqb hw "all") l = existsb (String.eqb "all") l.
Proof.
  induction l as [| x l IH]; [reflexivity |].
  cbn [existsb]. rewrite IH, (String.eqb_sym x "all"). reflexivity.
Qed.

(** [checkZBFSupport] is the version gate and the hardware gate of
    [validateHardwareCompatibility] together. *)
Lemma checkZBFSupport_gates (t : Table)
      (feature version hardwareModel : string) :
  checkZBFSupport t version hardwareModel =
  isVersionAtLeast version (ZBF_MINIMUM t) &&
  bool_decide
    (hardware_gate feature (ZONE_BASED_FIREWALL t) hardwareModel = None).
Proof.
  unfold checkZBFSupport, hardware_gate.
  destruct (isVersionAtLeast version (ZBF_MINIMUM t)); [| reflexivity].
  rewrite existsb_all_swap. cbn [negb andb].
  destruct (existsb (String.eqb "all") _); [reflexivity |].
  destruct (existsb (model_matches hardwareModel) _); reflexivity.
Qed.

Lemma hardware_gate_wildcard (feature : string) (c : FeatureConfig)
      (hardwareModel : string) :
  In "all" (requiredHardware c) ->
  hardware_gate feature c hardwareModel = None.
Proof.
  intros Hin. unfold hardware_gate.
  replace (existsb _ (requiredHardware c)) with true; [reflexivity |].
  symmetry. apply existsb_exists. exists "all". split; [exact Hin |].
  reflexivity.
Qed.

Lemma scenario_version_gate (hardwareModel : string) :
  checkZBFSupport scenario "8.9.0" hardwareModel = false.
Proof.
  unfold checkZBFSupport.
  replace (isVersionAtLeast "8.9.0" (ZBF_MINIMUM scenario)) with false
    by (vm_compute; reflexivity).
  reflexivity.
Qed.

Lemma validateHardwareCompatibility_zbf (t : Table) (hardwareModel : string) :
  validateHardwareCompatibility t hardwareModel "zone_based_firewall"
  = hardware_gate "zone_based_firewall" (ZONE_BASED_FIREWALL t) hardwareModel.
Proof. reflexivity. Qed.

Example scenario_hardware_rejected :
  code <$> validateHardwareCompatibility scenario "ModelC" "zone_based_firewall"
  = Some HARDWARE_INCOMPATIBLE.
Proof. vm_compute. reflexivity. Qed.

(** C9. A feature is available exactly when its version gate and its
    hardware gate both pass, and a hardware set holding the wildcard
    passes every model. For the feature gated at version "9.0.0" on
    the hardware set {"ModelA", "ModelB"}, the flag the detector
    derives is false at version "8.9.0" whatever the hardware model,
    false on "ModelC" at version "9.1.0", and true on "ModelA" at
    version "9.0.0". *)
Theorem feature_needs_version_and_hardware :
  (forall (t : Table) (version hardwareModel : string),
      checkZBFSupport t version hardwareModel = true <->
      isVersionAtLeast version (ZBF_MINIMUM t) = true /\
      validateHardwareCompatibility t hardwareModel "zone_based_firewall"
      = None) /\
  (forall (t : Table) (feature : string) (c : FeatureConfig)
          (hardwareModel : string),
      FEATURE_COMPATIBILITY t (toUpperCase feature) = Some c ->
      In "all" (requiredHardware c) ->
      validateHardwareCompatibility t hardwareModel feature = None) /\
  (forall hardwareModel : string,
      supportsZBF (analyzeCapabilities scenario
                     {| si_version := "8.9.0";
                        si_hardwareModel := hardwareModel |}) = false) /\
  supportsZBF (analyzeCapabilities scenario
                 {| si_version := "9.1.0"; si_hardwareModel := "ModelC" |})
  = false /\
  supportsZBF (analyzeCapabilities scenario
                 {| si_version := "9.0.0"; si_hardwareModel := "ModelA" |})
  = true.
Proof.
  split; [| split; [| split; [| split]]].
  - intros t version hardwareModel.
    rewrite validateHardwareCompatibility_zbf,
      (checkZBFSupport_gates t "zone_based_firewall"), andb_true_iff,
      bool_decide_eq_true.
    reflexivity.
  - intros t feature c hardwareModel Hc Hall.
    unfold validateHardwareCompatibility. rewrite Hc.
    apply hardware_gate_wildcard, Hall.
  - intros hardwareModel. cbn [analyzeCapabilities supportsZBF si_version
                                 si_hardwareModel].
    replace (normalizeVersion "8.9.0") with "8.9.0"
      by (vm_compute; reflexivity).
    apply scenario_version_gate.
  - vm_compute. reflexivity.
  - vm_compute. reflexivity.
Qed.

Lemma feature_needs_version_and_hardware_witness :
  validateHardwareCompatibility shipped "USG-3P" "legacy_firewall" = None /\
  (checkZBFSupport shipped "9.0.0" "UCG-Max" = true <->
   isVersionAtLeast "9.0.0" (ZBF_MINIMUM shipped) = true /\
   validateHardwareCompatibility shipped "UCG-Max" "zone_based_firewall"
   = None).
Proof.
  split.
  - apply (proj1 (proj2 feature_needs_version_and_hardware) shipped
                 "legacy_firewall" (LEGACY_FIREWALL shipped) "USG-3P").
    + reflexivity.
    + cbn. left. reflexivity.
  - apply (proj1 feature_needs_version_and_hardware).
Defined.

End FeatureGates.

(** ** The configuration accessor *)

Section ConfigAccessor.
Import JS Client.

Example getConfig_test :
  getConfig (<["gatewayIp" := VString "192.168.1.1"]>
             (<["apiKey" := VString "test-api-key"]> ∅))
  = <["gatewayIp" := VString "192.168.1.1"]> ∅.
Proof.
  unfold getConfig. apply map_eq. intros k.
  destruct (decide (k = "apiKey")) as [-> | Hk].
  - rewrite lookup_delete_eq. reflexivity.
  - rewrite lookup_delete_ne by congruence.
    destruct (decide (k = "gatewayIp")) as [-> | Hg].
    + rewrite !lookup_insert_eq. reflexivity.
    + rewrite !lookup_insert_ne by congruence. reflexivity.
Qed.

(** C10. Two configurations that differ only in the [apiKey] field
    have equal [getConfig()] results, and the object [getConfig()]
    returns has no [apiKey] field. *)
Theorem getConfig_hides_apiKey :
  (forall c1 c2 : gmap string value,
      (forall k : string, k <> "apiKey" -> c1 !! k = c2 !! k) ->
      getConfig c1 = getConfig c2) /\
  (forall c : gmap string value, getConfig c !! "apiKey" = None).
Proof.
  split.
  - intros c1 c2 Hsame. unfold getConfig. apply map_eq. intros k.
    destruct (decide (k = "apiKey")) as [-> | Hk].
    + rewrite !lookup_delete_eq. reflexivity.
    + rewrite !lookup_delete_ne by congruence. apply Hsame, Hk.
  - intros c. unfold getConfig. apply lookup_delete_eq.
Qed.

Lemma getConfig_hides_apiKey_witness :
  getConfig (<["apiKey" := VString "key-one"]>
             (<["siteId" := VString "default"]> ∅))
  = getConfig (<["apiKey" := VString "key-two"]>
               (<["siteId" := VString "default"]> ∅)).
Proof.
  apply (proj1 getConfig_hides_apiKey).
  intros k Hk. rewrite !(lookup_insert_ne _ "apiKey") by congruence.
  reflexivity.
Defined.

End ConfigAccessor.

(** ** Response normalisation *)

Section ResponseNormalisation.
Import JS Errors Client EnvelopeSpec Fixtures.

Example get_passes_envelope :
  get (Returned tt)
      (Returned (VObject [("meta", VObject [("rc", VString "ok")]);
                          ("data", VArray [])]))
  = Returned (VObject [("meta", VObject [("rc", VString "ok")]);
                       ("data", VArray [])]).
Proof. reflexivity. Qed.

Example get_wraps_object :
  get (Returned tt) (Returned (VObject [("name", VString "UDR")]))
  = Returned (wrap_single (VObject [("name", VString "UDR")])).
Proof. reflexivity. Qed.

Example get_keeps_list :
  get (Returned tt) (Returned device_list) = Returned (wrap_list device_list).
Proof. reflexivity. Qed.

Lemma envelope_truthy (body : value) :
  is_envelope body = true ->
  truthy body && truthy (prop body "meta") && truthy (prop body "data") = true.
Proof.
  unfold is_envelope. destruct body; try discriminate.
  destruct (prop (VObject props) "meta"); try discriminate.
  destruct (prop (VObject props) "data"); try discriminate.
  reflexivity.
Qed.

Lemma envelope_not_array (body : value) :
  is_envelope body = true -> isArray body = false.
Proof. destruct body; cbn; congruence. Qed.

Lemma array_not_passed (body : value) :
  isArray body = true ->
  truthy body && truthy (prop body "meta") && truthy (prop body "data") = false.
Proof. destruct body; cbn; congruence. Qed.

(** C7 as stated fails on a body that is a list: it is not a
    canonical envelope, and the client returns the list itself as
    [data], not a one-element list holding it. *)
Lemma bare_list_is_not_wrapped_whole :
  is_envelope device_list = false /\
  get (Returned tt) (Returned device_list)
  <> Returned (wrap_single device_list).
Proof. split; [reflexivity | discriminate]. Qed.

(** C7, amended. For each request method: a body that carries the
    canonical envelope, and more generally any body with truthy
    [meta] and [data] fields, is returned unchanged; a body that is a
    list is placed, as it is, under [data] of an envelope with
    [meta.rc = "ok"]; any other body is wrapped as a one-element
    [data] list under the same marker. *)
Theorem request_normalises_body :
  forall method : Outcome unit -> Outcome value -> Outcome value,
    In method [get; post; put; delete] ->
    forall body : value,
      (is_envelope body = true ->
       method (Returned tt) (Returned body) = Returned body) /\
      (truthy body && truthy (prop body "meta") && truthy (prop body "data")
       = true ->
       method (Returned tt) (Returned body) = Returned body) /\
      (isArray body = true ->
       method (Returned tt) (Returned body) = Returned (wrap_list body)) /\
      (isArray body = false ->
       truthy (prop body "meta") && truthy (prop body "data") = false ->
       method (Returned tt) (Returned body) = Returned (wrap_single body)).
Proof.
  intros method Hm body.
  assert (Heq : method = request).
  { cbn in Hm. intuition (subst; reflexivity). }
  subst method. unfold request, normalizeResponse.
  split; [| split; [| split]].
  - intros Henv. rewrite (envelope_truthy body Henv). reflexivity.
  - intros Hpass. rewrite Hpass. reflexivity.
  - intros Harr. rewrite (array_not_passed body Harr), Harr. reflexivity.
  - intros Harr Hfields. rewrite Harr.
    replace (truthy body && truthy (prop body "meta") &&
             truthy (prop body "data")) with false; [reflexivity |].
    rewrite <- andb_assoc, Hfields, andb_false_r. reflexivity.
Qed.

Lemma request_normalises_body_witness :
  put (Returned tt) (Returned device_list) = Returned (wrap_list device_list) /\
  post (Returned tt) (Returned (VString "ok"))
  = Returned (wrap_single (VString "ok")).
Proof.
  split.
  - apply (request_normalises_body put); [cbn; tauto | reflexivity].
  - apply (request_normalises_body post); [cbn; tauto | reflexivity
                                            | reflexivity].
Defined.

End ResponseNormalisation.

(** ** Retry with backoff *)

Section RetryBackoff.
Import Errors Retry.

Context {T : Type}.
Variable operation : nat -> Outcome T.
Variable random : nat -> Q.



(** The loop stops by itself: more fuel than [maxAttempts] changes
    nothing. *)
Lemma withRetry_loop_fuel (c : RetryConfig) (fuel : nat) :
  forall (attempt : nat) (lastError : option thrown) (slept : list Q),
    (Z.to_nat (maxAttempts c) <= fuel + attempt)%nat ->
    withRetry_loop operation random c (S fuel) attempt lastError slept =
    withRetry_loop operation random c fuel attempt lastError slept.
Proof.
  induction fuel as [| fuel IH]; intros attempt lastError slept Hfuel.
  - cbn [withRetry_loop].
    destruct (Z.ltb_spec (Z.of_nat attempt) (maxAttempts c)) as [Hlt | Hge];
      [lia | reflexivity].
  - cbn [withRetry_loop] in *.
    destruct (Z.of_nat attempt <? maxAttempts c); [| reflexivity].
    destruct (operation attempt) as [v | error]; [reflexivity |].
    destruct (_ || _); [reflexivity |].
    apply IH. lia.
Qed.

Lemma withRetry_fuel_enough (c : RetryConfig) (extra : nat) :
  withRetry_loop operation random c (Z.to_nat (maxAttempts c) + extra) 0
                 None [] =
  withRetry_loop operation random c (Z.to_nat (maxAttempts c)) 0 None [].
Proof.
  induction extra as [| extra IH]; [rewrite Nat.add_0_r; reflexivity |].
  rewrite Nat.add_succ_r, withRetry_loop_fuel by lia. exact IH.
Qed.


End RetryBackoff.

Section RetryExamples.
Import Errors Retry.


Example withRetry_gives_up :
  let down := fun _ : nat =>
    @Threw nat (ThrownMCP (ConnectionError "down" NoDetails true)) in
  attempts (withRetry down (fun _ => 0%Q) no_overrides) = 3%nat /\
  delays (withRetry down (fun _ => 0%Q) no_overrides)
  = [(inject_Z 1000 + 0 * inject_Z 1000)%Q;
     (inject_Z 2000 + 0 * inject_Z 1000)%Q].
Proof. split; reflexivity. Qed.

Example withRetry_auth_error_once :
  let denied := fun _ : nat =>
    @Threw nat (ThrownMCP (AuthenticationError "denied" NoDetails)) in
  attempts (withRetry denied (fun _ => 0%Q) no_overrides) = 1%nat.
Proof. reflexivity. Qed.

End RetryExamples.

(** ** The capability cache *)

Section CapabilityCache.
Import Errors Constants Detector.

Variable t : Table.

Lemma isCacheValid_initial (now : Z) : isCacheValid initial now = false.
Proof. reflexivity. Qed.

Lemma isCacheValid_cleared (st : State) (now : Z) :
  isCacheValid (clearCache st) now = false.
Proof. reflexivity. Qed.

(** A miss whose probe succeeds stores the snapshot it returns. *)
Lemma detect_miss (st : State) (now : Z) (probe : Probe) (info : SystemInfo) :
  isCacheValid st now = false ->
  systemInfo probe = Returned info ->
  detectCapabilities t st now probe =
  {| result := Returned (analyzeCapabilities t info);
     state := {| cachedCapabilities := Some (analyzeCapabilities t info);
                 cacheTimestamp := Some (storedAt probe) |};
     probes := 1 |}.
Proof.
  intros Hmiss Hinfo. unfold detectCapabilities. rewrite Hmiss, Hinfo.
  reflexivity.
Qed.

(** A call within the validity window of a stored snapshot returns it
    and leaves the client alone. *)
Lemma detect_hit (capabilities : FeatureCapabilities) (stamp now : Z)
      (probe : Probe) :
  now - stamp < 60 * 60 * 1000 ->
  let st := {| cachedCapabilities := Some capabilities;
               cacheTimestamp := Some stamp |} in
  detectCapabilities t st now probe =
  {| result := Returned capabilities; state := st; probes := 0 |}.
Proof.
  intros Hage st. unfold detectCapabilities, isCacheValid. cbn.
  change (cacheValidityMinutes * 60 * 1000) with 3600000.
  destruct (Z.ltb_spec (now - stamp) 3600000) as [_ | Hge]; [reflexivity |].
  lia.
Qed.

(** A miss issues a probe, whatever the probe delivers. *)
Lemma detect_miss_probes (st : State) (now : Z) (probe : Probe) :
  isCacheValid st now = false ->
  probes (detectCapabilities t st now probe) = 1%nat.
Proof.
  intros Hmiss. unfold detectCapabilities. rewrite Hmiss.
  destruct (systemInfo probe); reflexivity.
Qed.

(** C8 as stated fails: a [detectCapabilities()] call made right
    after a [forceDetection()] that succeeded finds the snapshot just
    stored and issues no probe. *)
Lemma detect_after_force_does_not_probe :
  let probe := {| systemInfo := Returned {| si_version := "9.0.108";
                                            si_hardwareModel := "UDM-Pro" |};
                  storedAt := 10 |} in
  let forced := forceDetection shipped initial 0 probe in
  probes forced = 1%nat /\
  probes (detectCapabilities shipped (state forced) 11 probe) = 0%nat.
Proof. vm_compute. split; reflexivity. Qed.

(** C8, amended. When the first of two [detectCapabilities()] calls
    finds no valid cache and its probe succeeds, and the second call
    comes less than 60 minutes after the snapshot was stored, both
    return the same snapshot and one probe is issued in all.
    [forceDetection()] itself issues a probe whatever the age of the
    cache; a [detectCapabilities()] call that follows a successful
    [forceDetection()] within the window returns the forced snapshot
    without a probe. *)
Theorem capability_cache_window :
  (forall (st : State) (now1 now2 : Z) (probe1 probe2 : Probe)
          (info : SystemInfo),
      isCacheValid st now1 = false ->
      systemInfo probe1 = Returned info ->
      now2 - storedAt probe1 < 60 * 60 * 1000 ->
      let first := detectCapabilities t st now1 probe1 in
      let second := detectCapabilities t (state first) now2 probe2 in
      result second = result first /\
      (exists capabilities, result first = Returned capabilities) /\
      (probes first + probes second = 1)%nat) /\
  (forall (st : State) (now : Z) (probe : Probe),
      probes (forceDetection t st now probe) = 1%nat) /\
  (forall (st : State) (now1 now2 : Z) (probe1 probe2 : Probe)
          (info : SystemInfo),
      systemInfo probe1 = Returned info ->
      now2 - storedAt probe1 < 60 * 60 * 1000 ->
      let forced := forceDetection t st now1 probe1 in
      let next := detectCapabilities t (state forced) now2 probe2 in
      result next = result forced /\ probes next = 0%nat).
Proof.
  split; [| split].
  - intros st now1 now2 probe1 probe2 info Hmiss Hinfo Hage first second.
    subst second first.
    rewrite (detect_miss st now1 probe1 info Hmiss Hinfo). cbn [state].
    rewrite (detect_hit _ _ _ probe2 Hage). cbn.
    split; [reflexivity | split; [eexists; reflexivity | reflexivity]].
  - intros st now probe. unfold forceDetection.
    apply detect_miss_probes, isCacheValid_cleared.
  - intros st now1 now2 probe1 probe2 info Hinfo Hage forced next.
    subst next forced. unfold forceDetection.
    rewrite (detect_miss _ now1 probe1 info
                         (isCacheValid_cleared st now1) Hinfo).
    cbn [state]. rewrite (detect_hit _ _ _ probe2 Hage). cbn.
    split; reflexivity.
Qed.

End CapabilityCache.

Section CapabilityCacheExamples.
Import Errors Constants Detector.

Lemma capability_cache_window_witness :
  let probe := {| systemInfo := Returned {| si_version := "9.0.108";
                                            si_hardwareModel := "UDM-Pro" |};
                  storedAt := 10 |} in
  let first := detectCapabilities shipped initial 0 probe in
  let second := detectCapabilities shipped (state first) 3600009 probe in
  result second = result first /\
  (exists capabilities, result first = Returned capabilities) /\
  (probes first + probes second = 1)%nat.
Proof.
  intros probe.
  apply (proj1 (capability_cache_window shipped) initial 0 3600009 probe probe
               {| si_version := "9.0.108"; si_hardwareModel := "UDM-Pro" |});
    [reflexivity | reflexivity | cbn; lia].
Defined.

Example cache_expires :
  let probe := {| systemInfo := Returned {| si_version := "9.0.108";
                                            si_hardwareModel := "UDM-Pro" |};
                  storedAt := 10 |} in
  let first := detectCapabilities shipped initial 0 probe in
  probes (detectCapabilities shipped (state first) 3600010 probe) = 1%nat.
Proof. vm_compute. reflexivity. Qed.

Example detected_snapshot :
  let info := {| si_version := "UniFi OS 9.0.108 (build 7)";
                 si_hardwareModel := "UDM-Pro" |} in
  version (analyzeCapabilities shipped info) = "9.0.108" /\
  supportsZBF (analyzeCapabilities shipped info) = true /\
  maxFirewallRules (hardwareCapabilities (analyzeCapabilities shipped info))
  = 600.
Proof. vm_compute. repeat split; reflexivity. Qed.

End CapabilityCacheExamples.

(** ** The registry: listing *)

Section RegistryListing.
Import JS Errors Registry RegistrySpec Fixtures.

Example registered_tool_is_listed :
  map t_name (getToolsForMCP false (Returned ∅) (registered mockTool))
  = ["test_tool"].
Proof. reflexivity. Qed.

Example register_twice_lists_once :
  map name (getAllTools (register 1 mockTool (registered mockTool)))
  = ["test_tool"].
Proof. reflexivity. Qed.

Example disabled_tool_not_in_getAllTools :
  getAllTools (disabled mockTool) = [].
Proof. reflexivity. Qed.

(** C3 as stated fails: with no connection the listing shows a
    disabled entry, so it is not the list of the enabled entries'
    records. *)
Lemma offline_listing_shows_disabled_tool :
  enabled <$> map_get "test_tool" (tools (disabled mockTool)) = Some false /\
  getToolsForMCP false (Returned ∅) (disabled mockTool)
  = [toTool mockTool] /\
  getToolsForMCP false (Returned ∅) (disabled mockTool)
  <> map toTool (getAllTools (disabled mockTool)).
Proof. split; [reflexivity | split; [reflexivity | discriminate]]. Qed.

(** C3, amended. With no connection the listing is the records of
    all registered entries, disabled ones included, in registration
    order. With a connection it is the records of the entries that are
    enabled and that the detector reports available; when the detector
    fails it is the records of all enabled entries. *)
Theorem getToolsForMCP_listing :
  forall (r : State) (toolAvailability : Outcome (gmap string Availability)),
    (getToolsForMCP false toolAvailability r
     = map (fun p => toTool (tool (snd p))) (tools r)) /\
    (forall availability : gmap string Availability,
        toolAvailability = Returned availability ->
        forall listed : Tool,
          In listed (getToolsForMCP true toolAvailability r) <->
          exists (toolName : string) (entry : ToolRegistryEntry),
            In (toolName, entry) (tools r) /\
            enabled entry = true /\
            (exists a, availability !! toolName = Some a /\
                       available a = true) /\
            listed = toTool (tool entry)) /\
    (forall e : thrown,
        toolAvailability = Threw e ->
        getToolsForMCP true toolAvailability r = map toTool (getAllTools r)).
Proof.
  intros r toolAvailability. split; [| split].
  - unfold getToolsForMCP, getAllToolsForDocumentation. cbn [negb].
    rewrite !map_map. reflexivity.
  - intros availability -> listed.
    unfold getToolsForMCP, getAvailableTools. cbn [negb].
    rewrite in_map_iff. split.
    + intros (mt & <- & Hin). apply in_map_iff in Hin.
      destruct Hin as ([toolName entry] & <- & Hin).
      apply filter_In in Hin. destruct Hin as [Hin Hok].
      apply andb_true_iff in Hok. destruct Hok as [Hen Hav].
      cbn [fst snd] in *.
      exists toolName, entry. repeat split; try assumption.
      unfold is_available in Hav.
      destruct (availability !! toolName) as [a |]; [| discriminate].
      exists a. split; [reflexivity | exact Hav].
    + intros (toolName & entry & Hin & Hen & (a & Ha & Hav) & ->).
      exists (tool entry). split; [reflexivity |].
      apply in_map_iff. exists (toolName, entry). split; [reflexivity |].
      apply filter_In. split; [exact Hin |].
      cbn [fst snd]. rewrite Hen, Ha. exact Hav.
  - intros e ->. reflexivity.
Qed.

Lemma getToolsForMCP_listing_witness :
  In (toTool mockTool)
     (getToolsForMCP true
        (Returned (<["test_tool" :=
                       {| available := true; reason := None;
                          alternativeTool := None;
                          minimumVersion := None |}]> ∅))
        (registered mockTool)).
Proof.
  eapply (proj1 (proj2 (getToolsForMCP_listing (registered mockTool) _)));
    [reflexivity |].
  exists "test_tool". eexists. split; [cbn; left; reflexivity |].
  split; [reflexivity |]. split; [| reflexivity].
  eexists. split; [apply lookup_insert_eq | reflexivity].
Defined.

End RegistryListing.

(** ** The registry: invocation *)

Section RegistryInvocation.
Import JS Errors Registry RegistrySpec Fixtures.

Lemma map_get_update {V : Type} (k : string) (f : V -> V)
      (m : list (string * V)) :
  map_get k (map_update k f m) = f <$> map_get k m.
Proof.
  unfold map_get. induction m as [| [k' v'] m IH]; [reflexivity |].
  cbn [map_update assoc]. destruct (String.eqb k k') eqn:Hk; cbn [assoc].
  - rewrite Hk. reflexivity.
  - rewrite Hk. exact IH.
Qed.

Lemma map_get_update_ne {V : Type} (k k0 : string) (f : V -> V)
      (m : list (string * V)) :
  k0 <> k -> map_get k0 (map_update k f m) = map_get k0 m.
Proof.
  intros Hne. unfold map_get. induction m as [| [k' v'] m IH]; [reflexivity |].
  cbn [map_update assoc]. destruct (String.eqb k k') eqn:Hk; cbn [assoc].
  - apply String.eqb_eq in Hk. subst k'.
    destruct (String.eqb k0 k) eqn:H0; [| reflexivity].
    apply String.eqb_eq in H0. contradiction.
  - rewrite IH. reflexivity.
Qed.

Lemma executeTool_reaches_try (w : Env) (r : State) (toolName : string)
      (entry : ToolRegistryEntry) (params : gmap string value) :
  reaches_execution w r toolName entry ->
  executeTool w toolName params r = executeTool_try w toolName entry params r.
Proof.
  intros (Hget & Hen & Hconn & Hfeat). unfold executeTool.
  rewrite Hget, Hen. cbn [negb].
  destruct (requiresConnection (tool entry)).
  - rewrite (Hconn eq_refl). cbn [negb andb].
    destruct (has_version (tool entry)); [| reflexivity].
    destruct (Hfeat eq_refl) as [u ->]. reflexivity.
  - cbn [andb].
    destruct (has_version (tool entry)); [| reflexivity].
    destruct (Hfeat eq_refl) as [u ->]. reflexivity.
Qed.


(** Once the execution phase is reached, only a handler that throws
    [null] or [undefined] makes the invocation reject. *)
Lemma execution_phase_returns_result (w : Env) (r : State)
      (toolName : string) (entry : ToolRegistryEntry)
      (params : gmap string value) :
  reaches_execution w r toolName entry ->
  validateDependencies w r toolName <> Threw ThrownNullish ->
  handler (tool entry) params <> Threw ThrownNullish ->
  returns_result (fst (executeTool w toolName params r)).
Proof.
  intros Hreach Hdeps Hhandler.
  rewrite (executeTool_reaches_try w r toolName entry params Hreach).
  unfold executeTool_try, executeTool_catch, returns_result.
  destruct (validateDependencies w r toolName) as [u | e].
  - destruct (handler (tool entry) params) as [result | e].
    + eexists. reflexivity.
    + destruct e; [| | congruence]; eexists; reflexivity.
  - destruct e; [| | congruence]; eexists; reflexivity.
Qed.

Lemma execution_phase_returns_result_witness :
  returns_result
    (fst (executeTool offline "test_tool" ∅ (registered failingTool))).
Proof.
  apply (execution_phase_returns_result
           offline (registered failingTool) "test_tool"
           (fresh_entry failingTool) ∅).
  - repeat split; try reflexivity; intros H; discriminate H.
  - discriminate.
  - discriminate.
Defined.

(** C2. With no active connection, invoking a name that is not
    registered is rejected with the kind [TOOL_NOT_FOUND], and invoking
    a registered, disabled tool that requires a connection is rejected
    with the kind [TOOL_DISABLED]: both checks come before the
    connection check. In neither case does the registry change. *)
Theorem executeTool_precondition_order :
  forall (w : Env) (r : State) (toolName : string)
         (params : gmap string value),
    connected_check w = false ->
    (map_get toolName (tools r) = None ->
     thrown_code (fst (executeTool w toolName params r))
     = Some TOOL_NOT_FOUND /\
     snd (executeTool w toolName params r) = r) /\
    (forall entry : ToolRegistryEntry,
        map_get toolName (tools r) = Some entry ->
        enabled entry = false ->
        requiresConnection (tool entry) = true ->
        thrown_code (fst (executeTool w toolName params r))
        = Some TOOL_DISABLED /\
        snd (executeTool w toolName params r) = r).
Proof.
  intros w r toolName params _. split.
  - intros Hget. unfold executeTool. rewrite Hget. split; reflexivity.
  - intros entry Hget Hdis _. unfold executeTool. rewrite Hget, Hdis.
    split; reflexivity.
Qed.

Lemma executeTool_precondition_order_witness :
  thrown_code (fst (executeTool offline "non_existent" ∅
                                (disabled connectedTool)))
  = Some TOOL_NOT_FOUND /\
  thrown_code (fst (executeTool offline "test_tool" ∅
                                (disabled connectedTool)))
  = Some TOOL_DISABLED.
Proof.
  split.
  - apply (proj1 (executeTool_precondition_order
                    offline (disabled connectedTool) "non_existent" ∅
                    eq_refl)).
    reflexivity.
  - eapply (proj2 (executeTool_precondition_order
                     offline (disabled connectedTool) "test_tool" ∅
                     eq_refl)); reflexivity.
Defined.

(** C1 fails on the code. On the registry of the unit tests,
    [executeTool('non_existent', {})] and, once the tool is disabled,
    [executeTool('test_tool', {})] reject with a [UniFiMCPError]
    instead of resolving to a result with [success: false]; so do a
    tool that requires a connection when there is none and a tool
    whose feature the detector rejects. *)
Theorem executeTool_rejects_instead_of_returning :
  fst (executeTool offline "non_existent" ∅ (registered mockTool))
  = Threw (ThrownMCP (newError "Tool 'non_existent' not found"
                               TOOL_NOT_FOUND (Some 404) NoDetails)) /\
  fst (executeTool offline "test_tool" ∅ (disabled mockTool))
  = Threw (ThrownMCP (newError "Tool 'test_tool' is disabled"
                               TOOL_DISABLED (Some 403) NoDetails)) /\
  thrown_code (fst (executeTool offline "test_tool" ∅
                                (registered connectedTool)))
  = Some CONNECTION_REQUIRED /\
  thrown_code (fst (executeTool old_controller "unifi_get_zones" ∅
                                (registered zoneTool)))
  = Some FEATURE_NOT_AVAILABLE /\
  ~ returns_result
      (fst (executeTool offline "non_existent" ∅ (registered mockTool))).
Proof.
  repeat split; try reflexivity.
  intros [result H]. discriminate H.
Qed.

Example executeTool_success :
  success <$>
    (match fst (executeTool offline "test_tool" ∅ (registered mockTool)) with
     | Returned result => Some result
     | Threw _ => None
     end)
  = Some true.
Proof. reflexivity. Qed.



(** C4 fails on the code. A tool whose handler throws is invoked once
    on a fresh registry: the invocation resolves to a failure result,
    the usage count is 1, and the error count is 2, not 1. *)
Theorem handler_exception_counted_twice :
  let after := executeTool offline "test_tool" ∅ (registered failingTool) in
  (success <$> (match fst after with
                | Returned result => Some result
                | Threw _ => None
                end) = Some false) /\
  (usageCount <$> map_get "test_tool" (tools (snd after)) = Some 1) /\
  (errorCount <$> map_get "test_tool" (tools (snd after)) = Some 2).
Proof. cbv zeta. repeat split; reflexivity. Qed.

Example unsuccessful_result_counted_once :
  let failed := {| success := false; data := None; error := None;
                   warnings := []; metadata := None |} in
  let softTool := {| name := "test_tool"; description := "";
                     inputSchema := VObject []; category := CONNECTION;
                     requiresConnection := false; requiresVersion := None;
                     handler := fun _ => Returned failed |} in
  errorCount <$>
    map_get "test_tool"
            (tools (snd (executeTool offline "test_tool" ∅
                                     (registered softTool))))
  = Some 1.
Proof. reflexivity. Qed.

End RegistryInvocation.

(** ** Insertion-ordered maps *)

Section OrderedMaps.
Import Registry.
Context {V : Type}.
Implicit Types (m : list (string * V)) (k : string).

Lemma map_get_None m k : map_get k m = None <-> ~ In k (map fst m).
Proof.
  unfold map_get. induction m as [| [k' v'] m IH]; cbn [JS.assoc map fst In].
  - tauto.
  - destruct (String.eqb_spec k k') as [-> | Hne].
    + split; [discriminate | intros H; exfalso; apply H; left; reflexivity].
    + rewrite IH. split.
      * intros Hn [Heq | Hin]; [congruence | tauto].
      * intros Hn Hin. apply Hn. right. exact Hin.
Qed.

Lemma map_get_Some_In m k v : map_get k m = Some v -> In (k, v) m.
Proof.
  unfold map_get. induction m as [| [k' v'] m IH]; cbn [JS.assoc]; [discriminate |].
  destruct (String.eqb_spec k k') as [-> | Hne].
  - intros [= ->]. left. reflexivity.
  - intros H. right. apply IH, H.
Qed.

Lemma In_map_get m k v :
  NoDup (map fst m) -> In (k, v) m -> map_get k m = Some v.
Proof.
  unfold map_get. induction m as [| [k' v'] m IH]; cbn [JS.assoc map fst];
    [intros _ [] |].
  intros Hnd [Heq | Hin]; apply NoDup_cons in Hnd; destruct Hnd as [Hk Hnd];
    rewrite list_elem_of_In in Hk.
  - injection Heq as -> ->. rewrite String.eqb_refl. reflexivity.
  - destruct (String.eqb_spec k k') as [-> | Hne].
    + exfalso. apply Hk. apply (in_map fst) in Hin. exact Hin.
    + apply IH; assumption.
Qed.

Lemma map_get_set m k k0 v :
  map_get k0 (map_set k v m) = if String.eqb k0 k then Some v else map_get k0 m.
Proof.
  unfold map_get. induction m as [| [k' v'] m IH]; cbn [map_set JS.assoc].
  - reflexivity.
  - destruct (String.eqb_spec k k') as [-> | Hne]; cbn [JS.assoc].
    + destruct (String.eqb k0 k'); reflexivity.
    + rewrite IH. destruct (String.eqb_spec k0 k') as [-> | Hne0];
        [| reflexivity].
      destruct (String.eqb_spec k' k) as [-> | _]; [congruence | reflexivity].
Qed.

Lemma keys_set m k v :
  map fst (map_set k v m)
  = match map_get k m with
    | Some _ => map fst m
    | None => (map fst m ++ [k])%list
    end.
Proof.
  unfold map_get.
  induction m as [| [k' v'] m IH]; cbn [map_set map fst app JS.assoc].
  - reflexivity.
  - destruct (String.eqb_spec k k') as [-> | Hne]; cbn [map fst].
    + reflexivity.
    + rewrite IH. destruct (JS.assoc k m); reflexivity.
Qed.

Lemma NoDup_keys_set m k v :
  NoDup (map fst m) -> NoDup (map fst (map_set k v m)).
Proof.
  intros Hnd. rewrite keys_set. destruct (map_get k m) eqn:Hget; [exact Hnd |].
  apply map_get_None in Hget.
  apply NoDup_app; split; [exact Hnd | split].
  - intros x Hx Hx'. apply list_elem_of_In in Hx.
    apply list_elem_of_In in Hx'. destruct Hx' as [<- | []]. contradiction.
  - apply NoDup_singleton.
Qed.

Lemma keys_update m k (f : V -> V) : map fst (map_update k f m) = map fst m.
Proof.
  induction m as [| [k' v'] m IH]; cbn [map_update map fst]; [reflexivity |].
  destruct (String.eqb k k'); cbn [map fst]; [reflexivity |].
  rewrite IH. reflexivity.
Qed.

Lemma keys_delete_incl m k x :
  In x (map fst (map_delete k m)) -> In x (map fst m).
Proof.
  induction m as [| [k' v'] m IH]; cbn [map_delete map fst In]; [tauto |].
  destruct (String.eqb k k'); cbn [map fst In]; [tauto |].
  intros [H | H]; [left; exact H | right; apply IH, H].
Qed.

Lemma NoDup_keys_delete m k :
  NoDup (map fst m) -> NoDup (map fst (map_delete k m)).
Proof.
  induction m as [| [k' v'] m IH]; cbn [map_delete map fst]; [tauto |].
  intros Hnd. apply NoDup_cons in Hnd. destruct Hnd as [Hk Hnd].
  rewrite list_elem_of_In in Hk.
  destruct (String.eqb k k'); cbn [map fst]; [exact Hnd |].
  apply NoDup_cons. split; [| apply IH, Hnd].
  rewrite list_elem_of_In. intros Hin. apply Hk, (keys_delete_incl m k), Hin.
Qed.

Lemma map_get_delete_ne m k k0 :
  k0 <> k -> map_get k0 (map_delete k m) = map_get k0 m.
Proof.
  intros Hne. unfold map_get.
  induction m as [| [k' v'] m IH]; cbn [map_delete JS.assoc]; [reflexivity |].
  destruct (String.eqb_spec k k') as [-> | Hk]; cbn [JS.assoc].
  - destruct (String.eqb_spec k0 k'); [contradiction | reflexivity].
  - rewrite IH. reflexivity.
Qed.

Lemma map_get_delete_eq m k :
  NoDup (map fst m) -> map_get k (map_delete k m) = None.
Proof.
  intros Hnd. apply map_get_None.
  induction m as [| [k' v'] m IH]; cbn [map_delete map fst In]; [tauto |].
  cbn [map fst] in Hnd. apply NoDup_cons in Hnd. destruct Hnd as [Hk Hnd].
  rewrite list_elem_of_In in Hk.
  destruct (String.eqb_spec k k') as [-> | Hne]; [exact Hk |].
  cbn [map fst In]. intros [Heq | Hin]; [congruence | exact (IH Hnd Hin)].
Qed.

Lemma map_delete_absent m k : map_get k m = None -> map_delete k m = m.
Proof.
  unfold map_get. induction m as [| [k' v'] m IH];
    cbn [map_delete JS.assoc]; [reflexivity |].
  destruct (String.eqb k k'); [discriminate |].
  intros H. rewrite (IH H). reflexivity.
Qed.

End OrderedMaps.

(** ** The registry: registration, removal and the indices *)

Section RegistryMaintenance.
Import JS Errors Registry RegistrySpec RegistryOps Fixtures.

Example unregister_test :
  getTool "test_tool" (fst (unregister "test_tool" (registered mockTool)))
  = None /\
  snd (unregister "test_tool" (registered mockTool)) = true /\
  snd (unregister "non_existent" (registered mockTool)) = false.
Proof. repeat split; reflexivity. Qed.

Example disabled_tool_is_hidden :
  getTool "test_tool" (disabled mockTool) = None /\
  name <$> getTool "test_tool"
             (fst (setToolEnabled "test_tool" true (disabled mockTool)))
  = Some "test_tool".
Proof. split; reflexivity. Qed.

(** X3. Registering a tool makes it the enabled entry under its name,
    with fresh counters, whatever was registered under that name
    before; every other name is left as it was. *)
Theorem register_then_lookup :
  forall (now : Z) (t : MCPTool) (r : State),
    getTool (name t) (register now t r) = Some t /\
    getToolStats (name t) (register now t r)
    = Some {| tool := t; Registry.registered := now; enabled := true;
              usageCount := 0; lastUsed := None;
              averageExecutionTime := 0%Q; errorCount := 0;
              dependencies := extractDependencies t |} /\
    (forall other : string,
        other <> name t ->
        getToolStats other (register now t r) = getToolStats other r /\
        getTool other (register now t r) = getTool other r).
Proof.
  intros now t r. unfold getTool, getToolStats, register. cbn [tools].
  rewrite map_get_set, String.eqb_refl. cbn [enabled tool].
  split; [reflexivity | split; [reflexivity |]].
  intros other Hne. rewrite map_get_set.
  destruct (String.eqb_spec other (name t)); [contradiction |].
  split; reflexivity.
Qed.

Lemma register_then_lookup_witness :
  getToolStats "test_tool" (register 7 zoneTool (registered mockTool))
  = getToolStats "test_tool" (registered mockTool).
Proof.
  apply (proj2 (proj2 (register_then_lookup 7 zoneTool (registered mockTool)))).
  discriminate.
Defined.

Lemma counters_only_record_usage (now t : Z) (ok : bool) :
  counters_only (record_usage now t ok).
Proof.
  intros e. cbn. repeat split; try lia; destruct ok; cbn; lia.
Qed.

Lemma counters_only_catch (now t : Z) :
  counters_only (fun e => record_usage now t false (bump_errorCount e)).
Proof. intros e. cbn. repeat split; lia. Qed.

Lemma map_update_twice {V : Type} (k : string) (f g : V -> V)
      (m : list (string * V)) :
  map_update k g (map_update k f m) = map_update k (fun v => g (f v)) m.
Proof.
  induction m as [| [k' v'] m IH]; cbn [map_update]; [reflexivity |].
  destruct (String.eqb k k') eqn:Hk; cbn [map_update]; rewrite Hk.
  - reflexivity.
  - rewrite IH. reflexivity.
Qed.

(** The registry after an invocation: untouched, or touched in the
    counters of the invoked entry only. *)
Lemma executeTool_state (w : Env) (toolName : string)
      (params : gmap string value) (r : State) :
  snd (executeTool w toolName params r) = r \/
  exists f, counters_only f /\
            snd (executeTool w toolName params r)
            = {| tools := map_update toolName f (tools r);
                 categories := categories r; deps := deps r |}.
Proof.
  unfold executeTool.
  destruct (map_get toolName (tools r)) as [entry |] eqn:Hget;
    [| left; reflexivity].
  destruct (negb (enabled entry)); [left; reflexivity |].
  destruct (_ && _); [left; reflexivity |].
  destruct (if has_version (tool entry) then _ else _) as [u | error];
    [| left; reflexivity].
  assert (Hcatch : forall e,
             snd (executeTool_catch w toolName e r)
             = {| tools :=
                    map_update toolName
                      (fun x => record_usage (endTime w)
                                  (endTime w - startTime w) false
                                  (bump_errorCount x)) (tools r);
                  categories := categories r; deps := deps r |}).
  { intros e. unfold executeTool_catch, updateUsageStats. cbn [tools].
    rewrite map_get_update, Hget. cbn [fmap option_fmap option_map].
    destruct (message_of e); cbn [snd categories deps];
      rewrite map_update_twice; reflexivity. }
  right. unfold executeTool_try.
  destruct (validateDependencies w r toolName) as [u' | e].
  - destruct (handler (tool entry) params) as [result | e].
    + eexists. split; [apply counters_only_record_usage |].
      cbn [snd]. unfold updateUsageStats. rewrite Hget. reflexivity.
    + eexists. split; [apply counters_only_catch | apply Hcatch].
  - eexists. split; [apply counters_only_catch | apply Hcatch].
Qed.

(** X4. An invocation never adds, removes, renames, enables or
    disables an entry and never touches the category and dependency
    indices: entries under other names are left as they are, and the
    invoked entry keeps its tool, its registration time, its enabled
    flag and its dependencies, while its usage count grows by at most
    one and its error count by at most two. *)
Theorem executeTool_touches_counters_only :
  forall (w : Env) (toolName : string) (params : gmap string value)
         (r : State),
    let r' := snd (executeTool w toolName params r) in
    categories r' = categories r /\
    deps r' = deps r /\
    map fst (tools r') = map fst (tools r) /\
    (forall other : string,
        other <> toolName ->
        getToolStats other r' = getToolStats other r) /\
    (forall entry : ToolRegistryEntry,
        getToolStats toolName r = Some entry ->
        exists entry' : ToolRegistryEntry,
          getToolStats toolName r' = Some entry' /\
          tool entry' = tool entry /\
          Registry.registered entry' = Registry.registered entry /\
          enabled entry' = enabled entry /\
          dependencies entry' = dependencies entry /\
          usageCount entry <= usageCount entry' <= usageCount entry + 1 /\
          errorCount entry <= errorCount entry' <= errorCount entry + 2).
Proof.
  intros w toolName params r r'. subst r'. unfold getToolStats.
  destruct (executeTool_state w toolName params r) as [-> | (f & Hf & ->)].
  - repeat split; try reflexivity.
    intros entry Hget. exists entry. repeat split; (assumption || lia).
  - cbn [tools categories deps]. rewrite keys_update.
    repeat split; try reflexivity.
    + intros other Hne. apply map_get_update_ne, Hne.
    + intros entry Hget. exists (f entry).
      rewrite map_get_update, Hget. split; [reflexivity |]. apply Hf.
Qed.

Lemma executeTool_touches_counters_only_witness :
  getToolStats "unifi_get_zones"
    (snd (executeTool offline "test_tool" ∅
            (register 3 zoneTool (registered failingTool))))
  = getToolStats "unifi_get_zones"
      (register 3 zoneTool (registered failingTool)).
Proof.
  apply (proj1 (proj2 (proj2 (proj2
           (executeTool_touches_counters_only
              offline "test_tool" ∅
              (register 3 zoneTool (registered failingTool))))))).
  discriminate.
Defined.

End RegistryMaintenance.

(** ** The registry: what every reachable state satisfies *)

Section RegistryInvariant.
Import JS Errors Registry RegistrySpec RegistryOps Fixtures.

Lemma consistent_empty : consistent empty.
Proof.
  split; [split; cbn; apply NoDup_nil_2 |].
  split; [intros toolName entry H; discriminate H | reflexivity].
Qed.

Lemma consistent_cleanup (r : State) : consistent (cleanup r).
Proof.
  split; [split; cbn; apply NoDup_nil_2 |].
  split; [intros toolName entry H; discriminate H | reflexivity].
Qed.

Lemma consistent_register (now : Z) (t : MCPTool) (r : State) :
  consistent r -> consistent (register now t r).
Proof.
  intros ([Hnt Hnd] & Hfiled & Hdeps). unfold register.
  split; [split; cbn [tools deps]; apply NoDup_keys_set; assumption |].
  cbn [tools deps dependencies]. split.
  - intros toolName entry. rewrite map_get_set.
    destruct (String.eqb_spec toolName (name t)) as [-> | Hne].
    + intros [= <-]. cbn. split; reflexivity.
    + apply Hfiled.
  - intros toolName. rewrite !map_get_set.
    destruct (String.eqb toolName (name t)); [reflexivity | apply Hdeps].
Qed.

Lemma consistent_unregister (toolName : string) (r : State) :
  consistent r -> consistent (fst (unregister toolName r)).
Proof.
  intros ([Hnt Hnd] & Hfiled & Hdeps). unfold unregister.
  destruct (map_get toolName (tools r)) as [entry |] eqn:Hget; cbn [fst];
    [| exact (conj (conj Hnt Hnd) (conj Hfiled Hdeps))].
  split; [split; cbn [tools deps]; apply NoDup_keys_delete; assumption |].
  cbn [tools deps]. split.
  - intros other entry'.
    destruct (String.eqb_spec other toolName) as [-> | Hne].
    + rewrite (map_get_delete_eq _ _ Hnt). discriminate.
    + rewrite (map_get_delete_ne _ _ _ Hne). apply Hfiled.
  - intros other.
    destruct (String.eqb_spec other toolName) as [-> | Hne].
    + rewrite (map_get_delete_eq _ _ Hnt), (map_get_delete_eq _ _ Hnd).
      reflexivity.
    + rewrite !(map_get_delete_ne _ _ _ Hne). apply Hdeps.
Qed.

(** Rewriting one entry in place, its tool and its dependencies kept. *)
Lemma consistent_update (toolName : string)
      (f : ToolRegistryEntry -> ToolRegistryEntry) (r : State) :
  (forall e, tool (f e) = tool e /\ dependencies (f e) = dependencies e) ->
  consistent r ->
  consistent {| tools := map_update toolName f (tools r);
                categories := categories r; deps := deps r |}.
Proof.
  intros Hf ([Hnt Hnd] & Hfiled & Hdeps).
  split; [split; cbn [tools deps]; [rewrite keys_update |]; assumption |].
  cbn [tools deps]. split.
  - intros other entry'.
    destruct (String.eqb_spec other toolName) as [-> | Hne].
    + rewrite map_get_update.
      destruct (map_get toolName (tools r)) as [entry |] eqn:Hget;
        [| discriminate].
      intros [= <-]. destruct (Hf entry) as [-> ->]. apply Hfiled, Hget.
    + rewrite (map_get_update_ne _ _ _ _ Hne). apply Hfiled.
  - intros other.
    destruct (String.eqb_spec other toolName) as [-> | Hne].
    + rewrite map_get_update, Hdeps.
      destruct (map_get toolName (tools r)) as [entry |]; [| reflexivity].
      cbn. destruct (Hf entry) as [_ ->]. reflexivity.
    + rewrite (map_get_update_ne _ _ _ _ Hne). apply Hdeps.
Qed.

Lemma consistent_setToolEnabled (toolName : string) (b : bool) (r : State) :
  consistent r -> consistent (fst (setToolEnabled toolName b r)).
Proof.
  intros Hr. unfold setToolEnabled.
  destruct (map_get toolName (tools r)); cbn [fst]; [| exact Hr].
  apply consistent_update; [| exact Hr]. intros e. split; reflexivity.
Qed.

Lemma consistent_executeTool (w : Env) (toolName : string)
      (params : gmap string value) (r : State) :
  consistent r -> consistent (snd (executeTool w toolName params r)).
Proof.
  intros Hr.
  destruct (executeTool_state w toolName params r) as [-> | (f & Hf & ->)];
    [exact Hr |].
  apply consistent_update; [| exact Hr].
  intros e. destruct (Hf e) as (Ht & _ & _ & Hd & _). split; assumption.
Qed.

(** X5. Whatever sequence of [register], [unregister],
    [setToolEnabled], [executeTool] and [cleanup] calls a registry
    has gone through, no name is registered twice, every entry is
    filed under the name of its tool with the dependency list
    [extractDependencies] computes from that tool, and the dependency
    index holds exactly the registered names with those same lists. *)
Theorem reachable_consistent :
  forall r : State, reachable r -> consistent r.
Proof.
  induction 1 as [| now t r _ IH | toolName r _ IH | toolName b r _ IH
                  | w toolName params r _ IH | r _ IH].
  - apply consistent_empty.
  - apply consistent_register, IH.
  - apply consistent_unregister, IH.
  - apply consistent_setToolEnabled, IH.
  - apply consistent_executeTool, IH.
  - apply consistent_cleanup.
Qed.

Lemma reachable_consistent_witness :
  consistent (snd (executeTool offline "test_tool" ∅
                               (register 3 zoneTool (registered mockTool)))).
Proof.
  apply reachable_consistent.
  apply reach_executeTool, reach_register, reach_register, reach_empty.
Defined.

(** X6. In a consistent registry, [unregister] answers
    whether the name was registered; afterwards the name has no entry
    and no dependency list, the other names keep theirs, and a second
    [unregister] of the name answers false and changes nothing. *)
Theorem unregister_removes :
  forall (toolName : string) (r : State),
    consistent r ->
    let r' := fst (unregister toolName r) in
    (snd (unregister toolName r) = true <->
     exists entry, getToolStats toolName r = Some entry) /\
    getToolStats toolName r' = None /\
    getTool toolName r' = None /\
    map_get toolName (deps r') = None /\
    (forall other : string,
        other <> toolName -> getToolStats other r' = getToolStats other r) /\
    unregister toolName r' = (r', false).
Proof.
  intros toolName r ([Htools Hdeps] & _ & Hagree) r'. subst r'.
  unfold unregister, getTool, getToolStats.
  destruct (map_get toolName (tools r)) as [entry |] eqn:Hget; cbn [fst snd].
  - cbn [tools deps].
    rewrite (map_get_delete_eq _ _ Htools), (map_get_delete_eq _ _ Hdeps).
    repeat split; try reflexivity.
    + intros _. exists entry. reflexivity.
    + intros other Hne. apply map_get_delete_ne, Hne.
  - rewrite Hget, Hagree, Hget. repeat split; try reflexivity.
    + discriminate.
    + intros [entry H]. discriminate H.
Qed.

Lemma unregister_removes_witness :
  getTool "test_tool" (fst (unregister "test_tool" (registered mockTool)))
  = None /\
  unregister "test_tool" (fst (unregister "test_tool" (registered mockTool)))
  = (fst (unregister "test_tool" (registered mockTool)), false).
Proof.
  assert (H : consistent (registered mockTool))
    by (apply consistent_register, consistent_empty).
  split.
  - apply (unregister_removes "test_tool" (registered mockTool) H).
  - apply (unregister_removes "test_tool" (registered mockTool) H).
Defined.

End RegistryInvariant.

(** ** The registry: statistics *)

Section RegistryStatistics.
Import JS Errors Registry RegistrySpec RegistryOps Fixtures.

Lemma map_set_fresh {V : Type} (k : string) (v : V) (m : list (string * V)) :
  map_get k m = None -> map_set k v m = (m ++ [(k, v)])%list.
Proof.
  unfold map_get. induction m as [| [k' v'] m IH]; cbn [map_set JS.assoc app];
    [reflexivity |].
  destruct (String.eqb k k'); [discriminate |].
  intros H. rewrite (IH H). reflexivity.
Qed.

Lemma category_get_set (c c' : ToolCategory) (l : list string)
      (m : list (ToolCategory * list string)) :
  category_get c' (category_set c l m)
  = if ToolCategory_eqb c' c then Some l else category_get c' m.
Proof.
  induction m as [| [c0 l0] m IH]; cbn [category_set category_get].
  - reflexivity.
  - destruct (ToolCategory_eqb c c0) eqn:Hc; cbn [category_get].
    + destruct c, c0, c'; cbn in *; try discriminate; reflexivity.
    + rewrite IH.
      destruct c, c0, c'; cbn in *; try discriminate; reflexivity.
Qed.

Lemma categoryCounts_filed (c : ToolCategory) (r : State) :
  categoryCounts (getRegistryStats r) c = Z.of_nat (length (filed c r)).
Proof.
  unfold filed. cbn. destruct (category_get c (categories r)); reflexivity.
Qed.

Lemma filed_register (c : ToolCategory) (now : Z) (t : MCPTool) (r : State) :
  filed c (register now t r)
  = if ToolCategory_eqb c (category t) &&
       negb (existsb (String.eqb (name t)) (filed (category t) r))
    then (filed c r ++ [name t])%list
    else filed c r.
Proof.
  unfold filed, register, addToCategory. cbn [categories].
  destruct (existsb _ _) eqn:Hin; cbn [negb].
  - rewrite andb_false_r. reflexivity.
  - rewrite andb_true_r, category_get_set.
    destruct (ToolCategory_eqb c (category t)) eqn:Hc; [| reflexivity].
    assert (c = category t) as -> by (destruct c, (category t);
                                      cbn in Hc; congruence).
    reflexivity.
Qed.

(** The state a batch leads to, when its names are new and distinct:
    the batch's entries follow the old ones, enabled and unused, and
    each name is filed under its tool's category. *)
Lemma registerBatch_loop_fresh (clock : nat -> Z) (ts : list MCPTool) :
  forall (k : nat) (r : State),
    NoDup (map name ts) ->
    (forall t, In t ts -> map_get (name t) (tools r) = None) ->
    (forall t c, In t ts -> ~ In (name t) (filed c r)) ->
    let r' := registerBatch_loop clock k ts r in
    (exists news,
        tools r' = (tools r ++ news)%list /\
        map fst news = map name ts /\
        Forall (fun p => enabled (snd p) = true /\ usageCount (snd p) = 0)
               news) /\
    (forall c,
        filed c r'
        = (filed c r ++
           map name (List.filter
                       (fun t => ToolCategory_eqb (category t) c) ts))%list).
Proof.
  induction ts as [| t ts IH]; intros k r Hnd Hfresh Hfiled; cbn zeta.
  - cbn [registerBatch_loop]. split.
    + exists []. rewrite app_nil_r. repeat split. constructor.
    + intros c. cbn. rewrite app_nil_r. reflexivity.
  - cbn [registerBatch_loop]. cbn [map] in Hnd.
    apply NoDup_cons in Hnd. destruct Hnd as [Hnew Hnd].
    rewrite list_elem_of_In in Hnew.
    assert (Htools : tools (register (clock k) t r)
                     = (tools r ++
                        [(name t,
                          {| tool := t; Registry.registered := clock k;
                             enabled := true; usageCount := 0;
                             lastUsed := None; averageExecutionTime := 0%Q;
                             errorCount := 0;
                             dependencies := extractDependencies t |})])%list).
    { unfold register. cbn [tools]. apply map_set_fresh, Hfresh. left.
      reflexivity. }
    assert (Hf : forall c,
               filed c (register (clock k) t r)
               = if ToolCategory_eqb c (category t)
                 then (filed c r ++ [name t])%list else filed c r).
    { intros c. rewrite filed_register.
      replace (existsb _ _) with false; [rewrite andb_true_r; reflexivity |].
      symmetry. apply not_true_is_false. intros Hex.
      apply existsb_exists in Hex. destruct Hex as (x & Hx & Heq).
      apply String.eqb_eq in Heq. subst x.
      apply (Hfiled t (category t)); [left; reflexivity | exact Hx]. }
    destruct (IH (S k) (register (clock k) t r) Hnd) as [(news & Ht & Hk & Hall) Hc].
    + intros t' Hin. rewrite Htools. apply map_get_None.
      rewrite map_app, in_app_iff. cbn. intros [H | [H | []]].
      * apply (proj1 (map_get_None _ _) (Hfresh t' (or_intror Hin))), H.
      * apply Hnew. rewrite H. apply in_map, Hin.
    + intros t' c Hin. rewrite Hf.
      destruct (ToolCategory_eqb c (category t)).
      * rewrite in_app_iff. cbn. intros [H | [H | []]].
        -- apply (Hfiled t' c (or_intror Hin)), H.
        -- apply Hnew. rewrite H. apply in_map, Hin.
      * apply Hfiled. right. exact Hin.
    + split.
      * eexists (_ :: news). rewrite Ht, Htools, <- app_assoc. cbn [app].
        split; [reflexivity |]. cbn [map fst]. rewrite Hk.
        split; [reflexivity |]. constructor; [split; reflexivity | exact Hall].
      * intros c. rewrite Hc, Hf. cbn [List.filter].
        assert (Hsym : ToolCategory_eqb (category t) c
                       = ToolCategory_eqb c (category t))
          by (destruct c, (category t); reflexivity).
        rewrite Hsym. destruct (ToolCategory_eqb c (category t)).
        -- rewrite <- app_assoc. reflexivity.
        -- reflexivity.
Qed.

Lemma fold_usage_app (l1 l2 : list ToolRegistryEntry) (z : Z) :
  fold_left (fun sum entry => sum + usageCount entry) (l1 ++ l2) z
  = fold_left (fun sum entry => sum + usageCount entry) l2
              (fold_left (fun sum entry => sum + usageCount entry) l1 z).
Proof. apply fold_left_app. Qed.

Lemma fold_usage_unused (l : list (string * ToolRegistryEntry)) (z : Z) :
  Forall (fun p => enabled (snd p) = true /\ usageCount (snd p) = 0) l ->
  fold_left (fun sum entry => sum + usageCount entry) (map snd l) z = z /\
  List.filter (fun entry => enabled entry) (map snd l) = map snd l.
Proof.
  revert z. induction l as [| p l IH]; intros z Hall; cbn; [tauto |].
  apply Forall_cons_1 in Hall. destruct Hall as [[Hen Hu] Hall].
  rewrite Hen, Hu, Z.add_0_r. destruct (IH z Hall) as [-> ->].
  split; reflexivity.
Qed.

(** X7. After [registerBatch] of tools with distinct names on a
    fresh registry, [getRegistryStats] reports as many tools as the
    batch holds, all of them enabled and none disabled, no usage and a
    zero average, and under each category the number of tools of the
    batch that have that category. *)
Theorem registerBatch_stats :
  forall (clock : nat -> Z) (ts : list MCPTool),
    NoDup (map name ts) ->
    let stats := getRegistryStats (registerBatch clock ts empty) in
    totalTools stats = Z.of_nat (length ts) /\
    enabledTools stats = Z.of_nat (length ts) /\
    disabledTools stats = 0 /\
    totalUsage stats = 0 /\
    averageExecutionTime_all stats = 0%Q /\
    (forall c : ToolCategory,
        categoryCounts stats c
        = Z.of_nat (length (List.filter
                              (fun t => ToolCategory_eqb (category t) c) ts))).
Proof.
  intros clock ts Hnd stats.
  destruct (registerBatch_loop_fresh clock ts 0 empty Hnd)
    as [(news & Ht & Hk & Hall) Hc].
  { intros t _. reflexivity. }
  { intros t c _. destruct c; intros []. }
  cbn [tools empty app] in Ht.
  destruct (fold_usage_unused news 0 Hall) as [Hu Hf].
  assert (Hlen : length news = length ts).
  { rewrite <- (length_map fst news), Hk, length_map. reflexivity. }
  subst stats. unfold registerBatch, getRegistryStats.
  cbn [totalTools enabledTools disabledTools totalUsage
       averageExecutionTime_all].
  rewrite Ht, Hf, Hu, !length_map, Hlen.
  repeat split; try reflexivity; try lia.
  intros c.
  change (categoryCounts (getRegistryStats (registerBatch_loop clock 0 ts empty)) c
          = Z.of_nat (length (List.filter
                                (fun t => ToolCategory_eqb (category t) c) ts))).
  rewrite categoryCounts_filed, Hc.
  replace (filed c empty) with (@nil string) by (destruct c; reflexivity).
  cbn [app]. rewrite length_map. reflexivity.
Qed.

Lemma registerBatch_stats_witness :
  let stats := getRegistryStats
                 (registerBatch (fun _ => 0) [mockTool; zoneTool] empty) in
  totalTools stats = 2 /\ enabledTools stats = 2 /\ disabledTools stats = 0.
Proof.
  cbv zeta.
  assert (Hnd : NoDup (map name [mockTool; zoneTool])).
  { cbn. apply NoDup_cons. split.
    - rewrite list_elem_of_In. cbn. intros [H | []]. discriminate H.
    - apply NoDup_singleton. }
  pose proof (registerBatch_stats (fun _ => 0) [mockTool; zoneTool] Hnd) as H.
  cbv zeta in H. destruct H as (H1 & H2 & H3 & _).
  split; [exact H1 | split; [exact H2 | exact H3]].
Defined.

Lemma enabled_count_update (k : string)
      (f : ToolRegistryEntry -> ToolRegistryEntry)
      (m : list (string * ToolRegistryEntry)) (entry : ToolRegistryEntry) :
  map_get k m = Some entry ->
  Z.of_nat (length (List.filter (fun e => enabled e)
                                (map snd (map_update k f m))))
  = Z.of_nat (length (List.filter (fun e => enabled e) (map snd m)))
    - b2z (enabled entry) + b2z (enabled (f entry)).
Proof.
  unfold map_get. induction m as [| [k' v'] m IH];
    cbn [map_update JS.assoc]; [discriminate |].
  destruct (String.eqb k k').
  - intros [= ->]. cbn [map snd List.filter].
    destruct (enabled entry), (enabled (f entry)); cbn [length b2z]; lia.
  - intros H. specialize (IH H). cbn [map snd List.filter].
    destruct (enabled v'); cbn [length]; lia.
Qed.

(** X8. [setToolEnabled] on a registered name keeps the total
    and moves the enabled count by the change of that one entry:
    disabling an enabled tool takes one from [enabledTools] and adds
    one to [disabledTools]; [setToolEnabled] on an unregistered name
    answers false and changes nothing. *)
Theorem setToolEnabled_stats :
  forall (toolName : string) (b : bool) (r : State),
    let r' := fst (setToolEnabled toolName b r) in
    totalTools (getRegistryStats r') = totalTools (getRegistryStats r) /\
    (forall entry : ToolRegistryEntry,
        getToolStats toolName r = Some entry ->
        snd (setToolEnabled toolName b r) = true /\
        enabledTools (getRegistryStats r')
        = enabledTools (getRegistryStats r) - b2z (enabled entry) + b2z b /\
        disabledTools (getRegistryStats r')
        = disabledTools (getRegistryStats r) + b2z (enabled entry) - b2z b) /\
    (getToolStats toolName r = None -> setToolEnabled toolName b r = (r, false)).
Proof.
  intros toolName b r r'. subst r'. unfold setToolEnabled, getToolStats.
  destruct (map_get toolName (tools r)) as [entry |] eqn:Hget; cbn [fst snd].
  - cbn [getRegistryStats totalTools enabledTools disabledTools tools].
    rewrite !length_map.
    assert (Hlen : length (map_update toolName (set_enabled b) (tools r))
                   = length (tools r)).
    { rewrite <- (length_map fst), keys_update, length_map. reflexivity. }
    rewrite Hlen. split; [reflexivity |].
    split; [| discriminate].
    intros e [= <-]. split; [reflexivity |].
    rewrite (enabled_count_update _ _ _ entry Hget). cbn [set_enabled enabled].
    split; lia.
  - split; [reflexivity |]. split; [discriminate | reflexivity].
Qed.

Lemma setToolEnabled_stats_witness :
  enabledTools (getRegistryStats (disabled mockTool))
  = enabledTools (getRegistryStats (registered mockTool)) - b2z true
    + b2z false.
Proof.
  apply (proj1 (proj2 (setToolEnabled_stats "test_tool" false
                                            (registered mockTool)))
               (fresh_entry mockTool)).
  reflexivity.
Defined.

End RegistryStatistics.

(** ** The registry: usage accounting *)

Section RegistryUsage.
Import JS Errors Registry RegistrySpec RegistryOps Fixtures.





End RegistryUsage.

(** ** The registry: filtering by feature and by category *)

Section RegistryFiltering.
Import JS Errors Registry RegistrySpec RegistryOps Fixtures.

(** The loop appends to each list the names of the remaining entries
    that belong there. *)
Lemma filterToolsByFeatures_loop_spec (availability : gmap string Availability)
      (entries : list (string * ToolRegistryEntry)) :
  forall acc : FeatureFilter,
    let pick (keep : option Availability -> bool) :=
      map fst (List.filter
                 (fun p => enabled (snd p) && keep (availability !! fst p))
                 entries) in
    filterToolsByFeatures_loop availability entries acc
    = {| ff_available :=
           (ff_available acc ++
            pick (fun a => is_available a &&
                           negb (from_option reason_deprecated false a)))%list;
         ff_unavailable :=
           (ff_unavailable acc ++ pick (fun a => negb (is_available a)))%list;
         ff_deprecated :=
           (ff_deprecated acc ++
            pick (fun a => is_available a &&
                           from_option reason_deprecated false a))%list |}.
Proof.
  induction entries as [| [toolName entry] entries IH]; intros acc; cbn zeta.
  - cbn. rewrite !app_nil_r. destruct acc; reflexivity.
  - cbn [filterToolsByFeatures_loop List.filter fst snd].
    destruct (enabled entry); cbn [negb andb]; [| apply IH].
    destruct (availability !! toolName) as [a |]; cbn [is_available from_option].
    + destruct (available a); cbn [negb andb].
      * destruct (reason_deprecated a); cbn [negb]; rewrite IH;
          cbn [ff_available ff_unavailable ff_deprecated map fst];
          rewrite <- ?app_assoc; reflexivity.
      * rewrite IH. cbn [ff_available ff_unavailable ff_deprecated map fst].
        rewrite <- ?app_assoc. reflexivity.
    + rewrite IH. cbn [ff_available ff_unavailable ff_deprecated map fst].
      rewrite <- ?app_assoc. reflexivity.
Qed.

(** X10. [filterToolsByFeatures] sorts the enabled entries into
    its three lists: a name is in one of them exactly when an enabled
    entry is registered under it, it is in [available] or [deprecated]
    exactly when [getAvailableTools] lists that entry, and no name is
    in two of the lists. When the detector fails the call rejects
    with the detector's error. *)
Theorem filterToolsByFeatures_partition :
  forall (r : State),
    (forall e : thrown, filterToolsByFeatures (Threw e) r = Threw e) /\
    (forall availability : gmap string Availability,
        exists ff : FeatureFilter,
          filterToolsByFeatures (Returned availability) r = Returned ff /\
          (forall toolName : string,
              In toolName (ff_available ff) \/ In toolName (ff_deprecated ff) \/
              In toolName (ff_unavailable ff) <->
              exists entry, In (toolName, entry) (tools r) /\
                            enabled entry = true) /\
          (forall toolName : string,
              In toolName (ff_available ff) \/ In toolName (ff_deprecated ff) <->
              exists entry, In (toolName, entry) (tools r) /\
                            enabled entry = true /\
                            is_available (availability !! toolName) = true) /\
          (forall toolName : string,
              ~ (In toolName (ff_available ff) /\
                 In toolName (ff_deprecated ff)) /\
              ~ (In toolName (ff_available ff) /\
                 In toolName (ff_unavailable ff)) /\
              ~ (In toolName (ff_deprecated ff) /\
                 In toolName (ff_unavailable ff)))).
Proof.
  intros r. split; [reflexivity |]. intros availability.
  eexists. split; [reflexivity |].
  rewrite filterToolsByFeatures_loop_spec.
  cbn [ff_available ff_unavailable ff_deprecated app].
  assert (Hin : forall keep toolName,
             In toolName
                (map fst (List.filter
                            (fun p => enabled (snd p) &&
                                      keep (availability !! fst p))
                            (tools r)))
             <-> exists entry, In (toolName, entry) (tools r) /\
                               enabled entry = true /\
                               keep (availability !! toolName) = true).
  { intros keep toolName. rewrite in_map_iff. split.
    - intros ([n e] & <- & Hf). apply filter_In in Hf.
      destruct Hf as [Hf Hk]. apply andb_true_iff in Hk.
      exists e. cbn in *. tauto.
    - intros (e & He & Hen & Hk). exists (toolName, e).
      split; [reflexivity |]. apply filter_In. cbn. rewrite Hen, Hk. tauto. }
  pose proof (Hin (fun a => is_available a &&
                           negb (from_option reason_deprecated false a)))
    as Ha.
  pose proof (Hin (fun a => is_available a &&
                           from_option reason_deprecated false a)) as Hd.
  pose proof (Hin (fun a => negb (is_available a))) as Hu.
  cbv beta in Ha, Hd, Hu. clear Hin.
  split; [| split].
  - intros toolName. rewrite Ha, Hd, Hu. split.
    + intros [(e & ? & ? & _) | [(e & ? & ? & _) | (e & ? & ? & _)]];
        exists e; tauto.
    + intros (e & He & Hen).
      destruct (is_available (availability !! toolName)).
      * destruct (from_option reason_deprecated false
                              (availability !! toolName)).
        -- right. left. exists e. tauto.
        -- left. exists e. tauto.
      * right. right. exists e. tauto.
  - intros toolName. rewrite Ha, Hd. split.
    + intros [(e & ? & ? & Hk) | (e & ? & ? & Hk)];
        apply andb_true_iff in Hk; exists e; tauto.
    + intros (e & He & Hen & Hav). rewrite Hav.
      destruct (from_option reason_deprecated false
                            (availability !! toolName)).
      * right. exists e. tauto.
      * left. exists e. tauto.
  - intros toolName. rewrite Ha, Hd, Hu.
    repeat split; intros [(e1 & _ & _ & H1) (e2 & _ & _ & H2)];
      destruct (is_available (availability !! toolName));
      destruct (from_option reason_deprecated false
                            (availability !! toolName));
      discriminate.
Qed.

(** X11. Every tool [getToolsByCategory] returns from a
    consistent registry is the enabled tool [getTool] finds under its
    name; and a tool that has just been registered is returned under
    its category. *)
Theorem getToolsByCategory_sound :
  (forall (c : ToolCategory) (r : State) (t : MCPTool),
      consistent r ->
      In t (getToolsByCategory c r) ->
      getTool (name t) r = Some t) /\
  (forall (now : Z) (t : MCPTool) (r : State),
      In t (getToolsByCategory (category t) (register now t r))).
Proof.
  split.
  - intros c r t (_ & Hfiled & _) Hin. unfold getToolsByCategory in Hin.
    apply in_map_iff in Hin. destruct Hin as (entry & <- & Hin).
    apply filter_In in Hin. destruct Hin as [Hin Hen].
    apply list_elem_of_In, list_elem_of_omap in Hin.
    destruct Hin as (toolName & _ & Hget).
    destruct (Hfiled toolName entry Hget) as [Hname _].
    unfold getTool. rewrite Hname, Hget, Hen. reflexivity.
  - intros now t r. unfold getToolsByCategory.
    apply in_map_iff.
    exists {| tool := t; Registry.registered := now; enabled := true;
              usageCount := 0; lastUsed := None;
              averageExecutionTime := 0%Q; errorCount := 0;
              dependencies := extractDependencies t |}.
    split; [reflexivity |]. apply filter_In. split; [| reflexivity].
    apply list_elem_of_In, list_elem_of_omap. exists (name t). split.
    + apply list_elem_of_In.
      change (In (name t) (filed (category t) (register now t r))).
      rewrite filed_register.
      assert (Hrefl : ToolCategory_eqb (category t) (category t) = true)
        by (destruct (category t); reflexivity).
      rewrite Hrefl. cbn [andb].
      destruct (existsb _ _) eqn:Hex; cbn [negb].
      * apply existsb_exists in Hex. destruct Hex as (x & Hx & Heq).
        apply String.eqb_eq in Heq. subst x. exact Hx.
      * apply in_app_iff. right. left. reflexivity.
    + unfold register. cbn [tools]. rewrite map_get_set, String.eqb_refl.
      reflexivity.
Qed.

Lemma getToolsByCategory_sound_witness :
  getTool (name mockTool) (registered mockTool) = Some mockTool.
Proof.
  apply (proj1 getToolsByCategory_sound CONNECTION).
  - apply consistent_register, consistent_empty.
  - apply (proj2 getToolsByCategory_sound 0 mockTool empty).
Defined.

End RegistryFiltering.

(** ** The detector: tool availability *)

Ltac known_name Hin :=
  cbn in Hin;
  repeat (destruct Hin as [<- | Hin]; [| try contradiction]);
  try contradiction.

Section ToolAvailability.
Import JS Errors Constants Version Registry Detector DetectorOps RegistryOps.
Import Fixtures.

Lemma lookup_assign (names : list string) (a : Availability) :
  forall (m : gmap string Availability) (k : string),
    assign names a m !! k
    = if existsb (String.eqb k) names then Some a else m !! k.
Proof.
  unfold assign. induction names as [| n names IH]; intros m k;
    cbn [fold_left existsb]; [reflexivity |].
  rewrite IH. destruct (existsb (String.eqb k) names);
    [rewrite orb_true_r; reflexivity |].
  rewrite orb_false_r.
  destruct (String.eqb_spec k n) as [-> | Hne].
  - apply lookup_insert_eq.
  - apply lookup_insert_ne. congruence.
Qed.

Lemma existsb_eqb_In (k : string) (names : list string) :
  existsb (String.eqb k) names = true <-> In k names.
Proof.
  rewrite existsb_exists. split.
  - intros (x & Hx & Heq). apply String.eqb_eq in Heq. subst x. exact Hx.
  - intros Hin. exists k. split; [exact Hin | apply String.eqb_refl].
Qed.

Lemma existsb_eqb_not_In (k : string) (names : list string) :
  ~ In k names -> existsb (String.eqb k) names = false.
Proof.
  intros Hn. apply not_true_is_false. rewrite existsb_eqb_In. exact Hn.
Qed.

Lemma toolAvailability_lookup (t : Table) (capabilities : FeatureCapabilities)
      (k : string) :
  toolAvailability t capabilities !! k
  = if existsb (String.eqb k) monitoring_tools
    then Some (monitoring_entry t capabilities)
    else if existsb (String.eqb k) network_tools then Some plainly_available
    else if existsb (String.eqb k) zone_tools
         then Some (zone_entry capabilities)
    else if existsb (String.eqb k) legacy_tools
         then Some (legacy_entry capabilities)
    else if existsb (String.eqb k)
                    (connection_tools ++ device_tools ++ client_tools)
         then Some plainly_available
    else None.
Proof.
  unfold toolAvailability, monitoring_entry, zone_entry, legacy_entry,
    markToolsUnavailable.
  cbv zeta.
  destruct (isVersionAtLeast _ _), (supportsZBF capabilities),
    (supportsLegacyFirewall capabilities);
    rewrite !lookup_assign, lookup_empty, !existsb_app;
    repeat (match goal with
            | |- context [existsb ?f ?l] =>
                lazymatch l with
                | _ ++ _ => fail
                | _ => destruct (existsb f l)
                end
            end; cbn [orb]; try reflexivity).
Qed.

(** X12. In the record [getToolAvailability] builds from a
    capability snapshot: the connection, device, client and network
    tools are available without remark; a zone tool is available
    exactly when the snapshot supports the zone-based firewall, a
    legacy firewall tool exactly when it supports the legacy firewall,
    a monitoring tool exactly when the version reaches the advanced
    statistics minimum; every entry marked unavailable carries a
    reason; and a name outside these groups has no entry. *)
Theorem toolAvailability_classification :
  forall (t : Table) (capabilities : FeatureCapabilities) (k : string),
    let entry := toolAvailability t capabilities !! k in
    (In k (connection_tools ++ device_tools ++ client_tools ++ network_tools)
     -> entry = Some plainly_available) /\
    (In k zone_tools ->
     available <$> entry = Some (supportsZBF capabilities)) /\
    (In k legacy_tools ->
     available <$> entry = Some (supportsLegacyFirewall capabilities)) /\
    (In k monitoring_tools ->
     available <$> entry
     = Some (isVersionAtLeast (version capabilities)
                              (ADVANCED_STATS_MINIMUM t))) /\
    (~ In k known_tools -> entry = None) /\
    (forall a : Availability,
        entry = Some a -> available a = false ->
        exists why : string, reason a = Some why).
Proof.
  intros t capabilities k entry. subst entry.
  rewrite toolAvailability_lookup.
  split; [| split; [| split; [| split; [| split]]]].
  - intros Hin. known_name Hin; reflexivity.
  - intros Hin. known_name Hin; cbn; unfold zone_entry;
      destruct (supportsZBF capabilities); reflexivity.
  - intros Hin. known_name Hin; cbn; unfold legacy_entry;
      destruct (supportsLegacyFirewall capabilities); reflexivity.
  - intros Hin. known_name Hin; cbn; unfold monitoring_entry;
      destruct (isVersionAtLeast _ _); reflexivity.
  - intros Hout. unfold known_tools in Hout. rewrite !in_app_iff in Hout.
    rewrite !existsb_app.
    rewrite !existsb_eqb_not_In by tauto. reflexivity.
  - intros a Ha Hun.
    destruct (existsb _ monitoring_tools).
    { injection Ha as <-. unfold monitoring_entry in *.
      destruct (isVersionAtLeast _ _); [discriminate | eexists; reflexivity]. }
    destruct (existsb _ network_tools); [injection Ha as <-; discriminate |].
    destruct (existsb _ zone_tools).
    { injection Ha as <-. unfold zone_entry in *.
      destruct (supportsZBF capabilities);
        [discriminate | eexists; reflexivity]. }
    destruct (existsb _ legacy_tools).
    { injection Ha as <-. unfold legacy_entry in *.
      destruct (supportsLegacyFirewall capabilities);
        [discriminate | eexists; reflexivity]. }
    destruct (existsb _ _); [injection Ha as <-; discriminate | discriminate].
Qed.

Lemma toolAvailability_classification_witness :
  toolAvailability shipped
    (analyzeCapabilities shipped {| si_version := "8.6.9";
                                    si_hardwareModel := "UDM-Pro" |})
    !! "unifi_get_connection_status" = None.
Proof.
  apply (toolAvailability_classification shipped).
  cbn. intuition discriminate.
Defined.

End ToolAvailability.

(** ** The detector and the catalogue; the cache *)

Section DetectorCatalogue.
Import JS Errors Constants Version Registry Detector DetectorOps RegistryOps.
Import RegistrySpec Fixtures.

Lemma available_is_known (t : Table) (capabilities : FeatureCapabilities)
      (k : string) :
  is_available (toolAvailability t capabilities !! k) = true ->
  In k known_tools /\
  (In k zone_tools -> supportsZBF capabilities = true) /\
  (In k legacy_tools -> supportsLegacyFirewall capabilities = true) /\
  (In k monitoring_tools ->
   isVersionAtLeast (version capabilities) (ADVANCED_STATS_MINIMUM t) = true).
Proof.
  intros Hav. split.
  - rewrite toolAvailability_lookup in Hav.
    unfold known_tools. rewrite !in_app_iff.
    destruct (existsb _ monitoring_tools) eqn:H1;
      [apply existsb_eqb_In in H1; tauto |].
    destruct (existsb _ network_tools) eqn:H2;
      [apply existsb_eqb_In in H2; tauto |].
    destruct (existsb _ zone_tools) eqn:H3;
      [apply existsb_eqb_In in H3; tauto |].
    destruct (existsb _ legacy_tools) eqn:H4;
      [apply existsb_eqb_In in H4; tauto |].
    destruct (existsb _ (connection_tools ++ _)%list) eqn:H5;
      [| discriminate Hav].
    apply existsb_eqb_In in H5. rewrite !in_app_iff in H5. tauto.
  - rewrite toolAvailability_lookup in Hav.
    repeat split; intros Hin; known_name Hin; cbn in Hav;
      unfold zone_entry, legacy_entry, monitoring_entry in Hav;
      match type of Hav with
      | context [if ?c then _ else _] => destruct c
      end; (reflexivity || discriminate Hav).
Qed.

(** X13. When the registry is consistent and the detector
    has delivered a snapshot, every tool [getAvailableTools] lists is
    an enabled registered tool whose name [getToolAvailability]
    knows; a zone tool is listed only if the snapshot supports the
    zone-based firewall, a legacy firewall tool only if it supports
    the legacy firewall, a monitoring tool only if the version reaches
    the advanced statistics minimum. A registered tool under any
    other name is not listed. *)
Theorem connected_catalogue_follows_detector :
  forall (t : Table) (capabilities : FeatureCapabilities) (r : Registry.State)
         (listed : MCPTool),
    consistent r ->
    In listed (getAvailableTools
                 (Returned (toolAvailability t capabilities)) r) ->
    getTool (name listed) r = Some listed /\
    In (name listed) known_tools /\
    (In (name listed) zone_tools -> supportsZBF capabilities = true) /\
    (In (name listed) legacy_tools ->
     supportsLegacyFirewall capabilities = true) /\
    (In (name listed) monitoring_tools ->
     isVersionAtLeast (version capabilities) (ADVANCED_STATS_MINIMUM t)
     = true).
Proof.
  intros t capabilities r listed ([Hnd _] & Hfiled & _) Hin.
  unfold getAvailableTools in Hin. apply in_map_iff in Hin.
  destruct Hin as ([k entry] & <- & Hin). apply filter_In in Hin.
  destruct Hin as [Hin Hok]. cbn [fst snd] in *.
  apply andb_true_iff in Hok. destruct Hok as [Hen Hav].
  pose proof (In_map_get _ _ _ Hnd Hin) as Hget.
  destruct (Hfiled k entry Hget) as [Hname _]. rewrite Hname.
  split.
  - unfold getTool. rewrite Hget, Hen. reflexivity.
  - apply available_is_known, Hav.
Qed.

Lemma connected_catalogue_follows_detector_witness :
  let capabilities :=
    analyzeCapabilities shipped {| si_version := "9.0.108";
                                   si_hardwareModel := "UDM-Pro" |} in
  getTool (name zoneTool) (registered zoneTool) = Some zoneTool /\
  supportsZBF capabilities = true.
Proof.
  intros capabilities.
  assert (H : consistent (registered zoneTool))
    by (apply consistent_register, consistent_empty).
  destruct (connected_catalogue_follows_detector
              shipped capabilities (registered zoneTool) zoneTool H)
    as (Hget & _ & Hzone & _).
  - vm_compute. left. reflexivity.
  - split; [exact Hget |]. apply Hzone. cbn. left. reflexivity.
Defined.

Example unknown_tool_not_in_connected_catalogue :
  let statusTool := {| name := "unifi_get_connection_status";
                       description := "Connection status";
                       inputSchema := VObject []; category := CONNECTION;
                       requiresConnection := false; requiresVersion := None;
                       handler := handler mockTool |} in
  getAvailableTools
    (Returned (toolAvailability shipped
                 (analyzeCapabilities shipped
                    {| si_version := "9.0.108";
                       si_hardwareModel := "UDM-Pro" |})))
    (registered statusTool) = [].
Proof. vm_compute. reflexivity. Qed.

(** ** The cache accessor and failed probes *)

(** X14. After a detection that probed and stored a snapshot
    at time [s], [getCachedCapabilities] returns that snapshot at
    every time before [s] plus sixty minutes and nothing from that
    instant on; from that instant on [detectCapabilities] probes
    again. *)
Theorem cache_expires_after_sixty_minutes :
  forall (t : Table) (st : Detector.State) (now : Z) (probe : Probe)
         (info : SystemInfo),
    isCacheValid st now = false ->
    systemInfo probe = Returned info ->
    let st' := state (detectCapabilities t st now probe) in
    forall later : Z,
      (later < storedAt probe + 3600000 ->
       getCachedCapabilities st' later = Some (analyzeCapabilities t info)) /\
      (storedAt probe + 3600000 <= later ->
       getCachedCapabilities st' later = None /\
       forall probe' : Probe,
         probes (detectCapabilities t st' later probe') = 1%nat).
Proof.
  intros t st now probe info Hmiss Hinfo st' later. subst st'.
  rewrite (detect_miss t st now probe info Hmiss Hinfo). cbn [state].
  assert (Hvalid : isCacheValid
                     {| cachedCapabilities := Some (analyzeCapabilities t info);
                        cacheTimestamp := Some (storedAt probe) |} later
                   = (later - storedAt probe <? 3600000)) by reflexivity.
  unfold getCachedCapabilities. rewrite Hvalid. split.
  - intros Hlt.
    destruct (Z.ltb_spec (later - storedAt probe) 3600000);
      [reflexivity | lia].
  - intros Hge.
    destruct (Z.ltb_spec (later - storedAt probe) 3600000) as [| Hold];
      [lia |].
    split; [reflexivity |]. intros probe'.
    apply detect_miss_probes. exact Hvalid.
Qed.

Lemma cache_expires_after_sixty_minutes_witness :
  let probe := {| systemInfo := Returned {| si_version := "9.0.108";
                                            si_hardwareModel := "UDM-Pro" |};
                  storedAt := 10 |} in
  getCachedCapabilities
    (state (detectCapabilities shipped initial 0 probe)) 3600010 = None.
Proof.
  intros probe.
  apply (cache_expires_after_sixty_minutes
           shipped initial 0 probe
           {| si_version := "9.0.108"; si_hardwareModel := "UDM-Pro" |}
           eq_refl eq_refl 3600010).
  cbn. lia.
Defined.

(** X15. A detection whose probe fails leaves the
    detector's cache exactly as it was, has issued one probe, and
    rejects with the kind [CAPABILITY_DETECTION_FAILED] carrying the
    message of the probe's error; [validateFeature] and
    [getToolAvailability] reject with that same error, whatever the
    feature. *)
Theorem failed_probe_keeps_cache :
  forall (t : Table) (st : Detector.State) (now : Z) (probe : Probe)
         (e : thrown) (m : string),
    isCacheValid st now = false ->
    systemInfo probe = Threw e ->
    message_of e = Returned m ->
    let failure :=
      ThrownMCP (newError "Unable to detect UniFi capabilities"
                          CAPABILITY_DETECTION_FAILED (Some 500)
                          (OriginalError m)) in
    detectCapabilities t st now probe
    = {| result := Threw failure; state := st; probes := 1 |} /\
    (forall feature : string,
        validateFeature t st now probe feature
        = {| result := Threw failure; state := st; probes := 1 |}) /\
    getToolAvailability t st now probe
    = {| result := Threw failure; state := st; probes := 1 |}.
Proof.
  intros t st now probe e m Hmiss Hfail Hm failure.
  assert (Hd : detectCapabilities t st now probe
               = {| result := Threw failure; state := st; probes := 1 |}).
  { unfold detectCapabilities. rewrite Hmiss, Hfail, Hm. reflexivity. }
  split; [exact Hd |]. split.
  - intros feature. unfold validateFeature. rewrite Hd. reflexivity.
  - unfold getToolAvailability. rewrite Hd. reflexivity.
Qed.

Lemma failed_probe_keeps_cache_witness :
  let probe := {| systemInfo := Threw (ThrownError "socket hang up");
                  storedAt := 10 |} in
  state (detectCapabilities shipped initial 0 probe) = initial.
Proof.
  intros probe.
  pose proof (failed_probe_keeps_cache
                shipped initial 0 probe (ThrownError "socket hang up")
                "socket hang up" eq_refl eq_refl eq_refl) as H.
  cbv zeta in H. destruct H as [H _]. rewrite H. reflexivity.
Defined.

End DetectorCatalogue.

(** ** The version order on arbitrary strings *)

Section VersionOrder.
Import JS Errors Constants Version Detector.












End VersionOrder.

(** ** The dispatcher's feature gate against the detector *)

Section FeatureGate.
Import JS Errors Constants Version Detector Registry RegistryOps.
Import RegistrySpec Fixtures MoreFixtures.

(** What a detection can reject with: the detector's own error, or
    the [TypeError] of reading the message of a nullish value. *)
Lemma detectCapabilities_thrown (t : Table) (st : Detector.State) (now : Z)
      (probe : Probe) (e : thrown) :
  result (detectCapabilities t st now probe) = Threw e ->
  exists m, message_of e = Returned m.
Proof.
  unfold detectCapabilities, isCacheValid.
  destruct (cachedCapabilities st) as [capabilities |].
  - destruct (cacheTimestamp st) as [stamp |].
    + destruct (_ <? _); cbn [result]; [discriminate |].
      destruct (systemInfo probe) as [info | error]; cbn [result];
        [discriminate |].
      destruct error as [err | msg |]; cbn;
        intros [= <-]; eexists; reflexivity.
    + destruct (systemInfo probe) as [info | error]; cbn [result];
        [discriminate |].
      destruct error as [err | msg |]; cbn;
        intros [= <-]; eexists; reflexivity.
  - destruct (systemInfo probe) as [info | error]; cbn [result];
      [discriminate |].
    destruct error as [err | msg |]; cbn;
      intros [= <-]; eexists; reflexivity.
Qed.

(** Outside the two firewall categories the feature name the
    dispatcher asks for is one [validateFeature] does not know. *)
Lemma feature_check_unknown (t : Table) (capabilities : FeatureCapabilities)
      (c : ToolCategory) :
  c <> FIREWALL_ZBF -> c <> FIREWALL_LEGACY ->
  Detector.feature_check t capabilities (getCategoryFeature c)
  = Threw (ThrownMCP (newError ("Unknown feature: " ++ getCategoryFeature c)
                               UNKNOWN_FEATURE (Some 400) NoDetails)).
Proof.
  intros Hz Hl. destruct c; try contradiction; reflexivity.
Qed.

(** X18. An enabled tool that declares [requiresVersion] and lies
    outside the two firewall categories can never be run: once the
    connection check has passed, [executeTool] rejects with
    [FEATURE_NOT_AVAILABLE] and leaves the registry as it was,
    whatever the detector's cache holds and whatever the probe
    answers. When the detector delivers a snapshot, the recorded
    cause is the unknown feature name. *)
Theorem versioned_tool_outside_firewall_never_runs :
  forall (t : Table) (st : Detector.State) (now : Z) (probe : Probe)
         (w : Env) (r : Registry.State) (toolName : string)
         (params : gmap string value) (entry : ToolRegistryEntry),
    map_get toolName (tools r) = Some entry ->
    enabled entry = true ->
    (requiresConnection (tool entry) = true -> connected_check w = true) ->
    has_version (tool entry) = true ->
    category (tool entry) <> FIREWALL_ZBF ->
    category (tool entry) <> FIREWALL_LEGACY ->
    (forall feature,
        Registry.feature_check w feature
        = result (validateFeature t st now probe feature)) ->
    exists m,
      executeTool w toolName params r
      = (Threw (ThrownMCP
                  (newError ("Tool '" ++ toolName ++
                             "' requires features not available in " ++
                             "current UniFi version")
                            FEATURE_NOT_AVAILABLE (Some 501)
                            (OriginalError m))), r) /\
      (forall capabilities,
          result (detectCapabilities t st now probe) = Returned capabilities ->
          m = "Unknown feature: " ++ getCategoryFeature (category (tool entry))).
Proof.
  intros t st now probe w r toolName params entry Hget Hen Hconn Hver Hz Hl
         Hdet.
  unfold executeTool. rewrite Hget, Hen, Hver. cbn [negb].
  assert (Hc : requiresConnection (tool entry) && negb (connected_check w)
               = false).
  { destruct (requiresConnection (tool entry)); [| reflexivity].
    rewrite Hconn by reflexivity. reflexivity. }
  rewrite Hc, Hdet. unfold validateFeature. cbn [result].
  destruct (result (detectCapabilities t st now probe))
    as [capabilities | e] eqn:Hres.
  - rewrite feature_check_unknown by assumption. cbn [message_of message newError].
    eexists. split; [reflexivity |]. intros _ _. reflexivity.
  - destruct (detectCapabilities_thrown t st now probe e Hres) as [m Hm].
    rewrite Hm. exists m. split; [reflexivity |]. intros ? [=].
Qed.

Lemma versioned_tool_outside_firewall_never_runs_witness :
  thrown_code (fst (executeTool modern_controller "unifi_get_device_stats"
                                ∅ (registered statsTool)))
  = Some FEATURE_NOT_AVAILABLE.
Proof.
  destruct (versioned_tool_outside_firewall_never_runs
              shipped initial 0 modern_probe modern_controller
              (registered statsTool) "unifi_get_device_stats" ∅
              (fresh_entry statsTool))
    as (m & Heq & _).
  - reflexivity.
  - reflexivity.
  - reflexivity.
  - reflexivity.
  - discriminate.
  - discriminate.
  - reflexivity.
  - rewrite Heq. reflexivity.
Defined.

End FeatureGate.

(** ** The client: rate limiting *)

Section ClientRateLimit.
Import JS Errors Detector ClientOps.

Example limiter_default_capacity : requestsPerMinute ∅ = 60.
Proof. reflexivity. Qed.

Example limiter_configured_capacity :
  requestsPerMinute
    {[ "rateLimit" := VObject [("requestsPerMinute", VNumber 2);
                               ("burstLimit", VNumber 10)] ]} = 2.
Proof. reflexivity. Qed.

(** One pass within the window of a limiter that has tokens left:
    no wait, one token spent. *)
Lemma enforceRateLimit_spend (config : Client.Config) (tk : Tick)
      (l : Limiter) :
  at_entry tk - lastRateLimitReset l < 60000 ->
  0 < rateLimitTokens l ->
  enforceRateLimit config tk l
  = ({| rateLimitTokens := rateLimitTokens l - 1;
        lastRateLimitReset := lastRateLimitReset l |}, None).
Proof.
  intros Hwin Htok. unfold enforceRateLimit. cbv zeta.
  destruct (Z.leb_spec 60000 (at_entry tk - lastRateLimitReset l)); [lia |].
  destruct (Z.leb_spec (rateLimitTokens l) 0); [lia |]. reflexivity.
Qed.

Lemma requests_burst (config : Client.Config) (ticks : list Tick) :
  forall (l : Limiter),
    Forall (fun tk => at_entry tk - lastRateLimitReset l < 60000) ticks ->
    Z.of_nat (length ticks) <= rateLimitTokens l ->
    requests config ticks l
    = ({| rateLimitTokens := rateLimitTokens l - Z.of_nat (length ticks);
          lastRateLimitReset := lastRateLimitReset l |},
       repeat None (length ticks)).
Proof.
  induction ticks as [| tk rest IH]; intros l Hwin Hlen.
  - cbn. destruct l; cbn. rewrite Z.sub_0_r. reflexivity.
  - apply Forall_cons in Hwin. destruct Hwin as [Hnow Hrest].
    cbn beta in Hnow. cbn [length] in *. rewrite Nat2Z.inj_succ in *.
    cbn [requests].
    rewrite enforceRateLimit_spend by lia.
    rewrite IH; cbn [rateLimitTokens lastRateLimitReset];
      [| exact Hrest | lia].
    cbn [repeat]. f_equal. f_equal. lia.
Qed.

(** X19. A new client lets as many requests through without
    delay as its per-minute setting allows, provided they come within
    a minute of its creation; the next request inside that minute
    waits exactly until the minute is over, and afterwards a new
    window starts at the moment it woke, with one token spent. *)
Theorem rate_limit_burst_then_wait :
  forall (config : Client.Config) (created : Z) (ticks : list Tick)
         (next : Tick),
    Forall (fun tk => at_entry tk < created + 60000) ticks ->
    at_entry next < created + 60000 ->
    Z.of_nat (length ticks) = requestsPerMinute config ->
    let '(l, waits) := requests config ticks (newLimiter config created) in
    waits = repeat None (length ticks) /\
    enforceRateLimit config next l
    = ({| rateLimitTokens := requestsPerMinute config - 1;
          lastRateLimitReset := at_wake next |},
       Some (created + 60000 - at_entry next)).
Proof.
  intros config created ticks next Hwin Hnext Hlen.
  rewrite requests_burst; cbn [newLimiter rateLimitTokens lastRateLimitReset].
  - split; [reflexivity |].
    unfold enforceRateLimit. cbn [rateLimitTokens lastRateLimitReset].
    destruct (Z.leb_spec 60000 (at_entry next - created)); [lia |].
    cbn [rateLimitTokens lastRateLimitReset].
    destruct (Z.leb_spec (requestsPerMinute config - Z.of_nat (length ticks))
                         0); [| lia].
    cbn [rateLimitTokens lastRateLimitReset]. f_equal. f_equal. lia.
  - eapply Forall_impl; [exact Hwin |]. cbn. intros tk Htk. lia.
  - lia.
Qed.

Lemma rate_limit_burst_then_wait_witness :
  let config : Client.Config :=
    {[ "rateLimit" := VObject [("requestsPerMinute", VNumber 2)] ]} in
  snd (enforceRateLimit config {| at_entry := 1300; at_wake := 61005 |}
         (fst (requests config [{| at_entry := 1100; at_wake := 0 |};
                                {| at_entry := 1200; at_wake := 0 |}]
                        (newLimiter config 1000))))
  = Some 59700.
Proof.
  intros config.
  pose proof (rate_limit_burst_then_wait
                config 1000
                [{| at_entry := 1100; at_wake := 0 |};
                 {| at_entry := 1200; at_wake := 0 |}]
                {| at_entry := 1300; at_wake := 61005 |}) as H.
  destruct (requests config _ (newLimiter config 1000)) as [l waits].
  destruct H as [_ H].
  - repeat constructor.
  - cbn. lia.
  - reflexivity.
  - cbn [fst]. rewrite H. reflexivity.
Defined.

Lemma enforceRateLimit_bounds (config : Client.Config) (tk : Tick)
      (l : Limiter) :
  0 < requestsPerMinute config ->
  0 <= rateLimitTokens l < requestsPerMinute config + 1 ->
  0 <= rateLimitTokens (fst (enforceRateLimit config tk l))
    < requestsPerMinute config /\
  (forall waitTime,
      snd (enforceRateLimit config tk l) = Some waitTime ->
      0 < waitTime /\ rateLimitTokens l = 0 /\
      waitTime = lastRateLimitReset l + 60000 - at_entry tk).
Proof.
  intros Hcap Htok. unfold enforceRateLimit. cbv zeta.
  destruct (Z.leb_spec 60000 (at_entry tk - lastRateLimitReset l));
    cbn [rateLimitTokens lastRateLimitReset].
  - destruct (Z.leb_spec (requestsPerMinute config) 0); [lia |].
    cbn. split; [lia |]. intros ? [=].
  - destruct (Z.leb_spec (rateLimitTokens l) 0); cbn.
    + split; [lia |]. intros ? [= <-]. lia.
    + split; [lia |]. intros ? [=].
Qed.

Lemma requests_bounds (config : Client.Config) (ticks : list Tick) :
  0 < requestsPerMinute config ->
  forall l : Limiter,
    0 <= rateLimitTokens l < requestsPerMinute config + 1 ->
    0 <= rateLimitTokens (fst (requests config ticks l))
      < requestsPerMinute config + 1 /\
    Forall (fun waited => forall waitTime, waited = Some waitTime ->
                                           0 < waitTime)
           (snd (requests config ticks l)).
Proof.
  intros Hcap. induction ticks as [| tk rest IH]; intros l Htok.
  - cbn. split; [lia | constructor].
  - cbn [requests].
    destruct (enforceRateLimit_bounds config tk l Hcap Htok) as [Hb Hw].
    destruct (enforceRateLimit config tk l) as [l1 w]. cbn [fst snd] in *.
    destruct (IH l1 ltac:(lia)) as [Hb' Hw'].
    destruct (requests config rest l1) as [l2 ws]. cbn [fst snd] in *.
    split; [exact Hb' |]. constructor; [| exact Hw'].
    intros waitTime Heq. apply (Hw waitTime Heq).
Qed.

(** X20. With a positive per-minute setting, however the clock
    behaves, the token count of a client never goes below zero nor
    above the setting, a request waits only when it finds no token
    left, and every wait is for a positive time. *)
Theorem rate_limit_tokens_stay_in_range :
  forall (config : Client.Config) (created : Z) (ticks : list Tick)
         (tk : Tick),
    0 < requestsPerMinute config ->
    let l := fst (requests config ticks (newLimiter config created)) in
    0 <= rateLimitTokens l <= requestsPerMinute config /\
    Forall (fun waited => forall waitTime, waited = Some waitTime ->
                                           0 < waitTime)
           (snd (requests config ticks (newLimiter config created))) /\
    (forall waitTime,
        snd (enforceRateLimit config tk l) = Some waitTime ->
        rateLimitTokens l = 0 /\
        waitTime = lastRateLimitReset l + 60000 - at_entry tk).
Proof.
  intros config created ticks tk Hcap l.
  assert (Hnew : 0 <= rateLimitTokens (newLimiter config created)
                 < requestsPerMinute config + 1) by (cbn; lia).
  destruct (requests_bounds config ticks Hcap _ Hnew) as [Hb Hw].
  fold l in Hb. split; [lia |]. split; [exact Hw |].
  intros waitTime Heq.
  destruct (enforceRateLimit_bounds config tk l Hcap Hb) as [_ H].
  destruct (H waitTime Heq) as (_ & Hzero & Hwait). split; assumption.
Qed.

Lemma rate_limit_tokens_stay_in_range_witness :
  0 <= rateLimitTokens
         (fst (requests ∅ [{| at_entry := 5; at_wake := 0 |}]
                        (newLimiter ∅ 0))) <= 60.
Proof.
  exact (proj1 (rate_limit_tokens_stay_in_range
                  ∅ 0 [{| at_entry := 5; at_wake := 0 |}]
                  {| at_entry := 6; at_wake := 0 |} eq_refl)).
Defined.

End ClientRateLimit.

(** ** The client: connection state and configuration *)

Section ClientConnection.
Import JS Errors Detector ClientOps.

Lemma sound_new : sound newConnectionInfo.
Proof.
  unfold sound. cbn. repeat split; try discriminate; try lia.
  intros [[? ?] | [? ?]]; discriminate.
Qed.

Lemma sound_drop_flags (info : ConnectionInfo) :
  sound info -> sound (drop_flags info).
Proof.
  intros (_ & _ & Hatt & Hpos & Hretry). unfold sound. cbn.
  repeat split; try discriminate; assumption.
Qed.

Lemma sound_connect (config : Client.Config) (h : Handshake)
      (info : ConnectionInfo) :
  sound info -> sound (snd (connect config h info)).
Proof.
  intros (_ & _ & Hatt & Hpos & Hretry). unfold connect. cbv zeta.
  destruct (handshake h) as [systemInfo | error].
  - unfold sound. cbn. repeat split; eauto; lia.
  - destruct (message_of error) as [m | e]; unfold sound; cbn;
      repeat split; try discriminate; try assumption; try lia.
Qed.

Lemma sound_updateConfig (newConfig : Client.Config) (s : Settings)
      (info : ConnectionInfo) :
  sound info -> sound (snd (updateConfig newConfig s info)).
Proof.
  intros Hs. unfold updateConfig. cbv zeta.
  destruct (_ || _); cbn [snd]; [apply sound_drop_flags |]; exact Hs.
Qed.

(** X21. In every state a client can reach, the two flags
    agree, so [isConnected()] is the [isConnected] flag; while the
    connection holds there is no recorded error and the gateway and
    the time of connection are known; a recorded error or connection
    time means [connect] was attempted; and the retry counter is
    never moved from zero. *)
Theorem reachable_connection_sound :
  forall info : ConnectionInfo,
    reachable info -> sound info /\ connected info = isConnected info.
Proof.
  intros info Hreach.
  assert (Hs : sound info).
  { induction Hreach.
    - apply sound_new.
    - apply sound_connect, IHHreach.
    - apply sound_drop_flags, IHHreach.
    - apply sound_updateConfig, IHHreach. }
  split; [exact Hs |].
  destruct Hs as (Hflags & _). unfold connected, Client.isConnected. cbn.
  rewrite <- Hflags. apply andb_diag.
Qed.

Lemma reachable_connection_sound_witness :
  retryCount
    (snd (connect ∅ {| testConnection := Threw (ThrownError "refused");
                       authenticate := Returned tt;
                       getSystemInfo := Threw ThrownNullish;
                       connectedAt := 0 |} newConnectionInfo)) = 0.
Proof.
  apply (reachable_connection_sound _ (reach_connect _ _ _ reach_new)).
Defined.

(** [connect] counts the attempt, however it ends. *)
Lemma connect_counts (config : Client.Config) (h : Handshake)
      (info : ConnectionInfo) :
  connectionAttempts (snd (connect config h info))
  = connectionAttempts info + 1.
Proof.
  unfold connect. cbv zeta.
  destruct (handshake h); [reflexivity |].
  destruct (message_of _); reflexivity.
Qed.

(** X22. A request on a client that is connected goes
    straight to the HTTP request and leaves the connection state
    alone. On a client that is not connected it first runs [connect]:
    if the handshake succeeds the request proceeds on a connected
    client; if a step of the handshake fails with an error, no
    request is made, the request rejects with that very error, and
    the client stays disconnected with the error's message recorded
    and what it knew about the gateway kept. Either way the attempt
    is counted. *)
Theorem request_reconnects_first :
  forall (config : Client.Config) (h : Handshake)
         (makeRequest : Outcome value) (info : ConnectionInfo),
    (connected info = true ->
     get config h makeRequest info
     = (Client.get (Returned tt) makeRequest, info)) /\
    (connected info = false ->
     (forall systemInfo,
         handshake h = Returned systemInfo ->
         fst (get config h makeRequest info)
         = Client.get (Returned tt) makeRequest /\
         connected (snd (get config h makeRequest info)) = true /\
         lastError (snd (get config h makeRequest info)) = None) /\
     (forall error m,
         handshake h = Threw error ->
         message_of error = Returned m ->
         fst (get config h makeRequest info) = Threw error /\
         connected (snd (get config h makeRequest info)) = false /\
         lastError (snd (get config h makeRequest info)) = Some m /\
         gatewayInfo (snd (get config h makeRequest info))
         = gatewayInfo info) /\
     connectionAttempts (snd (get config h makeRequest info))
     = connectionAttempts info + 1).
Proof.
  intros config h makeRequest info.
  unfold get, ensureAuthenticated, connected, Client.isConnected. cbn.
  split.
  - intros Hc. apply andb_true_iff in Hc. destruct Hc as [-> ->].
    reflexivity.
  - intros Hc.
    assert (Hneed : negb (isConnected info) || negb (isAuthenticated info)
                    = true).
    { destruct (isConnected info), (isAuthenticated info);
        try reflexivity; discriminate. }
    rewrite Hneed.
    pose proof (connect_counts config h info) as Hcount.
    unfold connect in *. cbv zeta in *.
    destruct (handshake h) as [systemInfo | error]; cbn in *.
    + split; [intros ? _; repeat split |].
      split; [intros ? ? [=] | reflexivity].
    + split; [intros ? [=] |]. split.
      * intros error' m [= <-] Hm. rewrite Hm. cbn. repeat split.
      * destruct (message_of error); exact Hcount.
Qed.

Example request_after_disconnect_reconnects :
  let h := {| testConnection := Returned false;
              authenticate := Returned tt;
              getSystemInfo := Returned {| si_version := "9.0.108";
                                           si_hardwareModel := "UDM-Pro" |};
              connectedAt := 50 |} in
  let info := snd (disconnect (snd (connect ∅ h newConnectionInfo))) in
  connected info = false /\
  fst (get ∅ h (Returned (VArray [])) info)
  = Returned (Client.normalizeResponse (VArray [])) /\
  connectionAttempts (snd (get ∅ h (Returned (VArray [])) info)) = 2.
Proof. repeat split. Qed.

(** X23. An [updateConfig] that names none of [gatewayIp],
    [port], [timeout] and [verifySSL] with a truthy value neither
    rebuilds the HTTP client nor touches the connection. Switching
    [verifySSL] to [false] is such an update: afterwards the
    configuration says certificates are not verified while the HTTP
    client still rejects unverified ones. *)
Theorem updateConfig_keeps_http_client :
  forall (newConfig : Client.Config) (s : Settings) (info : ConnectionInfo),
    truthy (field newConfig "gatewayIp") = false ->
    truthy (field newConfig "port") = false ->
    truthy (field newConfig "timeout") = false ->
    truthy (field newConfig "verifySSL") = false ->
    let '(s', info') := updateConfig newConfig s info in
    httpClient s' = httpClient s /\ info' = info /\
    (forall key v, newConfig !! key = Some v -> config s' !! key = Some v) /\
    (forall key, newConfig !! key = None ->
                 config s' !! key = config s !! key) /\
    (httpClient s = createHttpClient (config s) ->
     field (config s) "verifySSL" = VBool true ->
     newConfig !! "verifySSL" = Some (VBool false) ->
     field (config s') "verifySSL" = VBool false /\
     rejectUnauthorized (httpClient s') = VBool true).
Proof.
  intros newConfig s info Hg Hp Ht Hv. unfold updateConfig. cbv zeta.
  rewrite Hg, Hp, Ht, Hv. cbn [orb].
  split; [reflexivity |]. split; [reflexivity |]. cbn [config httpClient].
  split; [| split].
  - intros key v Hk. apply lookup_union_Some_l, Hk.
  - intros key Hk. apply lookup_union_r, Hk.
  - intros Hstep Hold Hnew. split.
    + unfold field. rewrite (lookup_union_Some_l _ _ _ _ Hnew). reflexivity.
    + rewrite Hstep. exact Hold.
Qed.

Lemma updateConfig_keeps_http_client_witness :
  let s := newSettings {[ "gatewayIp" := VString "192.168.1.1";
                          "verifySSL" := VBool true ]} in
  let s' := fst (updateConfig {[ "verifySSL" := VBool false ]} s
                              newConnectionInfo) in
  field (config s') "verifySSL" = VBool false /\
  rejectUnauthorized (httpClient s') = VBool true.
Proof.
  intros s s'. subst s'.
  pose proof (updateConfig_keeps_http_client
                {[ "verifySSL" := VBool false ]} s newConnectionInfo
                eq_refl eq_refl eq_refl eq_refl) as H.
  destruct (updateConfig _ s newConnectionInfo) as [s' info'].
  destruct H as (_ & _ & _ & _ & H). cbn [fst].
  apply H; reflexivity.
Defined.

(** Naming one of the four settings rebuilds the HTTP client from the
    merged configuration and drops the connection. *)
Example updateConfig_rebuilds :
  let s := newSettings {[ "gatewayIp" := VString "192.168.1.1" ]} in
  let '(s', info') :=
    updateConfig {[ "port" := VNumber 8443 ]} s newConnectionInfo in
  baseURL (httpClient s') = "https://192.168.1.1:8443" /\
  connected info' = false.
Proof. vm_compute. split; reflexivity. Qed.

End ClientConnection.

(** ** The server's tool-call handler *)

Section ToolCallHandler.
Import JS Errors Registry RegistryOps ServerOps RegistrySpec Fixtures.

Lemma message_of_fails (e e' : thrown) :
  message_of e = Threw e' -> exists m, message_of e' = Returned m.
Proof.
  destruct e; cbn; intros [= <-]. eexists. reflexivity.
Qed.

Lemma executeTool_catch_thrown (w : Env) (toolName : string) (error e : thrown)
      (r : State) :
  fst (executeTool_catch w toolName error r) = Threw e ->
  exists m, message_of e = Returned m.
Proof.
  unfold executeTool_catch. cbv zeta.
  destruct (message_of error) eqn:Hm; cbn [fst]; [discriminate |].
  intros [= <-]. eapply message_of_fails, Hm.
Qed.

(** Whatever [executeTool] rejects with has a readable message. *)
Lemma executeTool_thrown (w : Env) (toolName : string)
      (params : gmap string value) (r : State) (e : thrown) :
  fst (executeTool w toolName params r) = Threw e ->
  exists m, message_of e = Returned m.
Proof.
  unfold executeTool.
  destruct (map_get toolName (tools r)) as [entry |];
    [| intros [= <-]; eexists; reflexivity].
  destruct (negb (enabled entry)); [intros [= <-]; eexists; reflexivity |].
  destruct (_ && _); [intros [= <-]; eexists; reflexivity |].
  destruct (if has_version (tool entry) then _ else _) as [[] | error].
  - unfold executeTool_try.
    destruct (validateDependencies w r toolName) as [[] | error];
      [| apply executeTool_catch_thrown].
    destruct (handler (tool entry) params) as [result | error];
      [discriminate | apply executeTool_catch_thrown].
  - cbn [fst]. destruct (message_of error) eqn:Hm.
    + intros [= <-]. eexists. reflexivity.
    + intros [= <-]. eapply message_of_fails, Hm.
Qed.

Lemma createErrorResponse_returns (e : thrown) (m : string) :
  message_of e = Returned m ->
  exists body, createErrorResponse e = Returned body.
Proof.
  destruct e; cbn; [eexists; reflexivity .. | discriminate].
Qed.

(** X24. The tool-call handler answers every request: whatever
    the tool, the arguments, the registry and the collaborators do,
    it resolves with a response and leaves the registry as
    [executeTool] left it. The response carries no error flag exactly
    when [executeTool] returned a result with [success] set;
    otherwise it is flagged and its text starts with "Error: ". A
    call of a tool that is not registered is answered with the
    not-found message. *)
Theorem callTool_always_answers :
  forall (w : Env) (toolName : string) (params : option (gmap string value))
         (r : State),
    exists response,
      callTool w toolName params r
      = (Returned response,
         snd (executeTool w toolName (default ∅ params) r)) /\
      (isError response = None <->
       exists result,
         fst (executeTool w toolName (default ∅ params) r) = Returned result /\
         success result = true) /\
      (isError response <> None ->
       isError response = Some true /\
       exists reason, text response = Literal ("Error: " ++ reason)) /\
      (map_get toolName (tools r) = None ->
       text response
       = Literal ("Error: Tool '" ++ toolName ++ "' not found")).
Proof.
  intros w toolName params r. unfold callTool.
  pose proof (executeTool_thrown w toolName (default ∅ params) r) as Hthrown.
  assert (Hmiss : map_get toolName (tools r) = None ->
                  fst (executeTool w toolName (default ∅ params) r)
                  = Threw (ThrownMCP
                             (newError ("Tool '" ++ toolName ++ "' not found")
                                       TOOL_NOT_FOUND (Some 404) NoDetails))).
  { intros Hnone. unfold executeTool. rewrite Hnone. reflexivity. }
  destruct (executeTool w toolName (default ∅ params) r) as [outcome r'].
  cbn [fst snd] in *.
  destruct outcome as [result | error].
  - destruct (success result) eqn:Hok; eexists; (split; [reflexivity |]);
      cbn [isError text].
    + split; [| split].
      * split; [intros _; eauto | reflexivity].
      * intros H. contradiction.
      * intros Hnone. discriminate (Hmiss Hnone).
    + split; [| split].
      * split; [discriminate |].
        intros (result' & [= <-] & Hok'). congruence.
      * intros _. split; [reflexivity | eexists; reflexivity].
      * intros Hnone. discriminate (Hmiss Hnone).
  - destruct (Hthrown error eq_refl) as [m Hm].
    destruct (createErrorResponse_returns error m Hm) as [body Hbody].
    rewrite Hbody. eexists. split; [reflexivity |]. cbn [isError text].
    split; [| split].
    + split; [discriminate |]. intros (result & [=] & _).
    + intros _. split; [reflexivity | eexists; reflexivity].
    + intros Hnone. specialize (Hmiss Hnone). injection Hmiss as ->.
      cbn in Hbody. injection Hbody as <-. reflexivity.
Qed.

Example callTool_unknown_tool :
  fst (callTool offline "nonexistent_tool" None (registered mockTool))
  = Returned {| text := Literal "Error: Tool 'nonexistent_tool' not found";
                isError := Some true |}.
Proof. reflexivity. Qed.

Example callTool_failing_handler :
  fst (callTool offline "test_tool" (Some ∅) (registered failingTool))
  = Returned {| text := Literal "Error: boom"; isError := Some true |}.
Proof. reflexivity. Qed.

End ToolCallHandler.

(** ** Retry under any configuration *)

Section RetryShape.
Import Errors Retry RetryOps.

Context {T : Type}.
Variable operation : nat -> Outcome T.
Variable random : nat -> Q.

Lemma withRetry_loop_shape (c : RetryConfig) (fuel : nat) :
  forall (attempt : nat) (lastError : option thrown) (slept : list Q),
    (Z.to_nat (maxAttempts c) <= fuel + attempt)%nat ->
    Z.of_nat attempt < maxAttempts c ->
    let run := withRetry_loop operation random c fuel attempt lastError
                              slept in
    (attempt < attempts run)%nat /\
    Z.of_nat (attempts run) <= maxAttempts c /\
    outcome run = operation (attempts run - 1)%nat /\
    length (delays run) = (length slept + (attempts run - 1 - attempt))%nat /\
    (forall k, (attempt <= k < attempts run - 1)%nat ->
               exists e, operation k = Threw e /\ retries c e = true) /\
    (forall e, outcome run = Threw e ->
               Z.of_nat (attempts run) = maxAttempts c \/
               retries c e = false).
Proof.
  induction fuel as [| fuel IH]; intros attempt lastError slept Hfuel Hlt;
    [lia |].
  cbn [withRetry_loop].
  destruct (Z.ltb_spec (Z.of_nat attempt) (maxAttempts c)) as [_ |]; [| lia].
  destruct (operation attempt) as [v | error] eqn:Hop.
  - cbn. replace (attempt - 0)%nat with attempt by lia. rewrite Hop.
    repeat split; try lia; try discriminate; intros k Hk; lia.
  - fold (retries c error).
    destruct (Z.leb_spec (maxAttempts c) (Z.of_nat (S attempt)))
      as [Hmax | Hmore]; cbn [orb].
    + cbn. replace (attempt - 0)%nat with attempt by lia. rewrite Hop.
      repeat split; try lia; try (intros k Hk; lia).
    + destruct (retries c error) eqn:Hretry; cbn [negb].
      * specialize (IH (S attempt) (Some error)
                       (slept ++ [delay_after random c attempt])%list
                       ltac:(lia) Hmore).
        cbv zeta in IH.
        destruct IH as (Hgt & Hle & Hout & Hlen & Hall & Hlast).
        rewrite length_app in Hlen. cbn [length] in Hlen.
        repeat split; try lia; try assumption.
        intros k Hk. destruct (Nat.eq_dec k attempt) as [-> | Hne].
        -- exists error. split; assumption.
        -- apply Hall. lia.
      * cbn. replace (attempt - 0)%nat with attempt by lia. rewrite Hop.
        repeat split; try lia; try (intros k Hk; lia).
        intros e [= <-]. right. exact Hretry.
Qed.

(** X25. Under any configuration [withRetry] calls the operation
    at least once and at most [maxAttempts] times, settles as the last
    call did, sleeps once between consecutive calls, goes on only
    after failures the retry condition accepts, and gives up only
    when the attempts are used up or the condition rejects the
    failure. With [maxAttempts] zero or negative the operation is
    never called and the promise rejects with [undefined]. *)
Theorem withRetry_run_shape :
  forall config : PartialRetryConfig,
    let c := merge defaultRetryConfig config in
    let run := withRetry operation random config in
    (maxAttempts c <= 0 ->
     attempts run = 0%nat /\ outcome run = Threw ThrownNullish /\
     delays run = []) /\
    (0 < maxAttempts c ->
     (1 <= attempts run)%nat /\
     Z.of_nat (attempts run) <= maxAttempts c /\
     outcome run = operation (attempts run - 1)%nat /\
     length (delays run) = (attempts run - 1)%nat /\
     (forall k, (k < attempts run - 1)%nat ->
                exists e, operation k = Threw e /\ retries c e = true) /\
     (forall e, outcome run = Threw e ->
                Z.of_nat (attempts run) = maxAttempts c \/
                retries c e = false)).
Proof.
  intros config c run. subst run. unfold withRetry. fold c. cbv zeta.
  split.
  - intros Hmax. replace (Z.to_nat (maxAttempts c)) with 0%nat by lia.
    cbn. repeat split.
  - intros Hmax.
    destruct (withRetry_loop_shape c (Z.to_nat (maxAttempts c)) 0 None []
                ltac:(lia) ltac:(lia))
      as (Hgt & Hle & Hout & Hlen & Hall & Hlast).
    cbn [length] in Hlen.
    repeat split; try lia; try assumption.
    intros k Hk. apply Hall. lia.
Qed.

End RetryShape.

Section RetryShapeExamples.
Import Errors Retry RetryOps.

Example withRetry_no_attempts :
  let never := {| p_maxAttempts := Some 0; p_baseDelay := None;
                  p_maxDelay := None; p_exponentialBackoff := None;
                  p_retryCondition := None |} in
  withRetry (fun _ => Returned 42) (fun _ => 0%Q) never
  = {| outcome := Threw ThrownNullish; attempts := 0; delays := [] |}.
Proof. reflexivity. Qed.

End RetryShapeExamples.

(** ** The detector: version normalisation *)

Section VersionNormalisation.
Import JS Errors Constants Version Detector DetectorOps VersionSpec.

Example normalizeVersion_build_suffix :
  normalizeVersion "UniFi OS 9.0.108-beta.2" = "9.0.108".
Proof. reflexivity. Qed.

Example normalizeVersion_no_triple : normalizeVersion "9.0" = "9.0".
Proof. reflexivity. Qed.

Lemma append_cons (x : ascii) (d r : string) :
  (String x d ++ r)%string = String x (d ++ r).
Proof. reflexivity. Qed.

Lemma append_empty_r (s : string) : (s ++ "")%string = s.
Proof.
  induction s as [| x s IH]; [reflexivity |].
  rewrite append_cons, IH. reflexivity.
Qed.

Lemma span_digits_spec (s : string) :
  s = (fst (span_digits s) ++ snd (span_digits s))%string /\
  all_digits (fst (span_digits s)) = true /\ stops (snd (span_digits s)).
Proof.
  induction s as [| c t IH]; [cbn; auto |].
  cbn [span_digits]. destruct (is_digit c) eqn:Hc.
  - destruct (span_digits t) as [d r]. cbn [fst snd] in *.
    destruct IH as (Heq & Hd & Hr). cbn [fst snd all_digits].
    rewrite append_cons, Hc, Hd, <- Heq. auto.
  - cbn. auto.
Qed.

Lemma span_digits_app (d r : string) :
  all_digits d = true -> stops r -> span_digits (d ++ r) = (d, r).
Proof.
  intros Hd Hr. induction d as [| x d IH].
  - change ("" ++ r)%string with r. destruct r as [| c t]; [reflexivity |].
    cbn in *. rewrite Hr. reflexivity.
  - cbn in Hd. apply andb_true_iff in Hd. destruct Hd as [Hx Hd].
    rewrite append_cons. cbn [span_digits]. rewrite Hx, (IH Hd).
    reflexivity.
Qed.

Lemma stops_dot (r : string) : stops (String "." r).
Proof. reflexivity. Qed.

Lemma digit_not_dot (x : ascii) :
  is_digit x = true -> Ascii.eqb x "." = false.
Proof.
  destruct x as [[] [] [] [] [] [] [] []]; cbn; intros H;
    first [reflexivity | discriminate H].
Qed.

Lemma split_digits (d : string) :
  all_digits d = true -> split "." d = [d].
Proof.
  induction d as [| x d IH]; [reflexivity |].
  cbn [all_digits]. intros H. apply andb_true_iff in H. destruct H as [Hx Hd].
  cbn [split]. rewrite (digit_not_dot x Hx), (IH Hd). reflexivity.
Qed.

Lemma split_digits_dot (d r : string) :
  all_digits d = true ->
  split "." (d ++ String "." r) = d :: split "." r.
Proof.
  induction d as [| x d IH]; [reflexivity |].
  cbn [all_digits]. intros H. apply andb_true_iff in H. destruct H as [Hx Hd].
  rewrite append_cons. cbn [split].
  rewrite (digit_not_dot x Hx), (IH Hd). reflexivity.
Qed.

(** The shape of a match of the pattern. *)
Lemma match_here_shape (s m : string) :
  match_here s = Some m ->
  exists a b c,
    m = (a ++ String "." (b ++ String "." c))%string /\
    a <> "" /\ b <> "" /\ c <> "" /\
    all_digits a = true /\ all_digits b = true /\ all_digits c = true.
Proof.
  unfold match_here.
  pose proof (span_digits_spec s) as (_ & Ha & _).
  destruct (span_digits s) as [a r1]. cbn [fst snd] in *.
  destruct a as [| a0 a']; [discriminate |].
  destruct r1 as [| ch1 r1']; [discriminate |].
  destruct ch1 as [[] [] [] [] [] [] [] []]; try discriminate.
  pose proof (span_digits_spec r1') as (_ & Hb & _).
  destruct (span_digits r1') as [b r2]. cbn [fst snd] in *.
  destruct b as [| b0 b']; [discriminate |].
  destruct r2 as [| ch2 r2']; [discriminate |].
  destruct ch2 as [[] [] [] [] [] [] [] []]; try discriminate.
  pose proof (span_digits_spec r2') as (_ & Hc & _).
  destruct (span_digits r2') as [c r3]. cbn [fst snd] in *.
  destruct c as [| c0 c']; [discriminate |].
  intros [= <-].
  exists (String a0 a'), (String b0 b'), (String c0 c').
  repeat split; try assumption; discriminate.
Qed.

Lemma match_here_fixed (a b c : string) :
  a <> "" -> b <> "" -> c <> "" ->
  all_digits a = true -> all_digits b = true -> all_digits c = true ->
  match_here (a ++ String "." (b ++ String "." c))
  = Some (a ++ String "." (b ++ String "." c))%string.
Proof.
  intros Hna Hnb Hnc Ha Hb Hc. unfold match_here.
  rewrite (span_digits_app a _ Ha (stops_dot _)).
  destruct a as [| a0 a']; [contradiction |].
  rewrite (span_digits_app b _ Hb (stops_dot _)).
  destruct b as [| b0 b']; [contradiction |].
  rewrite <- (append_empty_r c) at 1.
  rewrite (span_digits_app c "" Hc I).
  destruct c as [| c0 c']; [contradiction |]. reflexivity.
Qed.

Lemma first_match_here (v m : string) :
  first_match v = Some m -> exists s, match_here s = Some m.
Proof.
  induction v as [| x v IH]; cbn [first_match].
  - destruct (match_here "") eqn:H; [| discriminate].
    intros [= <-]. eauto.
  - destruct (match_here (String x v)) eqn:H; [intros [= <-]; eauto |].
    exact IH.
Qed.

Lemma first_match_of_match (m : string) :
  match_here m = Some m -> first_match m = Some m.
Proof.
  intros H. destruct m; cbn [first_match]; rewrite H; reflexivity.
Qed.

(** X26. [normalizeVersion] either finds no dotted triple
    and returns its argument unchanged, or returns a version of
    exactly three components, each a non-empty string of digits; in
    both cases normalising again changes nothing. *)
Theorem normalizeVersion_canonical :
  forall v : string,
    (first_match v = None /\ normalizeVersion v = v \/
     decimal_version (normalizeVersion v) /\
     length (split "." (normalizeVersion v)) = 3%nat) /\
    normalizeVersion (normalizeVersion v) = normalizeVersion v.
Proof.
  intros v.
  destruct (first_match v) as [m |] eqn:Hm.
  - assert (Hn : normalizeVersion v = m)
      by (unfold normalizeVersion; rewrite Hm; reflexivity).
    rewrite Hn.
    destruct (first_match_here v m Hm) as [s Hs].
    destruct (match_here_shape s m Hs)
      as (a & b & c & -> & Hna & Hnb & Hnc & Ha & Hb & Hc).
    split.
    + right. unfold decimal_version, decimal_component.
      rewrite (split_digits_dot a _ Ha), (split_digits_dot b _ Hb),
        (split_digits c Hc).
      split; [| reflexivity].
      repeat constructor; assumption.
    + unfold normalizeVersion.
      rewrite (first_match_of_match _
                 (match_here_fixed a b c Hna Hnb Hnc Ha Hb Hc)).
      reflexivity.
  - assert (Hn : normalizeVersion v = v)
      by (unfold normalizeVersion; rewrite Hm; reflexivity).
    rewrite !Hn. split; [left; split; reflexivity | reflexivity].
Qed.

End VersionNormalisation.

(** ** The detector: the capability snapshot *)

Section CapabilitySnapshot.
Import JS Errors Constants Version Detector DetectorOps.



End CapabilitySnapshot.

(** ** Error factories *)

Section ErrorFactories.
Import JS Errors ErrorFactory.

Example fromHttpError_bad_gateway :
  fromHttpError {| response := Some {| r_status := Some 502;
                                       r_data := VString "Bad Gateway";
                                       r_retry_after := VUndefined |};
                   own_status := None;
                   own_message := VString "Request failed";
                   own_details := VUndefined |}
  = Returned {| b_name := "ConnectionError"; b_message := "Request failed";
                b_code := CONNECTION_FAILED; b_statusCode := 503;
                b_details := Given (VString "Bad Gateway");
                b_retryable := true |}.
Proof. reflexivity. Qed.

Example fromHttpError_no_response :
  fromHttpError {| response := None; own_status := None;
                   own_message := VString "socket hang up";
                   own_details := VUndefined |}
  = Returned {| b_name := "ConnectionError"; b_message := "socket hang up";
                b_code := CONNECTION_FAILED; b_statusCode := 503;
                b_details := Given VUndefined; b_retryable := true |}.
Proof. reflexivity. Qed.

Lemma status_of_nonzero (f : HttpFailure) : status_of f <> 0.
Proof.
  unfold status_of, number_or.
  destruct (response f) as [r |]; [destruct (r_status r) as [n |] |];
    destruct (own_status f) as [m |];
    repeat match goal with
           | |- context [?x =? 0] => destruct (Z.eqb_spec x 0)
           end; lia.
Qed.

Ltac by_status status :=
  repeat match goal with
         | |- context [status =? ?k] =>
             destruct (Z.eqb_spec status k); try lia
         end;
  cbn [orb].

Ltac settle_retryable :=
  split;
  [ split;
    [ intros Hr; first [discriminate Hr | lia | apply Z.leb_le in Hr; lia]
    | intros Hs; first [reflexivity | lia | apply Z.leb_le; lia] ]
  | first [reflexivity | lia] ].

(** X28. The error [fromHttpError] builds is retryable exactly
    for the statuses 408, 429 and those from 500 up, a missing or
    zero status counting as 500; it carries the status it was built
    from, except that 500, 502 and 504 are reported as 503; and the
    factory itself fails only for a 401 whose message is not a
    string. *)
Theorem fromHttpError_classification :
  forall f : HttpFailure,
    (forall b : Built,
        fromHttpError f = Returned b ->
        (b_retryable b = true <->
         status_of f = 408 \/ status_of f = 429 \/ 500 <= status_of f) /\
        b_statusCode b
        = (if (status_of f =? 500) || (status_of f =? 502)
              || (status_of f =? 504)
           then 503 else status_of f)) /\
    (forall e : thrown,
        fromHttpError f = Threw e ->
        status_of f = 401 /\
        forall s, message_of_failure f <> VString s).
Proof.
  intros f. unfold fromHttpError. cbv zeta.
  set (status := status_of f). split.
  - intros b. by_status status;
      try (destruct (message_of_failure f); try discriminate;
           destruct (includes _ _));
      intros [= <-]; cbn [b_retryable b_statusCode]; settle_retryable.
  - intros e. by_status status; try discriminate.
    intros He. split; [assumption |]. intros s Hs. rewrite Hs in He.
    destruct (includes _ _); discriminate.
Qed.

(** X29. [fromNetworkError] builds a connection error with
    status 503, or for the codes [ETIMEDOUT] and [ECONNABORTED] a
    timeout error with status 408; the error is not retryable exactly
    when the code is [ENOTFOUND], starts with [CERT_] or is
    [UNABLE_TO_VERIFY_LEAF_SIGNATURE]. *)
Theorem fromNetworkError_classification :
  forall f : NetworkFailure,
    let b := fromNetworkError f in
    (b_code b = NETWORK_TIMEOUT /\ b_statusCode b = 408 /\
     (n_code f = Some "ETIMEDOUT" \/ n_code f = Some "ECONNABORTED") \/
     b_code b = CONNECTION_FAILED /\ b_statusCode b = 503 /\
     n_code f <> Some "ETIMEDOUT" /\ n_code f <> Some "ECONNABORTED") /\
    (b_retryable b = false <->
     exists c, n_code f = Some c /\
               (c = "ENOTFOUND" \/ String.prefix "CERT_" c = true \/
                c = "UNABLE_TO_VERIFY_LEAF_SIGNATURE")).
Proof.
  intros f b. subst b. unfold fromNetworkError, code_is.
  destruct (n_code f) as [c |].
  - destruct (String.eqb_spec c "ECONNREFUSED") as [-> | H1].
    { cbn. split; [right; repeat split; discriminate |].
      split; [discriminate |].
      intros (c & [= <-] & [H | [H | H]]); discriminate. }
    destruct (String.eqb_spec c "ENOTFOUND") as [-> | H2].
    { cbn. split; [right; repeat split; discriminate |].
      split; [eauto | reflexivity]. }
    destruct (String.eqb_spec c "ETIMEDOUT") as [-> | H3].
    { cbn. split; [left; auto |].
      split; [discriminate |].
      intros (c & [= <-] & [H | [H | H]]); discriminate. }
    destruct (String.eqb_spec c "ECONNABORTED") as [-> | H4].
    { cbn. split; [left; auto |].
      split; [discriminate |].
      intros (c & [= <-] & [H | [H | H]]); discriminate. }
    cbn [orb].
    destruct (String.prefix "CERT_" c) eqn:Hp; cbn [orb].
    { cbn. split; [right; repeat split; congruence |].
      split; [eauto | reflexivity]. }
    destruct (String.eqb_spec c "UNABLE_TO_VERIFY_LEAF_SIGNATURE")
      as [-> | H5].
    { cbn. split; [right; repeat split; discriminate |].
      split; [eauto 6 | reflexivity]. }
    cbn. split; [right; repeat split; congruence |].
    split; [discriminate |].
    intros (c' & [= <-] & [H | [H | H]]); congruence.
  - cbn. split; [right; repeat split; discriminate |].
    split; [discriminate |]. intros (c & [=] & _).
Qed.

End ErrorFactories.
